(** * lego_builder: the brick export pipeline

    A shallow embedding of [export_to_blender.py] and of the brick-building
    part of [interactive_bricks.py], with the properties of the assembly
    pipeline stated and proved over it; then of their callers: the command
    line of [export_to_blender.py], [render_custom_bricks] of
    [render_bricks.py] and the brick input of the interactive menu.

    Python values are modelled by the inductive [pyval]; a function that can
    raise returns a [result]; a [dict] is an association list in insertion
    order (the order [.items()] yields), its keys pairwise distinct. *)

From Stdlib Require Import String Ascii List ZArith Bool Lia Floats.
From Stdlib Require Import Permutation.
From Stdlib Require Import DecimalString DecimalNat.
From Stdlib Require DecimalFacts.
Import ListNotations.

Local Open Scope string_scope.
Local Open Scope list_scope.
Local Open Scope Z_scope.

Set Implicit Arguments.
Set Warnings "-register-all".

(** ** Python values and exceptions *)

(** The values [json.load] can produce, and the tuples the code builds from
    them.  Numbers are carried around by the pipeline and never computed on. *)
Inductive pyval : Type :=
| PNone
| PBool (b : bool)
| PInt (z : Z)
| PFloat (f : float)
| PStr (s : string)
| PList (items : list pyval)
| PTuple (items : list pyval)
| PDict (entries : list (string * pyval)).

Inductive exn : Type :=
| KeyError
| IndexError
| ValueError
| TypeError
| AttributeError
| CollaboratorError (what : string).

Inductive result (A : Type) : Type :=
| Ok (a : A)
| Raise (e : exn).

Arguments Ok {A} a.
Arguments Raise {A} e.

Definition bind {A B : Type} (r : result A) (k : A -> result B) : result B :=
  match r with
  | Ok a => k a
  | Raise e => Raise e
  end.

Notation "x <- r ;; k" := (bind r (fun x => k))
  (at level 61, r at next level, right associativity).
Notation "' pat <- r ;; k" := (bind r (fun x => match x with pat => k end))
  (at level 61, pat pattern, r at next level, right associativity).

Definition is_ok {A : Type} (r : result A) : bool :=
  match r with Ok _ => true | Raise _ => false end.

(** ** Strings

    A Python [str] is modelled by a [string] of ASCII characters: the
    builtins below ([int], [str.lower], [os.path.splitext]) are the ASCII
    fragment of the interpreter's. *)

Definition in_range (lo hi : nat) (c : ascii) : bool :=
  (Nat.leb lo (nat_of_ascii c) && Nat.leb (nat_of_ascii c) hi)%bool.

(** [Py_ISSPACE]: tab, newline, vertical tab, form feed, carriage return,
    space. *)
Definition is_space (c : ascii) : bool :=
  (in_range 9 13 c || Ascii.eqb c " ")%bool.

Definition is_digit (c : ascii) : bool := in_range 48 57 c.

Definition digit_value (c : ascii) : Z := Z.of_nat (nat_of_ascii c) - 48.

Fixpoint lstrip (s : list ascii) : list ascii :=
  match s with
  | c :: r => if is_space c then lstrip r else s
  | [] => []
  end.

Definition strip (s : list ascii) : list ascii :=
  rev (lstrip (rev (lstrip s))).

(** The digit scanner of [int]: decimal digits, single underscores allowed
    between two digits only.  [prev] tells whether the previous character was
    a digit. *)
Fixpoint scan_digits (prev : bool) (acc : Z) (s : list ascii) : option Z :=
  match s with
  | [] => if prev then Some acc else None
  | c :: r =>
      if is_digit c then scan_digits true (10 * acc + digit_value c) r
      else if Ascii.eqb c "_" then
             if prev then scan_digits false acc r else None
           else None
  end.

(** [int(s)] for a [str] in base 10: surrounding whitespace is dropped, one
    sign is accepted, and [None] stands for the [ValueError] it raises.  The
    interpreter's configurable cap on the number of digits is not modelled. *)
Definition py_int (s : string) : option Z :=
  match strip (list_ascii_of_string s) with
  | "+"%char :: r => scan_digits false 0 r
  | "-"%char :: r => option_map Z.opp (scan_digits false 0 r)
  | t => scan_digits false 0 t
  end.

Definition lower_char (c : ascii) : ascii :=
  if in_range 65 90 c then ascii_of_nat (nat_of_ascii c + 32) else c.

(** [str.lower] *)
Definition lower (s : string) : string :=
  string_of_list_ascii (map lower_char (list_ascii_of_string s)).

(** [str.rfind] for a one-character needle: the last index, or -1. *)
Fixpoint rfind_from (c : ascii) (s : list ascii) (i last : Z) : Z :=
  match s with
  | [] => last
  | x :: r => rfind_from c r (i + 1) (if Ascii.eqb x c then i else last)
  end.

Definition rfind (c : ascii) (s : list ascii) : Z := rfind_from c s 0 (-1).

(** The [while] loop of [genericpath._splitext]: is there, among the [n]
    characters from index [i] on, one that is not the extension separator? *)
Fixpoint has_name_char (p : list ascii) (i : Z) (n : nat) : bool :=
  match n with
  | O => false
  | S n' =>
      match nth_error p (Z.to_nat i) with
      | Some c => if Ascii.eqb c "." then has_name_char p (i + 1) n' else true
      | None => true
      end
  end.

(** [os.path.splitext] of [posixpath] ([sep] is the slash, no [altsep]). *)
Definition splitext (path : string) : string * string :=
  let p := list_ascii_of_string path in
  let sepIndex := rfind "/" p in
  let dotIndex := rfind "." p in
  if (dotIndex >? sepIndex)
     && has_name_char p (sepIndex + 1) (Z.to_nat (dotIndex - (sepIndex + 1)))
  then (string_of_list_ascii (firstn (Z.to_nat dotIndex) p),
        string_of_list_ascii (skipn (Z.to_nat dotIndex) p))
  else (path, "").

(** [s[1:]] *)
Definition drop_first (s : string) : string :=
  match s with
  | EmptyString => EmptyString
  | String _ r => r
  end.

Fixpoint rstrip_slash (s : list ascii) : list ascii :=
  match s with
  | "/"%char :: r => rstrip_slash r
  | _ => s
  end.

(** [os.path.dirname] of [posixpath]. *)
Definition dirname (path : string) : string :=
  let p := list_ascii_of_string path in
  let head := firstn (Z.to_nat (rfind "/" p + 1)) p in
  if forallb (Ascii.eqb "/") head then string_of_list_ascii head
  else string_of_list_ascii (rev (rstrip_slash (rev head))).

(** ** Operations of the interpreter on values *)

Fixpoint dict_get (d : list (string * pyval)) (k : string) : option pyval :=
  match d with
  | [] => None
  | (k', v) :: r => if String.eqb k' k then Some v else dict_get r k
  end.

(** [v[k]] for a [str] key. *)
Definition subscript (v : pyval) (k : string) : result pyval :=
  match v with
  | PDict d =>
      match dict_get d k with
      | Some x => Ok x
      | None => Raise KeyError
      end
  | _ => Raise TypeError
  end.

(** [v[j]] for a non-negative [int] index.  The keys of a dict that comes
    from JSON are strings, so an integer is never among them. *)
Definition subscript_int (v : pyval) (j : nat) : result pyval :=
  match v with
  | PList l | PTuple l =>
      match nth_error l j with
      | Some x => Ok x
      | None => Raise IndexError
      end
  | PStr s =>
      match String.get j s with
      | Some c => Ok (PStr (String c EmptyString))
      | None => Raise IndexError
      end
  | PDict _ => Raise KeyError
  | _ => Raise TypeError
  end.

(** [len(v)] *)
Definition py_len (v : pyval) : result nat :=
  match v with
  | PList l | PTuple l => Ok (length l)
  | PStr s => Ok (String.length s)
  | PDict d => Ok (length d)
  | _ => Raise TypeError
  end.

Definition is_str (k : string) (v : pyval) : bool :=
  match v with
  | PStr s => String.eqb s k
  | _ => false
  end.

Fixpoint is_substring (k s : string) : bool :=
  (String.prefix k s ||
   match s with
   | EmptyString => false
   | String _ r => is_substring k r
   end)%bool.

(** [k in v] for a [str] [k]. *)
Definition py_in (k : string) (v : pyval) : result bool :=
  match v with
  | PDict d => Ok (match dict_get d k with Some _ => true | None => false end)
  | PList l | PTuple l => Ok (existsb (is_str k) l)
  | PStr s => Ok (is_substring k s)
  | _ => Raise TypeError
  end.

Fixpoint chars (s : string) : list pyval :=
  match s with
  | EmptyString => []
  | String c r => PStr (String c EmptyString) :: chars r
  end.

(** [tuple(v)] *)
Definition py_tuple (v : pyval) : result pyval :=
  match v with
  | PList l | PTuple l => Ok (PTuple l)
  | PStr s => Ok (PTuple (chars s))
  | PDict d => Ok (PTuple (map (fun kv => PStr (fst kv)) d))
  | _ => Raise TypeError
  end.

(** [d.items()] *)
Definition py_items (v : pyval) : result (list (string * pyval)) :=
  match v with
  | PDict d => Ok d
  | _ => Raise AttributeError
  end.

(** ** Bricks and meshes *)

(** Modelled from the spec: [bricks.brick_info.Brick] is declared outside
    these sources.  It is the PlacementRecord of 3 without its colour, which
    the code keeps in a list of its own; the constructor is taken to store
    its three arguments as they are. *)
Record Brick : Type := mkBrick {
  brick_type : pyval;
  position : pyval;
  rotation : pyval
}.

Definition vertex : Type := (float * float * float)%type.
Definition face : Type := (Z * Z * Z)%type.

(** Modelled from the spec: the Mesh of 3, which is a [trimesh.Trimesh]: a
    vertex array and the faces that index it.  The colour data of a mesh is
    not modelled. *)
Record Mesh : Type := mkMesh {
  vertices : list vertex;
  faces : list face
}.

Inductive export_result : Type :=
| Merged (mesh : Mesh)
| Separate (meshes : list Mesh).

Definition shift_face (offset : Z) (f : face) : face :=
  let '(a, b, c) := f in (a + offset, b + offset, c + offset).

Fixpoint append_faces (offset : Z) (ms : list Mesh) : list vertex * list face :=
  match ms with
  | [] => ([], [])
  | m :: r =>
      let '(vs, fs) := append_faces (offset + Z.of_nat (length (vertices m))) r in
      (vertices m ++ vs, map (shift_face offset) (faces m) ++ fs)
  end.

(** Modelled from the spec: [trimesh.util.concatenate] is outside these
    sources.  Following 4.4, the vertex lists are concatenated in input order
    and each mesh's faces are re-indexed by the cumulative vertex count seen so
    far; zero meshes give the empty mesh, and one mesh gives a copy of
    itself. *)
Definition concatenate (ms : list Mesh) : Mesh :=
  match ms with
  | [] => mkMesh [] []
  | [m] => m
  | _ => let '(vs, fs) := append_faces 0 ms in mkMesh vs fs
  end.




(** What the functions do to the outside world, in order.  A call that
    raises is modelled by its exception alone: what it printed before is not
    kept. *)
Inductive event : Type :=
| PrintLoading (json_path : string)
| PrintFound (n : nat)
| MakeDirs (dir : string)
| MeshExport (mesh : Mesh) (path : string) (file_type : option string)
| PrintExported (path : string)
| PrintFormat (format : string)
| PrintVertices (n : nat)
| PrintFaces (n : nat).

Definition identity_quaternion : pyval := PTuple [PInt 1; PInt 0; PInt 0; PInt 0].

(** ** export_to_blender.py *)

(** The format selector of [export_to_file]: the argument, or, when it is
    [None], [os.path.splitext(output_path)[1][1:].lower()]. *)
Definition resolve_format (output_path : string) (format : option string) : string :=
  match format with
  | None => lower (drop_first (snd (splitext output_path)))
  | Some f => f
  end.

(** The [file_type] keyword that the [if]/[elif] chain of [export_to_file]
    hands to [mesh.export]; [None] is the last branch, which passes none and
    leaves the choice to the serializer. *)
Definition export_file_type (format : string) : option string :=
  if String.eqb format "obj" then Some "obj"
  else if String.eqb format "ply" then Some "ply"
  else if String.eqb format "stl" then Some "stl"
  else if (String.eqb format "glb" || String.eqb format "gltf")%bool then Some "glb"
  else None.

(** [os.path.dirname(output_path) if os.path.dirname(output_path) else '.'] *)
Definition export_dir (output_path : string) : string :=
  if String.eqb (dirname output_path) "" then "." else dirname output_path.

Section Files.

(** [os.makedirs(dir, exist_ok=True)]: it raises when the directory can not
    be made. *)
Variable makedirs : string -> result unit.

(** [mesh.export(path, file_type=...)] of trimesh, and [mesh.export(path)]
    when the file type is [None]: it raises when it has no exporter for the
    file type, or for the suffix of the path when no file type is passed, and
    when the file can not be written. *)
Variable mesh_export : Mesh -> string -> option string -> result unit.

(** The four lines are printed only once both calls have returned: when one
    of them raises, so does [export_to_file], and nothing is printed. *)
Definition export_to_file (mesh : Mesh) (output_path : string)
    (format : option string) : result (list event) :=
  let format := resolve_format output_path format in
  _ <- makedirs (export_dir output_path);;
  _ <- mesh_export mesh output_path (export_file_type format);;
  Ok [ MakeDirs (export_dir output_path);
       MeshExport mesh output_path (export_file_type format);
       PrintExported output_path;
       PrintFormat format;
       PrintVertices (length (vertices mesh));
       PrintFaces (length (faces mesh)) ].

End Files.

Section Pipeline.

(** [bricks.bricks.brick2mesh], the geometry collaborator. *)
Variable brick2mesh : Brick -> pyval -> result Mesh.

(** [bricks.brick_info.dict_to_cbrick(entry, no_check)] followed by
    [.bricks]: the sub-bricks of a composite entry. *)
Variable dict_to_cbrick : pyval -> bool -> result (list Brick).

(** [os.makedirs] and the [export] method of a mesh, as [export_to_file]
    calls them. *)
Variable makedirs : string -> result unit.
Variable mesh_export : Mesh -> string -> option string -> result unit.

Definition export_brick_to_mesh (brick : Brick) (color : pyval) : result Mesh :=
  brick2mesh brick color.

(** [colors[i] if colors and i < len(colors) else None] *)
Definition pick_color (colors : option (list pyval)) (i : nat) : result pyval :=
  match colors with
  | Some cs =>
      if (negb (Nat.eqb (length cs) 0) && Nat.ltb i (length cs))%bool then
        match nth_error cs i with
        | Some c => Ok c
        | None => Raise IndexError
        end
      else Ok PNone
  | None => Ok PNone
  end.

(** One turn of the loop of [export_bricks_to_mesh]. *)
Definition convert_at (colors : option (list pyval)) (i : nat) (brick : Brick)
    : result Mesh :=
  color <- pick_color colors i;;
  export_brick_to_mesh brick color.

(** [for i, brick in enumerate(bricks)], from index [i] on. *)
Fixpoint convert_from (colors : option (list pyval)) (i : nat)
    (bricks : list Brick) (meshes : list Mesh) : result (list Mesh) :=
  match bricks with
  | [] => Ok meshes
  | brick :: rest =>
      mesh <- convert_at colors i brick;;
      convert_from colors (S i) rest (meshes ++ [mesh])
  end.

Definition export_bricks_to_mesh (bricks : list Brick)
    (colors : option (list pyval)) (merge : bool) : result export_result :=
  meshes <- convert_from colors 0 bricks [];;
  if merge then Ok (Merged (concatenate meshes)) else Ok (Separate meshes).

(** [tuple(entry['color'])] if [with_colors and 'color' in entry], else
    [None]. *)
Definition entry_color (with_colors : bool) (entry : pyval) : result pyval :=
  if with_colors then
    has_color <- py_in "color" entry;;
    if (has_color : bool) then c <- subscript entry "color";; py_tuple c
    else Ok PNone
  else Ok PNone.

Definition collected : Type := (list Brick * list pyval)%type.

(** [for sub_brick in cbrick.bricks] *)
Fixpoint append_sub_bricks (with_colors : bool) (entry : pyval)
    (subs : list Brick) (st : collected) : result collected :=
  match subs with
  | [] => Ok st
  | sub_brick :: rest =>
      let bricks := fst st ++ [sub_brick] in
      color <- entry_color with_colors entry;;
      append_sub_bricks with_colors entry rest (bricks, snd st ++ [color])
  end.

(** The body of [for j in range(len(b_step))], [entry] being the value of
    [b_step[j]]. *)
Definition process_item (with_colors : bool) (entry : pyval) (st : collected)
    : result collected :=
  transform <- subscript entry "brick_transform";;
  rotation <- subscript transform "rotation";;
  position <- subscript transform "position";;
  has_type <- py_in "brick_type" entry;;
  if (has_type : bool) then
    brick_type <- subscript entry "brick_type";;
    let bricks := fst st ++ [mkBrick brick_type position rotation] in
    color <- entry_color with_colors entry;;
    Ok (bricks, snd st ++ [color])
  else
    subs <- dict_to_cbrick entry false;;
    append_sub_bricks with_colors entry subs st.

(** The source evaluates [b_step[j]] again at each use, to the same
    value. *)
Definition process_entry (with_colors : bool) (b_step : pyval) (j : nat)
    (st : collected) : result collected :=
  entry <- subscript_int b_step j;;
  process_item with_colors entry st.

Fixpoint step_loop (with_colors : bool) (b_step : pyval) (js : list nat)
    (st : collected) : result collected :=
  match js with
  | [] => Ok st
  | j :: rest =>
      st' <- process_entry with_colors b_step j st;;
      step_loop with_colors b_step rest st'
  end.

(** The part of the outer loop's body after the [continue]. *)
Definition process_step (with_colors : bool) (op : pyval) (st : collected)
    : result collected :=
  b_step <- subscript op "bricks";;
  n <- py_len b_step;;
  step_loop with_colors b_step (seq 0 n) st.

(** The loop of a step whose [bricks] is a list, entry by entry. *)
Fixpoint items_loop (with_colors : bool) (entries : list pyval)
    (st : collected) : result collected :=
  match entries with
  | [] => Ok st
  | entry :: rest =>
      st' <- process_item with_colors entry st;;
      items_loop with_colors rest st'
  end.

(** [only_final and int(i_str) != len(data['operations']) - 1]; [n] is
    [len(data['operations'])]. *)
Definition skips (only_final : bool) (n : Z) (i_str : string) : result bool :=
  if only_final then
    match py_int i_str with
    | Some k => Ok (negb (k =? n - 1))
    | None => Raise ValueError
    end
  else Ok false.

(** [for i_str, op in data['operations'].items()] *)
Fixpoint operations_loop (only_final with_colors : bool) (n : Z)
    (items : list (string * pyval)) (st : collected) : result collected :=
  match items with
  | [] => Ok st
  | (i_str, op) :: rest =>
      skip <- skips only_final n i_str;;
      if (skip : bool) then operations_loop only_final with_colors n rest st
      else
        st' <- process_step with_colors op st;;
        operations_loop only_final with_colors n rest st'
  end.

(** The bricks and colours [export_from_json] has collected when its loop
    ends; [data] is what [json.load] returned. *)
Definition collect_bricks (data : pyval) (only_final with_colors : bool)
    : result collected :=
  operations <- subscript data "operations";;
  items <- py_items operations;;
  operations_loop only_final with_colors (Z.of_nat (length items)) items ([], []).

(** The end of [export_from_json], from [print(f"Found ...")] on. *)
Definition export_collected (json_path output_path : string)
    (with_colors : bool) (st : collected) : result (list event) :=
  r <- export_bricks_to_mesh (fst st)
         (if with_colors then Some (snd st) else None) true;;
  match r with
  | Merged mesh =>
      evs <- export_to_file makedirs mesh_export mesh output_path None;;
      Ok (PrintLoading json_path :: PrintFound (length (fst st)) :: evs)
  | Separate _ => Raise AttributeError
  end.

Definition export_from_json (json_path : string) (data : pyval)
    (output_path : string) (only_final with_colors : bool)
    : result (list event) :=
  st <- collect_bricks data only_final with_colors;;
  export_collected json_path output_path with_colors st.

End Pipeline.

(** ** interactive_bricks.py *)

(** The two [if]s that open [create_custom_assembly]. *)
Definition assembly_rotations (brick_types : list pyval)
    (rotations : option (list pyval)) : list pyval :=
  let rotations :=
    match rotations with
    | None => repeat identity_quaternion (length brick_types)
    | Some rs => rs
    end in
  if negb (Nat.eqb (length rotations) (length brick_types))
  then repeat identity_quaternion (length brick_types)
  else rotations.

(** [zip(a, b, c)] *)
Fixpoint zip3 {A B C : Type} (a : list A) (b : list B) (c : list C)
    : list (A * B * C) :=
  match a, b, c with
  | x :: a', y :: b', z :: c' => (x, y, z) :: zip3 a' b' c'
  | _, _, _ => []
  end.

(** The list [bricks] that [create_custom_assembly] has built when its loop
    ends. *)
Definition assembly_bricks (brick_types positions : list pyval)
    (rotations : option (list pyval)) : list Brick :=
  map (fun '(brick_type, pos, rot) => mkBrick brick_type pos rot)
      (zip3 brick_types positions (assembly_rotations brick_types rotations)).

Section Interactive.

Variable Image : Type.

(** [debug.utils.visualize_bricks(bricks, highlight, adjust_camera)] *)
Variable visualize_bricks : list Brick -> bool -> bool -> result Image.

(** [create_custom_assembly] up to the rendering of the image it returns;
    saving and displaying that image are not modelled. *)
Definition create_custom_assembly (brick_types positions : list pyval)
    (rotations : option (list pyval)) (highlight : bool) : result Image :=
  visualize_bricks (assembly_bricks brick_types positions rotations)
                   highlight true.

End Interactive.

(** ** The composite expander *)

(** A position and a rotation, as the input data carries them. *)
Definition placement : Type := (pyval * pyval)%type.

Definition identity_placement : placement :=
  (PTuple [PInt 0; PInt 0; PInt 0], identity_quaternion).

Definition CompositeExpansionError : exn :=
  CollaboratorError "CompositeExpansionError".

(** The [brick_transform] of an entry, when it has one with both fields. *)
Definition transform_of (d : list (string * pyval)) : option placement :=
  match dict_get d "brick_transform" with
  | Some (PDict t) =>
      match dict_get t "position", dict_get t "rotation" with
      | Some p, Some r => Some (p, r)
      | _, _ => None
      end
  | _ => None
  end.

(** The sub-entries of a composite entry, handed to [f]; [dflt] when the
    entry has no list of them. *)
Definition with_children {A : Type} (d : list (string * pyval)) (dflt : A)
    (f : list pyval -> A) : A :=
  (fix go (kvs : list (string * pyval)) : A :=
     match kvs with
     | [] => dflt
     | (k, v) :: rest =>
         if String.eqb k "bricks" then
           match v with
           | PList cs => f cs
           | _ => dflt
           end
         else go rest
     end) d.

Definition children_of (d : list (string * pyval)) : option (list pyval) :=
  with_children d None Some.

(** The expansions of the sub-entries, one after the other; in tolerant mode
    a sub-entry that fails is skipped. *)
Definition gather (tolerant : bool) (f : pyval -> result (list Brick))
    : list pyval -> result (list Brick) :=
  fix each (cs : list pyval) : result (list Brick) :=
    match cs with
    | [] => Ok []
    | c :: rest =>
        match f c with
        | Ok bs => more <- each rest;; Ok (bs ++ more)
        | Raise e => if tolerant then each rest else Raise e
        end
    end.

Section Expander.

(** [T_parent] composed with [T_child] of 4.1, on position and rotation
    pairs; the arithmetic is floating point and stays a parameter. *)
Variable compose : placement -> placement -> placement.

(** Modelled from the spec: the Composite Expander of 4.2, which
    [dict_to_cbrick] is and which is outside these sources.  An entry is a
    dict with a [brick_transform]; with a [brick_type] it is a primitive,
    without one it is a composite whose sub-entries are, as in a step, the
    list under [bricks] (the schema of 6 names no other list).  Expansion is
    depth first and keeps the order of the sub-entries; each primitive gets
    the composition of the transforms above it; an entry of neither shape
    fails with [CompositeExpansionError], or is skipped in tolerant mode. *)
Fixpoint expand (no_check : bool) (parent : placement) (e : pyval) {struct e}
    : result (list Brick) :=
  match e with
  | PDict d =>
      match transform_of d with
      | None => Raise CompositeExpansionError
      | Some local =>
          let world := compose parent local in
          match dict_get d "brick_type" with
          | Some ty => Ok [mkBrick ty (fst world) (snd world)]
          | None =>
              with_children d (Raise CompositeExpansionError)
                (gather no_check (expand no_check world))
          end
      end
  | _ => Raise CompositeExpansionError
  end.

(** Modelled from the spec: [dict_to_cbrick(entry, no_check).bricks], the
    expansion of 4.2 started at the identity transform. *)
Definition dict_to_cbrick_spec (entry : pyval) (no_check : bool)
    : result (list Brick) :=
  expand no_check identity_placement entry.

End Expander.

(** The leaf primitives of an entry, depth first, in input order at each
    level. *)
Fixpoint leaves (e : pyval) : list pyval :=
  match e with
  | PDict d =>
      match dict_get d "brick_type" with
      | Some _ => [e]
      | None => with_children d [] (flat_map leaves)
      end
  | _ => []
  end.

(** An entry that is a valid primitive or a valid composite, all the way
    down. *)
Fixpoint valid_entry (e : pyval) : bool :=
  match e with
  | PDict d =>
      match transform_of d with
      | None => false
      | Some _ =>
          match dict_get d "brick_type" with
          | Some _ => true
          | None => with_children d false (forallb valid_entry)
          end
      end
  | _ => false
  end.

Definition leaf_type (e : pyval) : pyval :=
  match e with
  | PDict d =>
      match dict_get d "brick_type" with
      | Some ty => ty
      | None => PNone
      end
  | _ => PNone
  end.

Definition as_color (c : pyval) : pyval :=
  match c with
  | PList l => PTuple l
  | _ => c
  end.

(** The colours 4.2 asks for, leaf by leaf: the colour of the nearest
    enclosing definition that specifies one, overridden by the leaf's own. *)
Fixpoint inherited_colors (inherited : pyval) (e : pyval) : list pyval :=
  match e with
  | PDict d =>
      let c := match dict_get d "color" with
               | Some own => as_color own
               | None => inherited
               end in
      match dict_get d "brick_type" with
      | Some _ => [c]
      | None => with_children d [] (flat_map (inherited_colors c))
      end
  | _ => []
  end.

(** The collected bricks and colours of one step given by its entries. *)
Definition step_of (entries : list pyval) : pyval :=
  PDict [("bricks", PList entries)].

(** ** Sample inputs *)

Definition transform_at (x y z : Z) : pyval :=
  PDict [("position", PList [PInt x; PInt y; PInt z]);
         ("rotation", PList [PInt 1; PInt 0; PInt 0; PInt 0])].

Definition primitive_at (ty : string) (x y z : Z) : pyval :=
  PDict [("brick_type", PStr ty); ("brick_transform", transform_at x y z)].

Definition composite_at (x y z : Z) (children : list pyval) : pyval :=
  PDict [("brick_transform", transform_at x y z); ("bricks", PList children)].

Definition with_color (r g b : Z) (e : pyval) : pyval :=
  match e with
  | PDict d => PDict (d ++ [("color", PList [PInt r; PInt g; PInt b])])
  | _ => e
  end.

Definition fields_of (e : pyval) : list (string * pyval) :=
  match e with
  | PDict d => d
  | _ => []
  end.

Definition data_of (steps : list (string * pyval)) : pyval :=
  PDict [("operations", PDict steps)].

Definition add_coordinates (p q : pyval) : pyval :=
  match p, q with
  | PTuple [PInt a; PInt b; PInt c], PList [PInt x; PInt y; PInt z]
  | PList [PInt a; PInt b; PInt c], PList [PInt x; PInt y; PInt z] =>
      PList [PInt (a + x); PInt (b + y); PInt (c + z)]
  | _, _ => q
  end.

(** Composition of transforms on the integer grid whose parents are not
    rotated: positions add up, the child's rotation stays. *)
Definition grid_compose (parent child : placement) : placement :=
  (add_coordinates (fst parent) (fst child), snd child).

(** A stand-in for the geometry collaborator: a quad for type 3001, a
    triangle for type 3002, an error for any other type. *)
Definition sample_brick2mesh (brick : Brick) (color : pyval) : result Mesh :=
  match brick_type brick with
  | PStr "3001" =>
      Ok (mkMesh [(0, 0, 0); (1, 0, 0); (1, 1, 0); (0, 1, 0)]%float
                 [(0, 1, 2); (0, 2, 3)])
  | PStr "3002" =>
      Ok (mkMesh [(0, 0, 0); (1, 0, 0); (0, 1, 0)]%float [(0, 1, 2)])
  | _ => Raise (CollaboratorError "UnknownBrickTypeError")
  end.

Definition sample_expander : pyval -> bool -> result (list Brick) :=
  dict_to_cbrick_spec grid_compose.

Definition sample_bricks : list Brick :=
  [mkBrick (PStr "3001") (PList [PInt 0; PInt 0; PInt 0]) identity_quaternion;
   mkBrick (PStr "3002") (PList [PInt 20; PInt 0; PInt 0]) identity_quaternion;
   mkBrick (PStr "3001") (PList [PInt 0; PInt 0; PInt 8]) identity_quaternion].

Definition red : pyval := PTuple [PInt 255; PInt 0; PInt 0].

(** Three steps, keys out of order. *)
Definition shuffled_steps : list (string * pyval) :=
  [("2", step_of [primitive_at "3001" 0 0 0; primitive_at "3002" 20 0 0]);
   ("0", step_of [primitive_at "3001" 0 0 0]);
   ("1", step_of [primitive_at "3002" 0 0 8])].

(** Two steps whose keys leave a gap. *)
Definition gap_steps : list (string * pyval) :=
  [("0", step_of [primitive_at "3001" 0 0 0]);
   ("5", step_of [primitive_at "3002" 0 0 8])].

(** Three steps numbered from one, the way a manual counts them. *)
Definition offset_steps : list (string * pyval) :=
  [("1", step_of [primitive_at "3001" 0 0 0]);
   ("2", step_of [primitive_at "3002" 20 0 0]);
   ("3", step_of [primitive_at "3002" 0 0 8])].

Definition named_steps : list (string * pyval) :=
  [("first", step_of [primitive_at "3001" 0 0 0])].

(** A stand-in for [os.makedirs]: every directory can be made but those
    under [/proc]. *)
Definition sample_makedirs (dir : string) : result unit :=
  if String.prefix "/proc" dir then Raise (CollaboratorError "OSError")
  else Ok tt.

(** A stand-in for the serializer, after [trimesh.exchange.export.export_mesh]:
    without a file type it takes what follows the last dot of the path, in
    lower case, and it raises [ValueError] for a type it has no exporter
    for. *)
Definition sample_mesh_export (mesh : Mesh) (path : string)
    (file_type : option string) : result unit :=
  let file_type :=
    match file_type with
    | Some t => t
    | None =>
        let p := list_ascii_of_string path in
        lower (string_of_list_ascii (skipn (Z.to_nat (rfind "." p + 1)) p))
    end in
  if existsb (String.eqb file_type) ["obj"; "ply"; "stl"; "glb"; "gltf"; "off"]
  then Ok tt
  else Raise ValueError.

(** A red composite around one blue primitive. *)
Definition red_around_blue : pyval :=
  with_color 255 0 0
    (composite_at 10 0 0 [with_color 0 0 255 (primitive_at "3001" 0 0 0)]).

(** Scenario C of the spec, nested one level deeper. *)
Definition nested_composite : pyval :=
  composite_at 10 0 0
    [primitive_at "3001" 0 0 0;
     composite_at 0 0 8 [primitive_at "3002" 0 0 0; primitive_at "3001" 4 0 0];
     primitive_at "3002" 0 0 16].


(** ** Statements under test *)

(** [0, 1, ..., n-1] *)
Definition zrange (n : nat) : list Z := map Z.of_nat (seq 0 n).

Definition key_values (items : list (string * pyval)) : list (option Z) :=
  map (fun kv => py_int (fst kv)) items.

(** The steps the [continue] of [export_from_json] lets through when
    [only_final] is set: those whose key is [n - 1] as an integer. *)
Definition is_last_index (n : Z) (kv : string * pyval) : bool :=
  match py_int (fst kv) with
  | Some k => k =? n - 1
  | None => false
  end.

(** [k] is a key of [items] whose integer value no other key exceeds. *)
Definition greatest_key (items : list (string * pyval)) (k : string)
    (op : pyval) : Prop :=
  In (k, op) items /\
  exists z, py_int k = Some z /\
    forall k' op', In (k', op') items ->
      exists z', py_int k' = Some z' /\ z' <= z.

(** With [only_final], what is collected is what the step of the greatest
    key alone contributes. *)
Definition only_final_takes_greatest
    (dict_to_cbrick : pyval -> bool -> result (list Brick))
    (items : list (string * pyval)) : Prop :=
  forall with_colors k op,
    greatest_key items k op ->
    collect_bricks dict_to_cbrick (data_of items) true with_colors
    = process_step dict_to_cbrick with_colors op ([], []).

(** A composite entry's records get the colours of 4.2. *)
Definition composite_colors_inherited
    (dict_to_cbrick : pyval -> bool -> result (list Brick)) (entry : pyval)
    : Prop :=
  forall st,
    process_item dict_to_cbrick true entry ([], []) = Ok st ->
    snd st = inherited_colors PNone entry.

(** A step key that is no integer makes the export fail, whatever
    [only_final] is. *)
Definition bad_key_always_fails
    (brick2mesh : Brick -> pyval -> result Mesh)
    (dict_to_cbrick : pyval -> bool -> result (list Brick))
    (makedirs : string -> result unit)
    (mesh_export : Mesh -> string -> option string -> result unit)
    (items : list (string * pyval)) : Prop :=
  forall json_path output_path only_final with_colors,
    (exists k op, In (k, op) items /\ py_int k = None) ->
    exists e,
      export_from_json brick2mesh dict_to_cbrick makedirs mesh_export
        json_path (data_of items) output_path only_final with_colors
      = Raise e.

(** A run of [export_to_file] that ends without error has serialized in
    the format [ft]. *)
Definition exports_as (makedirs : string -> result unit)
    (mesh_export : Mesh -> string -> option string -> result unit)
    (output_path : string) (format : option string) (ft : string) : Prop :=
  forall mesh evs,
    export_to_file makedirs mesh_export mesh output_path format = Ok evs ->
    In (MeshExport mesh output_path (Some ft)) evs.

(** ** The command line of export_to_blender.py *)

(** [s.endswith(suffix)] *)
Definition endswith (s suffix : string) : bool :=
  let l := list_ascii_of_string s in
  let n := String.length suffix in
  (Nat.leb n (length l)
   && String.eqb (string_of_list_ascii (skipn (length l - n) l)) suffix)%bool.

(** [a or b], for strings: [None] and the empty string are false. *)
Definition py_or (a : option string) (b : string) : string :=
  match a with
  | Some s => if String.eqb s "" then b else s
  | None => b
  end.

(** The value of an optional argument when it is true: neither [None] nor
    the empty string. *)
Definition given (a : option string) : option string :=
  match a with
  | Some s => if String.eqb s "" then None else Some s
  | None => None
  end.

(** [os.path.splitext(args.output)[1][1:].lower() if args.output else None] *)
Definition format_ext (output : string) : option string :=
  if String.eqb output "" then None
  else Some (lower (drop_first (snd (splitext output)))).

(** [args.format or format_ext or 'obj'] *)
Definition output_format (format : option string) (output : string) : string :=
  py_or format (py_or (format_ext output) "obj").

(** [args.output] after the [if] that ensures its extension. *)
Definition normalized_output (format : option string) (output : string)
    : string :=
  let f := output_format format output in
  if endswith output ("." ++ f)%string then output
  else (output ++ "." ++ f)%string.

(** [f"{i:03d}"] for the non-negative [i] that [enumerate] yields: the
    decimal digits, padded with zeros on the left to three characters. *)
Definition format_03d (i : nat) : string :=
  let d := Nat.to_uint i in
  NilEmpty.string_of_uint (Nat.iter (3 - Decimal.nb_digits d) Decimal.D0 d).

(** [f"{base_name}_{i:03d}{ext}"] *)
Definition separate_file (base_name ext : string) (i : nat) : string :=
  (base_name ++ "_" ++ format_03d i ++ ext)%string.

Definition SystemExit : exn := CollaboratorError "SystemExit".

(** What [argparse] hands to [main]. *)
Record export_args : Type := mkArgs {
  arg_brick_type : option string;
  arg_brick_types : option (list string);
  arg_positions : option (list string);
  arg_rotations : option (list string);
  arg_json_path : option string;
  arg_bricks_pc_path : option string;
  arg_output : string;
  arg_format : option string;
  arg_separate : bool;
  arg_with_colors : bool;
  arg_only_final : bool;
  arg_create_blender_script : bool
}.

(** What [main] does to the outside world: what the export functions do,
    the line that counts the separate files, and the writing of the import
    script (its text and the lines printed about it are not modelled). *)
Inductive main_event : Type :=
| Exported (e : event)
| PrintSeparate (n : nat)
| WriteScript (script_path mesh_path : string).

Section CommandLine.

Variable brick2mesh : Brick -> pyval -> result Mesh.
Variable dict_to_cbrick : pyval -> bool -> result (list Brick).
Variable makedirs : string -> result unit.
Variable mesh_export : Mesh -> string -> option string -> result unit.

(** [for i, m in enumerate(meshes)], from index [i] on: a file that can not
    be written ends the loop, and what was written before stays written. *)
Fixpoint export_separate_from (base_name ext format : string) (i : nat)
    (meshes : list Mesh) : result (list main_event) :=
  match meshes with
  | [] => Ok []
  | m :: rest =>
      evs <- export_to_file makedirs mesh_export m
               (separate_file base_name ext i) (Some format);;
      more <- export_separate_from base_name ext format (S i) rest;;
      Ok (map Exported evs ++ more)
  end.

(** The branch [if meshes is not None] that ends [main]. *)
Definition export_separate (output format : string) (meshes : list Mesh)
    : result (list main_event) :=
  let base_name := fst (splitext output) in
  let ext := snd (splitext output) in
  evs <- export_separate_from base_name ext format 0 meshes;;
  Ok (evs ++ [PrintSeparate (length meshes)]).

(** [open(json_path)] followed by [json.load]. *)
Variable load_json : string -> result pyval.

(** [debug.utils.load_bricks_pc] and, for [bricks_pc.bricks],
    [debug.utils.get_elements]. *)
Variable BricksPC : Type.
Variable load_bricks_pc : string -> result BricksPC.
Variable get_elements : BricksPC -> result (list Brick).

(** [tuple(map(float, s.split(',')))] *)
Variable float_tuple : string -> result pyval.

(** The three [random.randint(100, 255)] drawn for the brick of index [i]. *)
Variable random_color : nat -> pyval.

Definition export_bricks_pc_to_mesh (bricks_pc : BricksPC)
    (colors : option (list pyval)) (merge : bool) : result export_result :=
  bricks <- get_elements bricks_pc;;
  export_bricks_to_mesh brick2mesh bricks colors merge.

(** [args.rotations and i < len(args.rotations)], then the rotation. *)
Definition custom_rotation (rotations : option (list string)) (i : nat)
    : result pyval :=
  match rotations with
  | Some rs =>
      if (negb (Nat.eqb (length rs) 0) && Nat.ltb i (length rs))%bool then
        match nth_error rs i with
        | Some rot_str => float_tuple rot_str
        | None => Raise IndexError
        end
      else Ok identity_quaternion
  | None => Ok identity_quaternion
  end.

(** [for i, brick_type in enumerate(args.brick_types)], from index [i] on. *)
Fixpoint custom_bricks_from (i : nat) (brick_types positions : list string)
    (rotations : option (list string)) (with_colors : bool) (st : collected)
    : result collected :=
  match brick_types with
  | [] => Ok st
  | brick_type :: rest =>
      if Nat.leb (length positions) i then Ok st
      else
        match nth_error positions i with
        | None => Raise IndexError
        | Some pos_str =>
            pos <- float_tuple pos_str;;
            rot <- custom_rotation rotations i;;
            let bricks := fst st ++ [mkBrick (PStr brick_type) pos rot] in
            let colors := if with_colors then snd st ++ [random_color i]
                          else snd st in
            custom_bricks_from (S i) rest positions rotations with_colors
              (bricks, colors)
        end
  end.

(** The [if]/[elif] chain of [main]: what [export_from_json] did, and the
    value of [meshes] (a [Separate]) or of [mesh] (a [Merged]) when one of
    them is set. *)
Definition main_route (args : export_args) (output : string)
    : result (list event * option export_result) :=
  match given (arg_brick_type args) with
  | Some brick_type =>
      mesh <- export_brick_to_mesh brick2mesh
                (mkBrick (PStr brick_type) (PTuple [PInt 0; PInt 0; PInt 0])
                         identity_quaternion)
                (if arg_with_colors args
                 then PTuple [PInt 255; PInt 0; PInt 0] else PNone);;
      Ok ([], Some (Merged mesh))
  | None =>
      match arg_brick_types args with
      | Some (t :: ts) =>
          match arg_positions args with
          | None | Some [] => Raise SystemExit
          | Some positions =>
              st <- custom_bricks_from 0 (t :: ts) positions
                      (arg_rotations args) (arg_with_colors args) ([], []);;
              r <- export_bricks_to_mesh brick2mesh (fst st)
                     (if arg_with_colors args then Some (snd st) else None)
                     (negb (arg_separate args));;
              Ok ([], Some r)
          end
      | _ =>
          match given (arg_json_path args) with
          | Some json_path =>
              data <- load_json json_path;;
              evs <- export_from_json brick2mesh dict_to_cbrick makedirs
                       mesh_export json_path data output
                       (arg_only_final args) (arg_with_colors args);;
              Ok (evs, None)
          | None =>
              match given (arg_bricks_pc_path args) with
              | Some path =>
                  bricks_pc <- load_bricks_pc path;;
                  r <- export_bricks_pc_to_mesh bricks_pc None
                         (negb (arg_separate args));;
                  Ok ([], Some r)
              | None => Raise SystemExit
              end
          end
      end
  end.

Definition main (args : export_args) : result (list main_event) :=
  let format := output_format (arg_format args) (arg_output args) in
  let output := normalized_output (arg_format args) (arg_output args) in
  r <- main_route args output;;
  written <- match snd r with
             | Some (Separate meshes) => export_separate output format meshes
             | Some (Merged mesh) =>
                 evs <- export_to_file makedirs mesh_export mesh output
                          (Some format);;
                 Ok (map Exported evs)
             | None => Ok []
             end;;
  Ok (map Exported (fst r) ++ written
      ++ (if arg_create_blender_script args
          then [WriteScript (fst (splitext output) ++ "_blender_import.py")%string
                            output]
          else [])).

End CommandLine.

(** ** render_bricks.py and the menu of interactive_bricks.py *)

(** The list [bricks] that [render_custom_bricks] has built when its loop
    ends. *)
Definition custom_bricks (brick_types positions rotations : list pyval)
    : list Brick :=
  map (fun '(brick_type, pos, rot) => mkBrick brick_type pos rot)
      (zip3 brick_types positions rotations).

(** [str.isspace] on ASCII: the characters of [Py_ISSPACE] and the four
    separators 28 to 31. *)
Definition is_str_space (c : ascii) : bool :=
  (in_range 9 13 c || in_range 28 32 c)%bool.

Fixpoint lstrip_str (s : list ascii) : list ascii :=
  match s with
  | c :: r => if is_str_space c then lstrip_str r else s
  | [] => []
  end.

(** [s.strip()] *)
Definition str_strip (s : string) : string :=
  string_of_list_ascii
    (rev (lstrip_str (rev (lstrip_str (list_ascii_of_string s))))).

(** [s.split()]: [word] is the word being read, last character first. *)
Fixpoint split_from (s : list ascii) (word : list ascii) : list string :=
  match s with
  | [] =>
      match word with
      | [] => []
      | _ => [string_of_list_ascii (rev word)]
      end
  | c :: r =>
      if is_str_space c then
        match word with
        | [] => split_from r []
        | _ => string_of_list_ascii (rev word) :: split_from r []
        end
      else split_from r (c :: word)
  end.

Definition str_split (s : string) : list string :=
  split_from (list_ascii_of_string s) [].

Definition EOFError : exn := CollaboratorError "EOFError".

Definition typed_bricks : Type :=
  (list pyval * list pyval * list pyval)%type.

Section Menu.

(** [float(s)]; [None] stands for the [ValueError] it raises. *)
Variable py_float : string -> option float.

(** [tuple(map(float, parts))] *)
Fixpoint float_parts (parts : list string) : result (list pyval) :=
  match parts with
  | [] => Ok []
  | p :: rest =>
      match py_float p with
      | Some f => fs <- float_parts rest;; Ok (PFloat f :: fs)
      | None => Raise ValueError
      end
  end.

(** The [while True] loop of choice 3 of [interactive_menu]; [lines] is
    what [input] returns, call after call, and the loop returns the three
    lists and the lines it has not read. *)
Fixpoint read_bricks (lines : list string) (st : typed_bricks)
    : result (typed_bricks * list string) :=
  match lines with
  | [] => Raise EOFError
  | raw :: rest =>
      let line := str_strip raw in
      if String.eqb (lower line) "done" then Ok (st, rest)
      else
        let parts := str_split line in
        if Nat.ltb (length parts) 4 then read_bricks rest st
        else
          match parts with
          | [] => Raise IndexError
          | brick_type :: _ =>
              pos <- float_parts (firstn 3 (skipn 1 parts));;
              rot <- (if Nat.leb 8 (length parts)
                      then fs <- float_parts (firstn 4 (skipn 4 parts));;
                           Ok (PTuple fs)
                      else Ok identity_quaternion);;
              let '(brick_types, positions, rotations) := st in
              read_bricks rest
                (brick_types ++ [PStr brick_type],
                 positions ++ [PTuple pos],
                 rotations ++ [rot])
          end
  end.

Variable Image : Type.
Variable visualize_bricks : list Brick -> bool -> bool -> result Image.

(** Choice 3 of [interactive_menu]: the bricks are read, then, when there
    are some, the answer about highlighting, and the assembly is rendered;
    [None] when no brick was typed. *)
Definition menu_custom_assembly (lines : list string) : result (option Image) :=
  r <- read_bricks lines ([], [], []);;
  let '(brick_types, positions, rotations) := fst r in
  match brick_types with
  | [] => Ok None
  | _ =>
      match snd r with
      | [] => Raise EOFError
      | answer :: _ =>
          image <- create_custom_assembly visualize_bricks brick_types
                     positions (Some rotations)
                     (String.eqb (lower (str_strip answer)) "y");;
          Ok (Some image)
      end
  end.

End Menu.

(** ** What the properties of the callers speak of *)

(** [os.path.basename] of [posixpath]: what follows the last slash. *)
Definition file_name (path : string) : list ascii :=
  let p := list_ascii_of_string path in
  skipn (Z.to_nat (rfind "/" p + 1)) p.

(** The file name of [path] starts with a character that is no dot. *)
Definition plain_name (path : string) : bool :=
  match file_name path with
  | c :: _ => negb (Ascii.eqb c ".")
  | [] => false
  end.

(** The values [argparse] lets through as [--format]: none, or one of its
    [choices]. *)
Definition format_choice (format : option string) : bool :=
  match format with
  | None => true
  | Some f => existsb (String.eqb f) ["obj"; "ply"; "stl"; "glb"]
  end.

(** The paths that meshes were written to. *)
Definition exported_paths (evs : list main_event) : list string :=
  flat_map (fun ev => match ev with
                      | Exported (MeshExport _ path _) => [path]
                      | _ => []
                      end) evs.

(** [line.split()], for the stripped line that choice 3 of the menu has
    read. *)
Definition line_parts (raw : string) : list string :=
  str_split (str_strip raw).

(** The line ends the loop of choice 3: it is done, in any case, within
    white space. *)
Definition is_done (raw : string) : bool :=
  String.eqb (lower (str_strip raw)) "done".

(** The line has the four fields that make a brick. *)
Definition has_brick (raw : string) : bool :=
  Nat.leb 4 (length (line_parts raw)).

(** [b] is the brick that the line [raw] describes: its type is [parts[0]],
    its position the numbers of [parts[1:4]], and its rotation the numbers of
    [parts[4:8]] when the line has eight fields, the identity quaternion when
    it has fewer. *)
Definition brick_of_line (py_float : string -> option float) (raw : string)
    (b : Brick) : Prop :=
  (exists t, nth_error (line_parts raw) 0 = Some t /\ brick_type b = PStr t)
  /\ (exists pos,
        float_parts py_float (firstn 3 (skipn 1 (line_parts raw))) = Ok pos
        /\ position b = PTuple pos)
  /\ (if Nat.leb 8 (length (line_parts raw))
      then exists rot,
             float_parts py_float (firstn 4 (skipn 4 (line_parts raw))) = Ok rot
             /\ rotation b = PTuple rot
      else rotation b = identity_quaternion).

(** The files that were written: the path, the mesh, and the file type that
    was passed to the serializer. *)
Definition exported_files (evs : list main_event)
    : list (string * Mesh * option string) :=
  flat_map (fun ev => match ev with
                      | Exported (MeshExport mesh path file_type) =>
                          [(path, mesh, file_type)]
                      | _ => []
                      end) evs.

(** ** Sample inputs of the callers *)

Definition bricks_with_unknown : list Brick :=
  [mkBrick (PStr "3001") (PList [PInt 0; PInt 0; PInt 0]) identity_quaternion;
   mkBrick (PStr "9999") (PList [PInt 20; PInt 0; PInt 0]) identity_quaternion;
   mkBrick (PStr "3002") (PList [PInt 0; PInt 0; PInt 8]) identity_quaternion].

(** A step whose second entry has no [brick_transform]. *)
Definition step_without_transform : pyval :=
  step_of [primitive_at "3001" 0 0 0;
           PDict [("brick_type", PStr "3002")];
           primitive_at "3002" 0 0 8].

(** A stand-in for the parsing of coordinates: three positions and one
    rotation are known, anything else is no number. *)
Definition sample_float_tuple (s : string) : result pyval :=
  if String.eqb s "0,0,0" then Ok (PTuple [PFloat 0; PFloat 0; PFloat 0])
  else if String.eqb s "20,0,0" then Ok (PTuple [PFloat 20; PFloat 0; PFloat 0])
  else if String.eqb s "0,0,8" then Ok (PTuple [PFloat 0; PFloat 0; PFloat 8])
  else if String.eqb s "0,1,0,0"
       then Ok (PTuple [PFloat 0; PFloat 1; PFloat 0; PFloat 0])
  else Raise ValueError.

Definition sample_random_color (i : nat) : pyval :=
  PTuple [PInt (100 + Z.of_nat i); PInt 200; PInt 255].

(** Three types, two positions, one rotation, separate files. *)
Definition custom_args : export_args :=
  mkArgs None (Some ["3001"; "3002"; "3001"]) (Some ["0,0,0"; "20,0,0"])
         (Some ["0,1,0,0"]) None None "out/model.OBJ" None true true false true.

(** What [main] does on [custom_args] with the stand-ins. *)
Definition custom_args_events : list main_event :=
  [Exported (MakeDirs "out");
   Exported (MeshExport
               (mkMesh [(0, 0, 0); (1, 0, 0); (1, 1, 0); (0, 1, 0)]%float
                       [(0, 1, 2); (0, 2, 3)])
               "out/model.OBJ_000.obj" (Some "obj"));
   Exported (PrintExported "out/model.OBJ_000.obj");
   Exported (PrintFormat "obj"); Exported (PrintVertices 4);
   Exported (PrintFaces 2); Exported (MakeDirs "out");
   Exported (MeshExport
               (mkMesh [(0, 0, 0); (1, 0, 0); (0, 1, 0)]%float [(0, 1, 2)])
               "out/model.OBJ_001.obj" (Some "obj"));
   Exported (PrintExported "out/model.OBJ_001.obj");
   Exported (PrintFormat "obj"); Exported (PrintVertices 3);
   Exported (PrintFaces 1); PrintSeparate 2;
   WriteScript "out/model.OBJ_blender_import.py" "out/model.OBJ.obj"].

(** A single brick, with every other option set as well. *)
Definition single_args : export_args :=
  mkArgs (Some "3001") (Some ["3002"]) None None (Some "in.json")
         (Some "bs.json") "brick.obj" None true false true false.

(** The same single brick, with nothing else set. *)
Definition single_args_bare : export_args :=
  mkArgs (Some "3001") None None None None None "brick.obj" None false false
         false false.

(** A stand-in for [float]: a few numerals are known. *)
Definition sample_float (s : string) : option float :=
  if String.eqb s "0" then Some 0%float
  else if String.eqb s "1" then Some 1%float
  else if String.eqb s "8" then Some 8%float
  else if String.eqb s "20" then Some 20%float
  else None.

(** What a user types at choice 3: two bricks, the second with a rotation,
    a line that is too short in between. *)
Definition typed_lines : list string :=
  ["3001 0 0 0"; "3002 20"; "  3002 20 0 0 0 1 0 0  "; "Done"; "y"].

(** What choice 3 has read from [typed_lines] when it gets to [Done]. *)
Definition typed_brick_types : list pyval := [PStr "3001"; PStr "3002"].

Definition typed_positions : list pyval :=
  [PTuple [PFloat 0; PFloat 0; PFloat 0];
   PTuple [PFloat 20; PFloat 0; PFloat 0]].

Definition typed_rotations : list pyval :=
  [identity_quaternion; PTuple [PFloat 0; PFloat 1; PFloat 0; PFloat 0]].

Definition sample_load_json (path : string) : result pyval :=
  Ok (data_of shuffled_steps).

Definition sample_load_bricks_pc (path : string) : result (list Brick) :=
  Ok sample_bricks.

Definition sample_get_elements (bricks_pc : list Brick) : result (list Brick) :=
  Ok bricks_pc.

(** * Properties *)

(** ** Strings and paths *)

Lemma string_of_list_ascii_app (a b : list ascii) :
  string_of_list_ascii (a ++ b)
  = (string_of_list_ascii a ++ string_of_list_ascii b)%string.
Proof.
  induction a as [|c a IH]; simpl; [reflexivity | now rewrite IH].
Qed.

Lemma rfind_from_spec (c : ascii) (s : list ascii) :
  forall i last,
    rfind_from c s i last = last \/
    (i <= rfind_from c s i last /\
     nth_error s (Z.to_nat (rfind_from c s i last - i)) = Some c).
Proof.
  induction s as [|x s IH]; intros i last; simpl.
  - now left.
  - destruct (IH (i + 1) (if Ascii.eqb x c then i else last)) as [E | [Hle Hn]].
    + rewrite E. destruct (Ascii.eqb_spec x c) as [-> | _].
      * right. split; [lia |]. now rewrite Z.sub_diag.
      * now left.
    + right. split; [lia |].
      replace (Z.to_nat (rfind_from c s (i + 1) (if Ascii.eqb x c then i else last) - i))
        with (S (Z.to_nat (rfind_from c s (i + 1) (if Ascii.eqb x c then i else last) - (i + 1))))
        by lia.
      exact Hn.
Qed.

Lemma rfind_spec (c : ascii) (s : list ascii) :
  rfind c s = -1 \/ (0 <= rfind c s /\ nth_error s (Z.to_nat (rfind c s)) = Some c).
Proof.
  unfold rfind. destruct (rfind_from_spec c s 0 (-1)) as [E | [Hle Hn]].
  - now left.
  - right. split; [exact Hle |]. now rewrite Z.sub_0_r in Hn.
Qed.

Lemma rfind_lower_bound (c : ascii) (s : list ascii) : -1 <= rfind c s.
Proof. destruct (rfind_spec c s) as [E | [H _]]; lia. Qed.

Lemma skipn_nth_error {A : Type} (l : list A) :
  forall n x, nth_error l n = Some x -> exists r, skipn n l = x :: r.
Proof.
  induction l as [|y l IH]; intros [|n] x H; simpl in *; try discriminate.
  - injection H as ->. now exists l.
  - now apply IH.
Qed.

(** [splitext] cuts the path in two. *)
Lemma splitext_app (path : string) :
  (fst (splitext path) ++ snd (splitext path))%string = path.
Proof.
  unfold splitext.
  destruct (_ && _)%bool; simpl.
  - rewrite <- string_of_list_ascii_app, firstn_skipn.
    apply string_of_list_ascii_of_string.
  - clear. induction path as [|c p IH]; simpl; [reflexivity | now rewrite IH].
Qed.

(** The extension is empty or starts with the dot. *)
Lemma splitext_ext (path : string) :
  snd (splitext path) = "" \/
  snd (splitext path) = String "." (drop_first (snd (splitext path))).
Proof.
  unfold splitext.
  destruct (_ && _)%bool eqn:E; simpl; [| now left].
  right. apply andb_true_iff in E. destruct E as [Hgt _].
  apply Z.gtb_lt in Hgt.
  pose proof (rfind_lower_bound "/" (list_ascii_of_string path)) as Hsep.
  destruct (rfind_spec "." (list_ascii_of_string path)) as [E | [_ Hn]]; [lia |].
  destruct (skipn_nth_error _ _ Hn) as [r ->]. reflexivity.
Qed.

(** ** export_to_file *)

Lemma export_file_type_cases (format : string) :
  (In format ["obj"; "ply"; "stl"; "glb"] /\ export_file_type format = Some format) \/
  (format = "gltf" /\ export_file_type format = Some "glb") \/
  (~ In format ["obj"; "ply"; "stl"; "glb"; "gltf"] /\ export_file_type format = None).
Proof.
  unfold export_file_type.
  destruct (String.eqb_spec format "obj") as [-> | H1]; [left; simpl; intuition |].
  destruct (String.eqb_spec format "ply") as [-> | H2]; [left; simpl; intuition |].
  destruct (String.eqb_spec format "stl") as [-> | H3]; [left; simpl; intuition |].
  destruct (String.eqb_spec format "glb") as [-> | H4]; [left; simpl; intuition |].
  destruct (String.eqb_spec format "gltf") as [-> | H5]; simpl.
  - right; left; auto.
  - right; right. split; [| reflexivity].
    intros [E | [E | [E | [E | [E | []]]]]]; congruence.
Qed.

(** The events of a run of [export_to_file] that ends without error. *)
Lemma export_to_file_events (makedirs : string -> result unit)
    (mesh_export : Mesh -> string -> option string -> result unit)
    (mesh : Mesh) (output_path : string) (format : option string)
    (evs : list event) :
  export_to_file makedirs mesh_export mesh output_path format = Ok evs ->
  makedirs (export_dir output_path) = Ok tt
  /\ mesh_export mesh output_path
       (export_file_type (resolve_format output_path format)) = Ok tt
  /\ evs = [MakeDirs (export_dir output_path);
            MeshExport mesh output_path
              (export_file_type (resolve_format output_path format));
            PrintExported output_path;
            PrintFormat (resolve_format output_path format);
            PrintVertices (length (vertices mesh));
            PrintFaces (length (faces mesh))].
Proof.
  unfold export_to_file.
  destruct (makedirs (export_dir output_path)) as [[] | e]; [| discriminate].
  cbn [bind].
  destruct (mesh_export mesh output_path _) as [[] | e]; [| discriminate].
  cbn [bind]. intros H. injection H as <-. auto.
Qed.

(** C8, as the code has it: the format selector of [export_to_file] is the
    lower-cased suffix of the output path (the extension, which starts at the
    last dot of the file name, without that dot) when [format] is [None], and
    the supplied format otherwise, whatever the path.  The file type handed
    to the serializer is the selector when it is obj, ply, stl or glb, is glb
    when the selector is gltf, and is left to the serializer for every other
    selector.  When the directory can not be made or the serializer raises,
    so does [export_to_file], with the same error, and nothing is reported;
    when both return, the mesh has been serialized once, at the output path
    with that file type, and the selector is what is printed as the
    format. *)
Theorem export_to_file_format_selector :
  forall (makedirs : string -> result unit)
         (mesh_export : Mesh -> string -> option string -> result unit)
         (mesh : Mesh) (output_path : string),
    resolve_format output_path None
    = lower (drop_first (snd (splitext output_path)))
    /\ (fst (splitext output_path) ++ snd (splitext output_path))%string
       = output_path
    /\ (snd (splitext output_path) = ""
        \/ snd (splitext output_path)
           = String "." (drop_first (snd (splitext output_path))))
    /\ (forall f, resolve_format output_path (Some f) = f)
    /\ (forall format,
          let selector := resolve_format output_path format in
          let run := export_to_file makedirs mesh_export mesh output_path
                       format in
          ((In selector ["obj"; "ply"; "stl"; "glb"]
            /\ export_file_type selector = Some selector)
           \/ (selector = "gltf" /\ export_file_type selector = Some "glb")
           \/ (~ In selector ["obj"; "ply"; "stl"; "glb"; "gltf"]
               /\ export_file_type selector = None))
          /\ (forall e,
                makedirs (export_dir output_path) = Raise e -> run = Raise e)
          /\ (forall e,
                makedirs (export_dir output_path) = Ok tt ->
                mesh_export mesh output_path (export_file_type selector)
                = Raise e ->
                run = Raise e)
          /\ (makedirs (export_dir output_path) = Ok tt ->
              mesh_export mesh output_path (export_file_type selector) = Ok tt ->
              exists evs, run = Ok evs)
          /\ (forall evs,
                run = Ok evs ->
                makedirs (export_dir output_path) = Ok tt
                /\ mesh_export mesh output_path (export_file_type selector)
                   = Ok tt
                /\ In (PrintFormat selector) evs
                /\ (forall f, In (PrintFormat f) evs -> f = selector)
                /\ (forall m path ft,
                      In (MeshExport m path ft) evs
                      <-> (m = mesh /\ path = output_path
                           /\ ft = export_file_type selector))
                /\ exported_files (map Exported evs)
                   = [(output_path, mesh, export_file_type selector)])).
Proof.
  intros makedirs mesh_export mesh output_path.
  split; [reflexivity |].
  split; [apply splitext_app |].
  split; [apply splitext_ext |].
  split; [reflexivity |].
  intros format selector run.
  split; [apply export_file_type_cases |].
  split; [| split; [| split]].
  - intros e He. unfold run, export_to_file. now rewrite He.
  - intros e Hd He. unfold run, export_to_file. rewrite Hd. cbn [bind].
    fold selector. now rewrite He.
  - intros Hd He. unfold run, export_to_file. rewrite Hd. cbn [bind].
    fold selector. rewrite He. cbn [bind]. eauto.
  - intros evs Hrun. apply export_to_file_events in Hrun.
    destruct Hrun as (Hd & He & ->). fold selector in He |- *.
    split; [exact Hd |]. split; [exact He |].
    split; [simpl; tauto |].
    split.
    + intros f [H | [H | [H | [H | [H | [H | []]]]]]]; try discriminate.
      now injection H.
    + split; [| reflexivity].
      intros m path ft. split.
      * intros [H | [H | [H | [H | [H | [H | []]]]]]]; try discriminate.
        injection H as <- <- <-. auto.
      * intros (-> & -> & ->). simpl. tauto.
Qed.

Example export_to_file_runs :
  export_to_file sample_makedirs sample_mesh_export (mkMesh [] [])
    "out/scene.GLTF" None
  = Ok [MakeDirs "out";
        MeshExport (mkMesh [] []) "out/scene.GLTF" (Some "glb");
        PrintExported "out/scene.GLTF"; PrintFormat "gltf";
        PrintVertices 0; PrintFaces 0]
  /\ export_to_file sample_makedirs sample_mesh_export (mkMesh [] [])
       "model.obj" (Some "dae")
     = Ok [MakeDirs "."; MeshExport (mkMesh [] []) "model.obj" None;
           PrintExported "model.obj"; PrintFormat "dae";
           PrintVertices 0; PrintFaces 0]
  /\ export_to_file sample_makedirs sample_mesh_export (mkMesh [] [])
       "a.b/model" (Some "stl")
     = Ok [MakeDirs "a.b"; MeshExport (mkMesh [] []) "a.b/model" (Some "stl");
           PrintExported "a.b/model"; PrintFormat "stl";
           PrintVertices 0; PrintFaces 0]
  /\ export_to_file sample_makedirs sample_mesh_export (mkMesh [] [])
       "model.foo" None
     = Raise ValueError
  /\ export_to_file sample_makedirs sample_mesh_export (mkMesh [] [])
       "/proc/model.obj" None
     = Raise (CollaboratorError "OSError").
Proof. repeat split; reflexivity. Qed.

(** C8, as stated, fails: with no format given and the path [scene.gltf] the
    suffix is gltf and the mesh is serialized as glb, whatever the serializer
    is; with the format dae given for [model.obj] no file type reaches the
    serializer at all.  Both runs end without error. *)
Lemma export_format_counterexample :
  lower (drop_first (snd (splitext "scene.gltf"))) = "gltf"
  /\ is_ok (export_to_file sample_makedirs sample_mesh_export (mkMesh [] [])
              "scene.gltf" None) = true
  /\ ~ exports_as sample_makedirs sample_mesh_export "scene.gltf" None "gltf"
  /\ is_ok (export_to_file sample_makedirs sample_mesh_export (mkMesh [] [])
              "model.obj" (Some "dae")) = true
  /\ ~ exports_as sample_makedirs sample_mesh_export "model.obj" (Some "dae")
         "dae"
  /\ (forall makedirs mesh_export mesh evs,
        export_to_file makedirs mesh_export mesh "scene.gltf" None = Ok evs ->
        In (MeshExport mesh "scene.gltf" (Some "glb")) evs
        /\ ~ In (MeshExport mesh "scene.gltf" (Some "gltf")) evs).
Proof.
  split; [reflexivity |].
  split; [reflexivity |].
  split.
  { intros H. specialize (H (mkMesh [] []) _ eq_refl). simpl in H.
    destruct H as [H | [H | [H | [H | [H | [H | []]]]]]]; discriminate. }
  split; [reflexivity |].
  split.
  { intros H. specialize (H (mkMesh [] []) _ eq_refl). simpl in H.
    destruct H as [H | [H | [H | [H | [H | [H | []]]]]]]; discriminate. }
  intros makedirs mesh_export mesh evs H.
  apply export_to_file_events in H. destruct H as (_ & _ & ->).
  split; [simpl; tauto |].
  intros [H | [H | [H | [H | [H | [H | []]]]]]]; discriminate.
Qed.

(** ** concatenate *)







(** ** export_bricks_to_mesh *)

Section MeshAssembler.

Variable brick2mesh : Brick -> pyval -> result Mesh.

(** The guard of [pick_color] keeps the index inside the list. *)
Lemma pick_color_total (colors : option (list pyval)) (i : nat) :
  exists c, pick_color colors i = Ok c.
Proof.
  destruct colors as [cs |]; simpl; [| now exists PNone].
  destruct (negb (Nat.eqb (length cs) 0) && Nat.ltb i (length cs))%bool eqn:G;
    [| now exists PNone].
  apply andb_true_iff in G. destruct G as [_ G]. apply Nat.ltb_lt in G.
  destruct (nth_error cs i) as [c |] eqn:E; [now exists c |].
  apply nth_error_None in E. lia.
Qed.

Lemma pick_color_beyond (cs : list pyval) (i : nat) :
  (length cs <= i)%nat -> pick_color (Some cs) i = Ok PNone.
Proof.
  intros H. simpl.
  replace (Nat.ltb i (length cs)) with false
    by (symmetry; apply Nat.ltb_ge; exact H).
  now rewrite andb_false_r.
Qed.


(** The first brick that does not convert ends the call with its error. *)
Lemma convert_from_raise (colors : option (list pyval)) (bricks : list Brick) :
  forall i acc k b e,
    nth_error bricks k = Some b ->
    convert_at brick2mesh colors (i + k) b = Raise e ->
    (forall k' b', (k' < k)%nat -> nth_error bricks k' = Some b' ->
       is_ok (convert_at brick2mesh colors (i + k') b') = true) ->
    convert_from brick2mesh colors i bricks acc = Raise e.
Proof.
  induction bricks as [|brick rest IH]; intros i acc k b e Hk He Hbefore.
  - destruct k; discriminate.
  - destruct k as [|k]; simpl in *.
    + injection Hk as <-. rewrite Nat.add_0_r in He. now rewrite He.
    + pose proof (Hbefore O brick ltac:(lia) eq_refl) as H0.
      rewrite Nat.add_0_r in H0.
      destruct (convert_at brick2mesh colors i brick) as [m | e0];
        [| discriminate].
      simpl. apply (IH (S i) _ k b e Hk).
      * now rewrite Nat.add_succ_r in He.
      * intros k' b' Hlt Hk'.
        specialize (Hbefore (S k') b' ltac:(lia) Hk').
        now rewrite Nat.add_succ_r in Hbefore.
Qed.

Lemma convert_from_ext (c1 c2 : option (list pyval)) (bricks : list Brick) :
  forall i acc,
    (forall k, (k < length bricks)%nat ->
       pick_color c1 (i + k) = pick_color c2 (i + k)) ->
    convert_from brick2mesh c1 i bricks acc
    = convert_from brick2mesh c2 i bricks acc.
Proof.
  induction bricks as [|brick rest IH]; intros i acc H; simpl; [reflexivity |].
  unfold convert_at.
  pose proof (H O ltac:(simpl; lia)) as H0. rewrite Nat.add_0_r in H0.
  rewrite H0.
  destruct (pick_color c2 i) as [c | e]; simpl; [| reflexivity].
  destruct (export_brick_to_mesh brick2mesh brick c) as [m | e]; simpl;
    [| reflexivity].
  apply IH. intros k Hk. specialize (H (S k) ltac:(simpl; lia)).
  now rewrite Nat.add_succ_r in H.
Qed.

End MeshAssembler.






Example merged_sample_run :
  export_bricks_to_mesh sample_brick2mesh sample_bricks None true
  = Ok (Merged
          (mkMesh [(0, 0, 0); (1, 0, 0); (1, 1, 0); (0, 1, 0);
                   (0, 0, 0); (1, 0, 0); (0, 1, 0);
                   (0, 0, 0); (1, 0, 0); (1, 1, 0); (0, 1, 0)]%float
                  [(0, 1, 2); (0, 2, 3); (4, 5, 6); (7, 8, 9); (7, 9, 10)])).
Proof. reflexivity. Qed.

(** C7: for the empty list of bricks [export_bricks_to_mesh] raises nothing;
    it returns the mesh with no vertex and no face when [merge = true] and
    the empty list when [merge = false]. *)
Theorem export_no_bricks :
  forall (brick2mesh : Brick -> pyval -> result Mesh)
         (colors : option (list pyval)),
    (exists merged,
       export_bricks_to_mesh brick2mesh [] colors true = Ok (Merged merged)
       /\ vertices merged = [] /\ faces merged = [])
    /\ export_bricks_to_mesh brick2mesh [] colors false = Ok (Separate []).
Proof.
  intros brick2mesh colors. split; [| reflexivity].
  exists (mkMesh [] []). repeat split.
Qed.

(** C10: when [colors] is shorter than [bricks], the colour picked at every
    index from the end of [colors] on is [None], so the brick there is
    converted with colour [None]; no [IndexError] arises, and the call as a
    whole returns what it returns for [colors] padded with [None] up to the
    length of [bricks]. *)
Theorem export_short_colors :
  forall (brick2mesh : Brick -> pyval -> result Mesh)
         (bricks : list Brick) (cs : list pyval),
    (length cs < length bricks)%nat ->
    (forall i, (length cs <= i)%nat -> pick_color (Some cs) i = Ok PNone)
    /\ (forall i b, (length cs <= i)%nat -> nth_error bricks i = Some b ->
          convert_at brick2mesh (Some cs) i b = brick2mesh b PNone)
    /\ (forall i, pick_color (Some cs) i <> Raise IndexError)
    /\ (forall merge,
          export_bricks_to_mesh brick2mesh bricks (Some cs) merge
          = export_bricks_to_mesh brick2mesh bricks
              (Some (cs ++ repeat PNone (length bricks - length cs))) merge).
Proof.
  intros brick2mesh bricks cs Hshort.
  split; [intros i Hi; now apply pick_color_beyond |].
  split.
  { intros i b Hi _. unfold convert_at. now rewrite pick_color_beyond. }
  split.
  { intros i. destruct (pick_color_total (Some cs) i) as [c ->]. discriminate. }
  intros merge. unfold export_bricks_to_mesh.
  rewrite (@convert_from_ext brick2mesh (Some cs)
             (Some (cs ++ repeat PNone (length bricks - length cs)))
             bricks O []); [reflexivity |].
  intros k Hk. simpl.
  rewrite length_app, repeat_length.
  replace (Nat.eqb (length cs + (length bricks - length cs)) 0) with false
    by (symmetry; apply Nat.eqb_neq; lia).
  replace (Nat.ltb k (length cs + (length bricks - length cs))) with true
    by (symmetry; apply Nat.ltb_lt; lia).
  simpl.
  destruct (Nat.ltb_spec k (length cs)) as [Hlt | Hge].
  - replace (Nat.eqb (length cs) 0) with false
      by (symmetry; apply Nat.eqb_neq; lia).
    simpl. now rewrite nth_error_app1.
  - rewrite andb_false_r, nth_error_app2 by exact Hge.
    rewrite nth_error_repeat by lia. reflexivity.
Qed.

Lemma export_short_colors_witness :
  (forall i, (1 <= i)%nat -> pick_color (Some [red]) i = Ok PNone)
  /\ (forall i b, (1 <= i)%nat -> nth_error sample_bricks i = Some b ->
        convert_at sample_brick2mesh (Some [red]) i b
        = sample_brick2mesh b PNone)
  /\ (forall i, pick_color (Some [red]) i <> Raise IndexError)
  /\ (forall merge,
        export_bricks_to_mesh sample_brick2mesh sample_bricks (Some [red]) merge
        = export_bricks_to_mesh sample_brick2mesh sample_bricks
            (Some ([red] ++ repeat PNone (length sample_bricks - 1))) merge).
Proof.
  apply (@export_short_colors sample_brick2mesh sample_bricks [red]).
  simpl. lia.
Defined.

(** ** export_from_json: the loop over one step *)

Lemma append_sub_bricks_ok (with_colors : bool) (entry col : pyval)
    (subs : list Brick) :
  forall st,
    entry_color with_colors entry = Ok col ->
    append_sub_bricks with_colors entry subs st
    = Ok (fst st ++ subs, snd st ++ repeat col (length subs)).
Proof.
  induction subs as [|b subs IH]; intros [bs cs] H; simpl.
  - now rewrite !app_nil_r.
  - rewrite H. simpl. rewrite IH by exact H. simpl.
    now rewrite <- !app_assoc.
Qed.

Lemma append_sub_bricks_shift (with_colors : bool) (entry : pyval)
    (subs : list Brick) :
  forall bs cs bs0 cs0,
    append_sub_bricks with_colors entry subs (bs ++ bs0, cs ++ cs0)
    = (r <- append_sub_bricks with_colors entry subs (bs0, cs0);;
       Ok (bs ++ fst r, cs ++ snd r)).
Proof.
  induction subs as [|b subs IH]; intros bs cs bs0 cs0; simpl; [reflexivity |].
  destruct (entry_color with_colors entry) as [col | e]; simpl; [| reflexivity].
  rewrite <- !app_assoc. apply IH.
Qed.

Section AssemblyBuilder.

Variable dict_to_cbrick : pyval -> bool -> result (list Brick).

(** What an entry appends does not depend on what was collected before. *)
Lemma process_item_shift (with_colors : bool) (entry : pyval)
    (bs : list Brick) (cs : list pyval) (bs0 : list Brick) (cs0 : list pyval) :
  process_item dict_to_cbrick with_colors entry (bs ++ bs0, cs ++ cs0)
  = (r <- process_item dict_to_cbrick with_colors entry (bs0, cs0);;
     Ok (bs ++ fst r, cs ++ snd r)).
Proof.
  unfold process_item.
  destruct (subscript entry "brick_transform") as [t | e]; simpl; [| reflexivity].
  destruct (subscript t "rotation") as [r | e]; simpl; [| reflexivity].
  destruct (subscript t "position") as [p | e]; simpl; [| reflexivity].
  destruct (py_in "brick_type" entry) as [[|] | e]; simpl; [| | reflexivity].
  - destruct (subscript entry "brick_type") as [ty | e]; simpl; [| reflexivity].
    destruct (entry_color with_colors entry) as [col | e]; simpl; [| reflexivity].
    now rewrite <- !app_assoc.
  - destruct (dict_to_cbrick entry false) as [subs | e]; simpl; [| reflexivity].
    apply append_sub_bricks_shift.
Qed.

Lemma items_loop_shift (with_colors : bool) (entries : list pyval) :
  forall bs cs bs0 cs0,
    items_loop dict_to_cbrick with_colors entries (bs ++ bs0, cs ++ cs0)
    = (r <- items_loop dict_to_cbrick with_colors entries (bs0, cs0);;
       Ok (bs ++ fst r, cs ++ snd r)).
Proof.
  induction entries as [|entry rest IH]; intros bs cs bs0 cs0; simpl;
    [reflexivity |].
  rewrite process_item_shift.
  destruct (process_item dict_to_cbrick with_colors entry (bs0, cs0))
    as [[b1 c1] | e]; simpl; [apply IH | reflexivity].
Qed.

Lemma items_loop_app (with_colors : bool) (es1 es2 : list pyval) :
  forall st,
    items_loop dict_to_cbrick with_colors (es1 ++ es2) st
    = (st' <- items_loop dict_to_cbrick with_colors es1 st;;
       items_loop dict_to_cbrick with_colors es2 st').
Proof.
  induction es1 as [|entry rest IH]; intros st; simpl; [reflexivity |].
  destruct (process_item dict_to_cbrick with_colors entry st) as [st' | e];
    simpl; [apply IH | reflexivity].
Qed.

(** The loop over [range(len(b_step))] visits the entries of a list in
    order. *)
Lemma step_loop_list (with_colors : bool) (entries : list pyval) :
  forall pre st,
    step_loop dict_to_cbrick with_colors (PList (pre ++ entries))
      (seq (length pre) (length entries)) st
    = items_loop dict_to_cbrick with_colors entries st.
Proof.
  induction entries as [|entry rest IH]; intros pre st; simpl; [reflexivity |].
  unfold process_entry. simpl.
  rewrite nth_error_app2, Nat.sub_diag by lia. simpl.
  destruct (process_item dict_to_cbrick with_colors entry st) as [st' | e];
    simpl; [| reflexivity].
  specialize (IH (pre ++ [entry]) st').
  rewrite <- app_assoc, length_app, Nat.add_1_r in IH. exact IH.
Qed.

Lemma process_step_list (with_colors : bool) (op : pyval)
    (entries : list pyval) (st : collected) :
  subscript op "bricks" = Ok (PList entries) ->
  process_step dict_to_cbrick with_colors op st
  = items_loop dict_to_cbrick with_colors entries st.
Proof.
  intros H. unfold process_step. rewrite H. simpl.
  apply (step_loop_list with_colors entries []).
Qed.

(** A step is the concatenation of what its entries contribute, in input
    order. *)
Lemma items_loop_around (with_colors : bool) (pre post : list pyval)
    (c : pyval) (bs_pre bs_c bs_post : list Brick)
    (cs_pre cs_c cs_post : list pyval) :
  items_loop dict_to_cbrick with_colors pre ([], []) = Ok (bs_pre, cs_pre) ->
  process_item dict_to_cbrick with_colors c ([], []) = Ok (bs_c, cs_c) ->
  items_loop dict_to_cbrick with_colors post ([], []) = Ok (bs_post, cs_post) ->
  items_loop dict_to_cbrick with_colors (pre ++ c :: post) ([], [])
  = Ok (bs_pre ++ bs_c ++ bs_post, cs_pre ++ cs_c ++ cs_post).
Proof.
  intros Hpre Hc Hpost.
  rewrite items_loop_app, Hpre. simpl.
  pose proof (process_item_shift with_colors c bs_pre cs_pre [] []) as E.
  rewrite !app_nil_r in E. rewrite E, Hc. simpl.
  pose proof (items_loop_shift with_colors post
                (bs_pre ++ bs_c) (cs_pre ++ cs_c) [] []) as E'.
  rewrite !app_nil_r in E'. rewrite E', Hpost. simpl.
  now rewrite <- !app_assoc.
Qed.

End AssemblyBuilder.

(** ** The composite expander *)

Lemma pyval_nested_ind (P : pyval -> Prop) :
  P PNone ->
  (forall b, P (PBool b)) ->
  (forall z, P (PInt z)) ->
  (forall f, P (PFloat f)) ->
  (forall s, P (PStr s)) ->
  (forall l, Forall P l -> P (PList l)) ->
  (forall l, Forall P l -> P (PTuple l)) ->
  (forall d, Forall (fun kv => P (snd kv)) d -> P (PDict d)) ->
  forall v, P v.
Proof.
  intros HN HB HI HF HS HL HT HD.
  fix IH 1. intros [ | b | z | f | s | l | l | d].
  - exact HN.
  - apply HB.
  - apply HI.
  - apply HF.
  - apply HS.
  - apply HL. revert l. fix IHl 1. intros [|x l]; constructor; [apply IH | apply IHl].
  - apply HT. revert l. fix IHl 1. intros [|x l]; constructor; [apply IH | apply IHl].
  - apply HD. revert d. fix IHd 1.
    intros [|[k v] d]; constructor; [apply IH | apply IHd].
Qed.

Lemma with_children_eq {A : Type} (d : list (string * pyval)) (dflt : A)
    (f : list pyval -> A) :
  with_children d dflt f
  = match children_of d with
    | Some cs => f cs
    | None => dflt
    end.
Proof.
  unfold children_of, with_children.
  induction d as [|[k v] d IH]; [reflexivity |].
  destruct (String.eqb k "bricks"); [| exact IH].
  destruct v; reflexivity.
Qed.

(** Induction on entries: a property holds of every value when it holds of
    a dict as soon as it holds of its sub-entries. *)
Lemma entry_ind (P : pyval -> Prop) :
  (forall v, (forall d, v <> PDict d) -> P v) ->
  (forall d, (forall cs, children_of d = Some cs -> Forall P cs) -> P (PDict d)) ->
  forall v, P v.
Proof.
  intros Hother Hdict v.
  cut (P v /\ match v with PList l => Forall P l | _ => True end); [tauto |].
  induction v as [ | b | z | f | s | l IH | l IH | d IH] using pyval_nested_ind;
    try (split; [apply Hother; discriminate | exact I]).
  - split; [apply Hother; discriminate |].
    eapply Forall_impl; [| exact IH]. simpl. tauto.
  - split; [| exact I]. apply Hdict. intros cs Hcs.
    unfold children_of, with_children in Hcs.
    induction d as [|[k v] d IHd]; [discriminate |].
    inversion IH as [|? ? Hv Hd]; subst.
    destruct (String.eqb k "bricks"); [| now apply IHd].
    destruct v; try discriminate.
    injection Hcs as <-. simpl in Hv. tauto.
Qed.

Section ExpanderProperties.

Variable compose : placement -> placement -> placement.

Lemma expand_dict (no_check : bool) (parent : placement)
    (d : list (string * pyval)) :
  expand compose no_check parent (PDict d)
  = match transform_of d with
    | None => Raise CompositeExpansionError
    | Some local =>
        match dict_get d "brick_type" with
        | Some ty =>
            Ok [mkBrick ty (fst (compose parent local))
                           (snd (compose parent local))]
        | None =>
            match children_of d with
            | Some cs =>
                gather no_check
                  (expand compose no_check (compose parent local)) cs
            | None => Raise CompositeExpansionError
            end
        end
    end.
Proof.
  cbn [expand].
  destruct (transform_of d); [| reflexivity].
  destruct (dict_get d "brick_type"); [reflexivity |].
  apply with_children_eq.
Qed.

Lemma leaves_dict (d : list (string * pyval)) :
  leaves (PDict d)
  = match dict_get d "brick_type" with
    | Some _ => [PDict d]
    | None =>
        match children_of d with
        | Some cs => flat_map leaves cs
        | None => []
        end
    end.
Proof.
  cbn [leaves]. destruct (dict_get d "brick_type"); [reflexivity |].
  apply with_children_eq.
Qed.

Lemma valid_entry_dict (d : list (string * pyval)) :
  valid_entry (PDict d)
  = match transform_of d with
    | None => false
    | Some _ =>
        match dict_get d "brick_type" with
        | Some _ => true
        | None =>
            match children_of d with
            | Some cs => forallb valid_entry cs
            | None => false
            end
        end
    end.
Proof.
  cbn [valid_entry]. destruct (transform_of d); [| reflexivity].
  destruct (dict_get d "brick_type"); [reflexivity |].
  apply with_children_eq.
Qed.

(** In strict mode a valid entry expands, to one brick per leaf, in the
    depth-first order of the leaves. *)
Lemma expand_valid (e : pyval) :
  valid_entry e = true ->
  forall parent,
    exists subs,
      expand compose false parent e = Ok subs
      /\ length subs = length (leaves e)
      /\ map brick_type subs = map leaf_type (leaves e).
Proof.
  induction e as [v Hv | d IH] using entry_ind.
  - intros H. destruct v; try discriminate. now elim (Hv entries).
  - rewrite valid_entry_dict. intros H parent.
    rewrite expand_dict, leaves_dict.
    destruct (transform_of d) as [local |]; [| discriminate].
    destruct (dict_get d "brick_type") as [ty |] eqn:Ety.
    + eexists. repeat split. simpl. now rewrite Ety.
    + destruct (children_of d) as [cs |]; [| discriminate].
      specialize (IH cs eq_refl).
      generalize (compose parent local). clear parent.
      induction cs as [|c cs IHcs]; intros world; simpl.
      * exists []. repeat split.
      * simpl in H. apply andb_true_iff in H. destruct H as [Hc Hcs].
        inversion IH as [|? ? Pc Pcs]; subst.
        destruct (Pc Hc world) as (bs & -> & Hlen & Hty).
        destruct (IHcs Pcs Hcs world) as (more & -> & Hlen' & Hty').
        exists (bs ++ more). simpl.
        rewrite !length_app, !map_app, Hlen, Hlen', Hty, Hty'.
        repeat split.
Qed.

End ExpanderProperties.

(** ** export_from_json: composite entries *)

Lemma transform_of_subscript (d : list (string * pyval)) (local : placement) :
  transform_of d = Some local ->
  exists t,
    subscript (PDict d) "brick_transform" = Ok t
    /\ subscript t "rotation" = Ok (snd local)
    /\ subscript t "position" = Ok (fst local).
Proof.
  unfold transform_of. simpl.
  destruct (dict_get d "brick_transform") as [[ | | | | | | | t] |];
    try discriminate.
  destruct (dict_get t "position") as [p |] eqn:Ep; [| discriminate].
  destruct (dict_get t "rotation") as [r |] eqn:Er; [| discriminate].
  intros H. injection H as <-. exists (PDict t). simpl.
  now rewrite Ep, Er.
Qed.

(** What [export_from_json] appends for a composite entry: the sub-bricks of
    the expansion, and for each of them the colour of the entry itself. *)
Lemma process_item_composite
    (dict_to_cbrick : pyval -> bool -> result (list Brick))
    (with_colors : bool) (d : list (string * pyval)) (local : placement)
    (subs : list Brick) (col : pyval) (st : collected) :
  transform_of d = Some local ->
  dict_get d "brick_type" = None ->
  dict_to_cbrick (PDict d) false = Ok subs ->
  entry_color with_colors (PDict d) = Ok col ->
  process_item dict_to_cbrick with_colors (PDict d) st
  = Ok (fst st ++ subs, snd st ++ repeat col (length subs)).
Proof.
  intros Ht Hty Hsubs Hcol.
  destruct (transform_of_subscript d Ht) as (t & E1 & E2 & E3).
  unfold process_item. rewrite E1. simpl bind. rewrite E2. simpl bind.
  rewrite E3. simpl bind. simpl py_in. rewrite Hty. simpl bind.
  rewrite Hsubs. simpl bind.
  now apply append_sub_bricks_ok.
Qed.

(** C2, as the code has it: every record that the expansion of a composite
    entry yields is assigned one and the same colour, that of the composite
    entry itself: the tuple of its [color] when [with_colors] is set and the
    entry has that key, [None] otherwise.  Whatever colours the nested
    definitions and the leaf sub-bricks carry are never looked at. *)
Theorem composite_records_take_entry_color :
  forall (dict_to_cbrick : pyval -> bool -> result (list Brick))
         (with_colors : bool) (d : list (string * pyval)) (local : placement)
         (subs : list Brick) (col : pyval) (st : collected),
    transform_of d = Some local ->
    dict_get d "brick_type" = None ->
    dict_to_cbrick (PDict d) false = Ok subs ->
    entry_color with_colors (PDict d) = Ok col ->
    process_item dict_to_cbrick with_colors (PDict d) st
    = Ok (fst st ++ subs, snd st ++ repeat col (length subs))
    /\ Ok col
       = (if with_colors then
            match dict_get d "color" with
            | Some own => py_tuple own
            | None => Ok PNone
            end
          else Ok PNone).
Proof.
  intros dict_to_cbrick with_colors d local subs col st Ht Hty Hsubs Hcol.
  split; [now apply (process_item_composite dict_to_cbrick _ _ st Ht) |].
  rewrite <- Hcol. unfold entry_color. simpl.
  destruct with_colors; [| reflexivity].
  now destruct (dict_get d "color").
Qed.

Lemma composite_color_witness :
  process_item sample_expander true (PDict (fields_of red_around_blue)) ([], [])
  = Ok ([] ++ [mkBrick (PStr "3001") (PList [PInt 10; PInt 0; PInt 0])
                       (PList [PInt 1; PInt 0; PInt 0; PInt 0])],
        [] ++ repeat red 1)
  /\ Ok red
     = match dict_get (fields_of red_around_blue) "color" with
       | Some own => py_tuple own
       | None => Ok PNone
       end.
Proof.
  apply (@composite_records_take_entry_color sample_expander true
           (fields_of red_around_blue)
           (PList [PInt 10; PInt 0; PInt 0],
            PList [PInt 1; PInt 0; PInt 0; PInt 0])
           [mkBrick (PStr "3001") (PList [PInt 10; PInt 0; PInt 0])
                    (PList [PInt 1; PInt 0; PInt 0; PInt 0])]
           red ([], []));
    reflexivity.
Defined.

Example red_around_blue_run :
  process_item sample_expander true red_around_blue ([], [])
  = Ok ([mkBrick (PStr "3001") (PList [PInt 10; PInt 0; PInt 0])
                 (PList [PInt 1; PInt 0; PInt 0; PInt 0])],
        [PTuple [PInt 255; PInt 0; PInt 0]])
  /\ inherited_colors PNone red_around_blue = [PTuple [PInt 0; PInt 0; PInt 255]].
Proof. split; reflexivity. Qed.

(** C2, as stated, fails: a red composite around a blue primitive yields
    red records only, where the leaf's own colour should have won; and that
    whatever the expander that expands the entry. *)
Lemma composite_color_counterexample :
  ~ exists (dict_to_cbrick : pyval -> bool -> result (list Brick)) subs,
      dict_to_cbrick red_around_blue false = Ok subs
      /\ composite_colors_inherited dict_to_cbrick red_around_blue.
Proof.
  intros (dict_to_cbrick & subs & Hsubs & H).
  specialize (H (subs, repeat red (length subs))).
  assert (E : process_item dict_to_cbrick true red_around_blue ([], [])
              = Ok (subs, repeat red (length subs))).
  { apply (@process_item_composite dict_to_cbrick true
             (fields_of red_around_blue)
             (PList [PInt 10; PInt 0; PInt 0],
              PList [PInt 1; PInt 0; PInt 0; PInt 0])
             subs red ([], [])); try reflexivity.
    exact Hsubs. }
  specialize (H E). simpl in H.
  destruct subs as [|b subs]; simpl in H; discriminate.
Qed.

(** C4: in a step whose entry list is [pre ++ c :: post], a valid composite
    entry [c] with [k] leaf primitives contributes exactly [k] brick records,
    one per leaf in the depth-first order of the leaves, and they stand in
    the output between what [pre] contributes and what [post] contributes. *)
Theorem composite_contributes_its_leaves :
  forall (compose : placement -> placement -> placement) (with_colors : bool)
         (op : pyval) (pre post : list pyval) (d : list (string * pyval))
         (bs_pre bs_post : list Brick) (cs_pre cs_post : list pyval)
         (col : pyval),
    subscript op "bricks" = Ok (PList (pre ++ PDict d :: post)) ->
    dict_get d "brick_type" = None ->
    valid_entry (PDict d) = true ->
    entry_color with_colors (PDict d) = Ok col ->
    process_step (dict_to_cbrick_spec compose) with_colors (step_of pre) ([], [])
    = Ok (bs_pre, cs_pre) ->
    process_step (dict_to_cbrick_spec compose) with_colors (step_of post) ([], [])
    = Ok (bs_post, cs_post) ->
    exists subs,
      dict_to_cbrick_spec compose (PDict d) false = Ok subs
      /\ length subs = length (leaves (PDict d))
      /\ map brick_type subs = map leaf_type (leaves (PDict d))
      /\ process_step (dict_to_cbrick_spec compose) with_colors op ([], [])
         = Ok (bs_pre ++ subs ++ bs_post,
               cs_pre ++ repeat col (length subs) ++ cs_post).
Proof.
  intros compose with_colors op pre post d bs_pre bs_post cs_pre cs_post col
         Hop Hty Hvalid Hcol Hpre Hpost.
  destruct (expand_valid compose _ Hvalid identity_placement)
    as (subs & Hsubs & Hlen & Htypes).
  exists subs. repeat split; try assumption.
  rewrite (process_step_list _ _ _ _ Hop).
  rewrite (process_step_list _ _ (step_of pre) _ (entries := pre) eq_refl) in Hpre.
  rewrite (process_step_list _ _ (step_of post) _ (entries := post) eq_refl) in Hpost.
  apply items_loop_around; try assumption.
  rewrite valid_entry_dict in Hvalid.
  destruct (transform_of d) as [local |] eqn:Ht; [| discriminate].
  apply (process_item_composite _ _ _ ([], []) Ht Hty Hsubs Hcol).
Qed.

Lemma composite_leaves_witness :
  exists subs,
    sample_expander (PDict (fields_of nested_composite)) false = Ok subs
    /\ length subs = length (leaves (PDict (fields_of nested_composite)))
    /\ map brick_type subs
       = map leaf_type (leaves (PDict (fields_of nested_composite)))
    /\ process_step sample_expander false
         (step_of ([primitive_at "3001" 1 1 1]
                   ++ PDict (fields_of nested_composite)
                   :: [primitive_at "3002" 2 2 2]))
         ([], [])
       = Ok ([mkBrick (PStr "3001") (PList [PInt 1; PInt 1; PInt 1])
                      (PList [PInt 1; PInt 0; PInt 0; PInt 0])]
             ++ subs
             ++ [mkBrick (PStr "3002") (PList [PInt 2; PInt 2; PInt 2])
                         (PList [PInt 1; PInt 0; PInt 0; PInt 0])],
             [PNone] ++ repeat PNone (length subs) ++ [PNone]).
Proof.
  apply (@composite_contributes_its_leaves grid_compose false
           (step_of ([primitive_at "3001" 1 1 1]
                     ++ PDict (fields_of nested_composite)
                     :: [primitive_at "3002" 2 2 2]))
           [primitive_at "3001" 1 1 1] [primitive_at "3002" 2 2 2]
           (fields_of nested_composite));
    reflexivity.
Defined.

(** ** export_from_json: the loop over the steps *)

Lemma bind_ok {A : Type} (r : result A) : (x <- r;; Ok x) = r.
Proof. now destruct r. Qed.

Lemma NoDup_map_injective {A B : Type} (f : A -> B) (l : list A) :
  (forall x y, f x = f y -> x = y) -> NoDup l -> NoDup (map f l).
Proof.
  intros Hinj H. induction H as [|x l Hx Hl IH]; simpl; constructor; [| exact IH].
  intros Hin. apply in_map_iff in Hin. destruct Hin as (y & Hy & Hin).
  apply Hinj in Hy. now subst.
Qed.

Lemma zrange_NoDup (n : nat) : NoDup (map Some (zrange n)).
Proof.
  apply NoDup_map_injective; [intros x y H; now injection H |].
  apply NoDup_map_injective; [apply Nat2Z.inj | apply seq_NoDup].
Qed.

Lemma zrange_In (n : nat) (z : Z) :
  In (Some z) (map Some (zrange n)) <-> 0 <= z < Z.of_nat n.
Proof.
  unfold zrange. rewrite in_map_iff. split.
  - intros (y & Hy & Hin). injection Hy as ->.
    apply in_map_iff in Hin. destruct Hin as (i & <- & Hi).
    apply in_seq in Hi. lia.
  - intros H. exists z. split; [reflexivity |].
    apply in_map_iff. exists (Z.to_nat z). split; [lia |].
    apply in_seq. lia.
Qed.

Lemma filter_none (n : Z) (items : list (string * pyval)) :
  ~ In (Some (n - 1)) (key_values items) ->
  filter (is_last_index n) items = [].
Proof.
  induction items as [|[k op] items IH]; intros H; simpl; [reflexivity |].
  simpl in H. unfold is_last_index at 1. simpl.
  destruct (py_int k) as [z |] eqn:E.
  - destruct (Z.eqb_spec z (n - 1)) as [-> | _]; [tauto | apply IH; tauto].
  - apply IH. tauto.
Qed.

(** Among keys of pairwise distinct integer values, one at most is the last
    index. *)
Lemma filter_single (n : Z) (items : list (string * pyval)) (k : string)
    (op : pyval) :
  NoDup (key_values items) ->
  In (k, op) items ->
  py_int k = Some (n - 1) ->
  filter (is_last_index n) items = [(k, op)].
Proof.
  intros Hnd Hin Hk.
  induction items as [|[k' op'] items IH]; [contradiction |].
  simpl in Hnd. inversion Hnd as [|? ? Hnot Hnd']; subst.
  simpl. unfold is_last_index at 1. simpl.
  destruct Hin as [Heq | Hin].
  - injection Heq as -> ->. rewrite Hk, Z.eqb_refl.
    rewrite filter_none; [reflexivity |]. now rewrite <- Hk.
  - assert (Hne : py_int k' <> Some (n - 1)).
    { intros E. apply Hnot. rewrite E, <- Hk.
      apply (in_map (fun kv => py_int (fst kv)) items (k, op) Hin). }
    destruct (py_int k') as [z |].
    + destruct (Z.eqb_spec z (n - 1)) as [-> | _]; [congruence | now apply IH].
    + now apply IH.
Qed.

Section StepSequencer.

Variable dict_to_cbrick : pyval -> bool -> result (list Brick).

Lemma operations_loop_app (only_final with_colors : bool) (n : Z)
    (a b : list (string * pyval)) :
  forall st,
    operations_loop dict_to_cbrick only_final with_colors n (a ++ b) st
    = (st' <- operations_loop dict_to_cbrick only_final with_colors n a st;;
       operations_loop dict_to_cbrick only_final with_colors n b st').
Proof.
  induction a as [|[k op] a IH]; intros st; simpl; [reflexivity |].
  destruct (skips only_final n k) as [[|] | e]; simpl;
    [apply IH | | reflexivity].
  destruct (process_step dict_to_cbrick with_colors op st) as [st' | e];
    simpl; [apply IH | reflexivity].
Qed.

(** With [only_final], and keys that are all integers, the loop processes
    the steps whose key is the last index, and only them. *)
Lemma operations_loop_final (with_colors : bool) (n : Z)
    (items : list (string * pyval)) :
  Forall (fun kv => py_int (fst kv) <> None) items ->
  forall st,
    operations_loop dict_to_cbrick true with_colors n items st
    = operations_loop dict_to_cbrick false with_colors n
        (filter (is_last_index n) items) st.
Proof.
  induction 1 as [|[k op] items Hk _ IH]; intros st; simpl; [reflexivity |].
  unfold is_last_index at 1. simpl in *.
  destruct (py_int k) as [z |]; [| contradiction]. simpl.
  destruct (z =? n - 1); simpl; [| apply IH].
  destruct (process_step dict_to_cbrick with_colors op st) as [st' | e];
    simpl; [apply IH | reflexivity].
Qed.

(** Without [only_final] the keys are never looked at. *)
Lemma operations_loop_keys_unused (with_colors : bool) (n n' : Z)
    (items : list (string * pyval)) :
  forall items' st,
    map snd items' = map snd items ->
    operations_loop dict_to_cbrick false with_colors n' items' st
    = operations_loop dict_to_cbrick false with_colors n items st.
Proof.
  induction items as [|[k op] items IH]; intros [|[k' op'] items'] st H;
    try discriminate; simpl; [reflexivity |].
  simpl in H. injection H as -> H.
  destruct (process_step dict_to_cbrick with_colors op st) as [st' | e];
    simpl; [now apply IH | reflexivity].
Qed.

(** With [only_final], a key that is no integer is never passed. *)
Lemma operations_loop_bad_key (with_colors : bool) (n : Z)
    (pre post : list (string * pyval)) (k : string) (op : pyval) :
  py_int k = None ->
  forall st,
    exists e,
      operations_loop dict_to_cbrick true with_colors n
        (pre ++ (k, op) :: post) st = Raise e.
Proof.
  intros Hk st. rewrite operations_loop_app.
  destruct (operations_loop dict_to_cbrick true with_colors n pre st)
    as [st' | e]; simpl; [| now exists e].
  exists ValueError. unfold skips. now rewrite Hk.
Qed.

End StepSequencer.

(** Where the guard of line 178 and the final step meet: with [only_final]
    the steps processed are those whose key equals, as an integer, the number
    of steps minus one.  When the integer values of the keys are 0, 1, ...,
    N-1 in some order (the keys need not come sorted), that is exactly one
    step, the one whose key is numerically greatest, and no other step
    contributes bricks to the output.  Nothing in the sources makes the keys
    be so. *)
Lemma only_final_takes_last_index :
  forall (brick2mesh : Brick -> pyval -> result Mesh)
         (dict_to_cbrick : pyval -> bool -> result (list Brick))
         (makedirs : string -> result unit)
         (mesh_export : Mesh -> string -> option string -> result unit)
         (json_path output_path : string) (with_colors : bool)
         (data : pyval) (items : list (string * pyval)),
    subscript data "operations" = Ok (PDict items) ->
    items <> [] ->
    Permutation (key_values items) (map Some (zrange (length items))) ->
    exists k op,
      greatest_key items k op
      /\ py_int k = Some (Z.of_nat (length items) - 1)
      /\ (forall k' op', greatest_key items k' op' -> (k', op') = (k, op))
      /\ collect_bricks dict_to_cbrick data true with_colors
         = process_step dict_to_cbrick with_colors op ([], [])
      /\ export_from_json brick2mesh dict_to_cbrick makedirs mesh_export json_path data output_path
           true with_colors
         = (st <- process_step dict_to_cbrick with_colors op ([], []);;
            export_collected brick2mesh makedirs mesh_export json_path output_path with_colors st).
Proof.
  intros brick2mesh dict_to_cbrick makedirs mesh_export json_path output_path with_colors data items
         Hdata Hne Hperm.
  set (n := Z.of_nat (length items)).
  assert (Hnd : NoDup (key_values items)).
  { apply (Permutation_NoDup (Permutation_sym Hperm)), zrange_NoDup. }
  assert (Hrange : forall k' op', In (k', op') items ->
            exists z', py_int k' = Some z' /\ z' <= n - 1).
  { intros k' op' Hin.
    apply (in_map (fun kv => py_int (fst kv))) in Hin. simpl in Hin.
    apply (Permutation_in _ Hperm) in Hin.
    destruct (py_int k') as [z' |].
    - apply zrange_In in Hin. exists z'. split; [reflexivity | lia].
    - apply in_map_iff in Hin. destruct Hin as (y & Hy & _). discriminate. }
  assert (Hlast : In (Some (n - 1)) (key_values items)).
  { apply (Permutation_in _ (Permutation_sym Hperm)), zrange_In.
    unfold n. destruct items; [contradiction | cbn [length]; lia]. }
  apply in_map_iff in Hlast. destruct Hlast as ([k op] & Hk & Hin).
  simpl in Hk.
  pose proof (filter_single n items k op Hnd Hin Hk) as Hfilter.
  assert (Hcollect : collect_bricks dict_to_cbrick data true with_colors
                     = process_step dict_to_cbrick with_colors op ([], [])).
  { unfold collect_bricks. rewrite Hdata. simpl. fold n.
    rewrite operations_loop_final, Hfilter.
    - simpl. apply bind_ok.
    - apply Forall_forall. intros [k' op'] Hin'.
      destruct (Hrange k' op' Hin') as (z' & E & _). simpl. congruence. }
  exists k, op. split; [| split; [exact Hk | split; [| split]]].
  - split; [exact Hin |]. exists (n - 1). split; [exact Hk | exact Hrange].
  - intros k' op' (Hin' & z' & Hz' & Hmax).
    destruct (Hmax k op Hin) as (z & Hz & Hle).
    destruct (Hrange k' op' Hin') as (z'' & Hz'' & Hle').
    rewrite Hk in Hz. injection Hz as <-.
    rewrite Hz' in Hz''. injection Hz'' as <-.
    assert (z' = n - 1) as -> by lia.
    assert (Hf : In (k', op') (filter (is_last_index n) items)).
    { apply filter_In. split; [exact Hin' |].
      unfold is_last_index. simpl. rewrite Hz'. apply Z.eqb_refl. }
    rewrite Hfilter in Hf. destruct Hf as [E | []]. now symmetry.
  - exact Hcollect.
  - unfold export_from_json. now rewrite Hcollect.
Qed.

Lemma only_final_witness :
  exists k op,
    greatest_key shuffled_steps k op
    /\ py_int k = Some (Z.of_nat (length shuffled_steps) - 1)
    /\ (forall k' op', greatest_key shuffled_steps k' op' -> (k', op') = (k, op))
    /\ collect_bricks sample_expander (data_of shuffled_steps) true true
       = process_step sample_expander true op ([], [])
    /\ export_from_json sample_brick2mesh sample_expander sample_makedirs
      sample_mesh_export "in.json"
         (data_of shuffled_steps) "out.obj" true true
       = (st <- process_step sample_expander true op ([], []);;
          export_collected sample_brick2mesh sample_makedirs sample_mesh_export
            "in.json" "out.obj" true st).
Proof.
  apply (@only_final_takes_last_index sample_brick2mesh sample_expander sample_makedirs
           sample_mesh_export
           "in.json" "out.obj" true (data_of shuffled_steps) shuffled_steps).
  - reflexivity.
  - discriminate.
  - change (Permutation [Some 2; Some 0; Some 1] [Some 0; Some 1; Some 2]).
    exact (perm_trans (perm_swap (Some 0) (Some 2) [Some 1])
                      (perm_skip (Some 0) (perm_swap (Some 1) (Some 2) []))).
Defined.

Example only_final_shuffled_run :
  collect_bricks sample_expander (data_of shuffled_steps) true true
  = Ok ([mkBrick (PStr "3001") (PList [PInt 0; PInt 0; PInt 0])
                 (PList [PInt 1; PInt 0; PInt 0; PInt 0]);
         mkBrick (PStr "3002") (PList [PInt 20; PInt 0; PInt 0])
                 (PList [PInt 1; PInt 0; PInt 0; PInt 0])],
        [PNone; PNone]).
Proof. reflexivity. Qed.

Example only_final_gap_run :
  collect_bricks sample_expander (data_of gap_steps) true true = Ok ([], [])
  /\ process_step sample_expander true (step_of [primitive_at "3002" 0 0 8])
       ([], [])
     = Ok ([mkBrick (PStr "3002") (PList [PInt 0; PInt 0; PInt 8])
                    (PList [PInt 1; PInt 0; PInt 0; PInt 0])],
           [PNone]).
Proof. split; reflexivity. Qed.

Lemma greatest_key_gap :
  greatest_key gap_steps "5" (step_of [primitive_at "3002" 0 0 8]).
Proof.
  split; [simpl; tauto |]. exists 5. split; [reflexivity |].
  intros k' op' [E | [E | []]]; injection E as <- <-;
    [exists 0 | exists 5]; (split; [reflexivity | lia]).
Qed.

Lemma greatest_key_offset :
  greatest_key offset_steps "3" (step_of [primitive_at "3002" 0 0 8]).
Proof.
  split; [simpl; tauto |]. exists 3. split; [reflexivity |].
  intros k' op' [E | [E | [E | []]]]; injection E as <- <-;
    [exists 1 | exists 2 | exists 3]; (split; [reflexivity | lia]).
Qed.

(** C1 fails in the code: [only_final] is documented as exporting the final
    step only, and the guard of line 178 keeps the steps whose key is the
    number of steps minus one instead of the step of the greatest key.  On
    the two steps keyed 0 and 5 the final step is that of key 5, and no step
    at all is processed: the export goes on with no brick.  On the three
    steps keyed 1, 2 and 3 the final step is that of key 3, and the step of
    key 2 is exported in its place.  This holds whatever the collaborators
    are. *)
Theorem only_final_misses_final_step :
  forall (brick2mesh : Brick -> pyval -> result Mesh)
         (dict_to_cbrick : pyval -> bool -> result (list Brick))
         (makedirs : string -> result unit)
         (mesh_export : Mesh -> string -> option string -> result unit)
         (json_path output_path : string) (with_colors : bool),
    (greatest_key gap_steps "5" (step_of [primitive_at "3002" 0 0 8])
     /\ process_step dict_to_cbrick with_colors
          (step_of [primitive_at "3002" 0 0 8]) ([], [])
        = Ok ([mkBrick (PStr "3002") (PList [PInt 0; PInt 0; PInt 8])
                       (PList [PInt 1; PInt 0; PInt 0; PInt 0])],
              [PNone])
     /\ collect_bricks dict_to_cbrick (data_of gap_steps) true with_colors
        = Ok ([], [])
     /\ export_from_json brick2mesh dict_to_cbrick makedirs mesh_export
          json_path (data_of gap_steps) output_path true with_colors
        = export_collected brick2mesh makedirs mesh_export json_path
            output_path with_colors ([], []))
    /\ (greatest_key offset_steps "3" (step_of [primitive_at "3002" 0 0 8])
        /\ collect_bricks dict_to_cbrick (data_of offset_steps) true with_colors
           = process_step dict_to_cbrick with_colors
               (step_of [primitive_at "3002" 20 0 0]) ([], [])
        /\ collect_bricks dict_to_cbrick (data_of offset_steps) true with_colors
           = Ok ([mkBrick (PStr "3002") (PList [PInt 20; PInt 0; PInt 0])
                          (PList [PInt 1; PInt 0; PInt 0; PInt 0])],
                 [PNone])
        /\ export_from_json brick2mesh dict_to_cbrick makedirs mesh_export
             json_path (data_of offset_steps) output_path true with_colors
           = export_collected brick2mesh makedirs mesh_export json_path
               output_path with_colors
               ([mkBrick (PStr "3002") (PList [PInt 20; PInt 0; PInt 0])
                         (PList [PInt 1; PInt 0; PInt 0; PInt 0])],
                [PNone]))
    /\ ~ only_final_takes_greatest dict_to_cbrick gap_steps
    /\ ~ only_final_takes_greatest dict_to_cbrick offset_steps.
Proof.
  intros brick2mesh dict_to_cbrick makedirs mesh_export json_path output_path
         with_colors.
  split; [| split; [| split]].
  - split; [exact greatest_key_gap |].
    repeat split; destruct with_colors; reflexivity.
  - split; [exact greatest_key_offset |].
    repeat split; destruct with_colors; reflexivity.
  - intros H. specialize (H true _ _ greatest_key_gap). discriminate.
  - intros H. specialize (H true _ _ greatest_key_offset).
    vm_compute in H. discriminate.
Qed.

(** C6, as the code has it: a step key that is no integer makes the export
    fail when [only_final] is requested: with the [ValueError] of [int] when
    the loop gets to that key, with the error of an earlier step otherwise.
    When [only_final] is not requested the keys are never converted, and the
    export does what it does for any other keys on the same steps. *)
Theorem bad_key_fails_with_only_final :
  forall (brick2mesh : Brick -> pyval -> result Mesh)
         (dict_to_cbrick : pyval -> bool -> result (list Brick))
         (makedirs : string -> result unit)
         (mesh_export : Mesh -> string -> option string -> result unit)
         (json_path output_path : string) (with_colors : bool)
         (data : pyval) (pre post : list (string * pyval))
         (k : string) (op : pyval),
    subscript data "operations" = Ok (PDict (pre ++ (k, op) :: post)) ->
    py_int k = None ->
    (exists e,
       export_from_json brick2mesh dict_to_cbrick makedirs mesh_export json_path data output_path
         true with_colors = Raise e)
    /\ (forall st,
          operations_loop dict_to_cbrick true with_colors
            (Z.of_nat (length (pre ++ (k, op) :: post))) pre ([], []) = Ok st ->
          export_from_json brick2mesh dict_to_cbrick makedirs mesh_export json_path data output_path
            true with_colors = Raise ValueError)
    /\ (forall data' items',
          subscript data' "operations" = Ok (PDict items') ->
          map snd items' = map snd (pre ++ (k, op) :: post) ->
          export_from_json brick2mesh dict_to_cbrick makedirs mesh_export json_path data' output_path
            false with_colors
          = export_from_json brick2mesh dict_to_cbrick makedirs mesh_export json_path data
              output_path false with_colors).
Proof.
  intros brick2mesh dict_to_cbrick makedirs mesh_export json_path output_path with_colors data
         pre post k op Hdata Hk.
  split; [| split].
  - destruct (@operations_loop_bad_key dict_to_cbrick with_colors
                (Z.of_nat (length (pre ++ (k, op) :: post))) pre post k op Hk
                ([], [])) as [e He].
    exists e. unfold export_from_json, collect_bricks.
    rewrite Hdata. simpl. now rewrite He.
  - intros st Hpre. unfold export_from_json, collect_bricks.
    rewrite Hdata. simpl. rewrite operations_loop_app, Hpre. simpl.
    unfold skips. now rewrite Hk.
  - intros data' items' Hdata' Hsteps.
    unfold export_from_json, collect_bricks. rewrite Hdata, Hdata'. simpl.
    now rewrite (@operations_loop_keys_unused dict_to_cbrick with_colors
                   (Z.of_nat (length (pre ++ (k, op) :: post)))
                   (Z.of_nat (length items')) _ _ ([], []) Hsteps).
Qed.

Lemma bad_key_witness :
  (exists e,
     export_from_json sample_brick2mesh sample_expander sample_makedirs
      sample_mesh_export "in.json"
       (data_of named_steps) "out.obj" true true = Raise e)
  /\ (forall st,
        operations_loop sample_expander true true
          (Z.of_nat (length ([] ++ ("first", step_of [primitive_at "3001" 0 0 0]) :: [])))
          [] ([], []) = Ok st ->
        export_from_json sample_brick2mesh sample_expander sample_makedirs
      sample_mesh_export "in.json"
          (data_of named_steps) "out.obj" true true = Raise ValueError)
  /\ (forall data' items',
        subscript data' "operations" = Ok (PDict items') ->
        map snd items'
        = map snd ([] ++ ("first", step_of [primitive_at "3001" 0 0 0]) :: []) ->
        export_from_json sample_brick2mesh sample_expander sample_makedirs
      sample_mesh_export "in.json" data'
          "out.obj" false true
        = export_from_json sample_brick2mesh sample_expander sample_makedirs
      sample_mesh_export "in.json"
            (data_of named_steps) "out.obj" false true).
Proof.
  apply (@bad_key_fails_with_only_final sample_brick2mesh sample_expander sample_makedirs
           sample_mesh_export
           "in.json" "out.obj" true (data_of named_steps) [] []
           "first" (step_of [primitive_at "3001" 0 0 0]));
    reflexivity.
Defined.

Example named_step_runs :
  py_int "first" = None
  /\ collect_bricks sample_expander (data_of named_steps) true true
     = Raise ValueError
  /\ collect_bricks sample_expander (data_of named_steps) false true
     = Ok ([mkBrick (PStr "3001") (PList [PInt 0; PInt 0; PInt 0])
                    (PList [PInt 1; PInt 0; PInt 0; PInt 0])],
           [PNone])
  /\ is_ok (export_from_json sample_brick2mesh sample_expander sample_makedirs
      sample_mesh_export "in.json"
              (data_of named_steps) "out.obj" false true) = true.
Proof. repeat split; reflexivity. Qed.

(** C6, as stated, fails: without [only_final] the step keyed [first] is
    exported like any other. *)
Lemma bad_key_counterexample :
  ~ bad_key_always_fails sample_brick2mesh sample_expander sample_makedirs
      sample_mesh_export named_steps.
Proof.
  intros H.
  destruct (H "in.json" "out.obj" false true) as [e He].
  - exists "first", (step_of [primitive_at "3001" 0 0 0]).
    split; [simpl; tauto | reflexivity].
  - vm_compute in He. discriminate.
Qed.

(** ** create_custom_assembly *)

Lemma zip3_repeat (q : pyval) (brick_types : list pyval) :
  forall positions n,
    (length brick_types <= n)%nat ->
    map (fun '(brick_type, pos, rot) => mkBrick brick_type pos rot)
        (zip3 brick_types positions (repeat q n))
    = map (fun tp => mkBrick (fst tp) (snd tp) q) (combine brick_types positions).
Proof.
  induction brick_types as [|t ts IH]; intros [|p ps] [|n] H; simpl in *;
    try reflexivity; try lia.
  f_equal. apply IH. lia.
Qed.

(** C9: when [rotations] is supplied with a length other than that of
    [brick_types], [create_custom_assembly] builds every brick with the
    identity quaternion (1, 0, 0, 0): the bricks, and with them the call, are
    what they are when no rotations are supplied, so none of the supplied
    rotations is used, and nothing is raised on the way. *)
Theorem mismatched_rotations_discarded :
  forall (brick_types positions rotations : list pyval),
    length rotations <> length brick_types ->
    assembly_rotations brick_types (Some rotations)
    = repeat identity_quaternion (length brick_types)
    /\ assembly_bricks brick_types positions (Some rotations)
       = map (fun tp => mkBrick (fst tp) (snd tp) identity_quaternion)
             (combine brick_types positions)
    /\ Forall (fun b => rotation b = identity_quaternion)
              (assembly_bricks brick_types positions (Some rotations))
    /\ assembly_bricks brick_types positions (Some rotations)
       = assembly_bricks brick_types positions None
    /\ (forall (Image : Type)
               (visualize_bricks : list Brick -> bool -> bool -> result Image)
               (highlight : bool),
          create_custom_assembly visualize_bricks brick_types positions
            (Some rotations) highlight
          = create_custom_assembly visualize_bricks brick_types positions
              None highlight).
Proof.
  intros brick_types positions rotations Hlen.
  assert (Hrot : assembly_rotations brick_types (Some rotations)
                 = repeat identity_quaternion (length brick_types)).
  { unfold assembly_rotations.
    now replace (Nat.eqb (length rotations) (length brick_types)) with false
      by (symmetry; now apply Nat.eqb_neq). }
  assert (Hnone : assembly_rotations brick_types None
                  = repeat identity_quaternion (length brick_types)).
  { unfold assembly_rotations. now rewrite repeat_length, Nat.eqb_refl. }
  assert (Hbricks : assembly_bricks brick_types positions (Some rotations)
                    = map (fun tp => mkBrick (fst tp) (snd tp) identity_quaternion)
                          (combine brick_types positions)).
  { unfold assembly_bricks. rewrite Hrot. now apply zip3_repeat. }
  assert (Hsame : assembly_bricks brick_types positions (Some rotations)
                  = assembly_bricks brick_types positions None).
  { unfold assembly_bricks. now rewrite Hrot, Hnone. }
  repeat split; try assumption.
  - rewrite Hbricks. apply Forall_forall. intros b Hb.
    apply in_map_iff in Hb. now destruct Hb as (tp & <- & _).
  - intros Image visualize_bricks highlight.
    unfold create_custom_assembly. now rewrite Hsame.
Qed.

Lemma mismatched_rotations_witness :
  assembly_rotations [PStr "3001"; PStr "3002"] (Some [PTuple [PInt 0; PInt 1; PInt 0; PInt 0]])
  = repeat identity_quaternion 2
  /\ assembly_bricks [PStr "3001"; PStr "3002"]
       [PTuple [PInt 0; PInt 0; PInt 0]; PTuple [PInt 20; PInt 0; PInt 0]]
       (Some [PTuple [PInt 0; PInt 1; PInt 0; PInt 0]])
     = map (fun tp => mkBrick (fst tp) (snd tp) identity_quaternion)
           (combine [PStr "3001"; PStr "3002"]
              [PTuple [PInt 0; PInt 0; PInt 0]; PTuple [PInt 20; PInt 0; PInt 0]])
  /\ Forall (fun b => rotation b = identity_quaternion)
            (assembly_bricks [PStr "3001"; PStr "3002"]
               [PTuple [PInt 0; PInt 0; PInt 0]; PTuple [PInt 20; PInt 0; PInt 0]]
               (Some [PTuple [PInt 0; PInt 1; PInt 0; PInt 0]]))
  /\ assembly_bricks [PStr "3001"; PStr "3002"]
       [PTuple [PInt 0; PInt 0; PInt 0]; PTuple [PInt 20; PInt 0; PInt 0]]
       (Some [PTuple [PInt 0; PInt 1; PInt 0; PInt 0]])
     = assembly_bricks [PStr "3001"; PStr "3002"]
         [PTuple [PInt 0; PInt 0; PInt 0]; PTuple [PInt 20; PInt 0; PInt 0]] None
  /\ (forall (Image : Type)
             (visualize_bricks : list Brick -> bool -> bool -> result Image)
             (highlight : bool),
        create_custom_assembly visualize_bricks [PStr "3001"; PStr "3002"]
          [PTuple [PInt 0; PInt 0; PInt 0]; PTuple [PInt 20; PInt 0; PInt 0]]
          (Some [PTuple [PInt 0; PInt 1; PInt 0; PInt 0]]) highlight
        = create_custom_assembly visualize_bricks [PStr "3001"; PStr "3002"]
            [PTuple [PInt 0; PInt 0; PInt 0]; PTuple [PInt 20; PInt 0; PInt 0]]
            None highlight).
Proof.
  apply (@mismatched_rotations_discarded [PStr "3001"; PStr "3002"]
           [PTuple [PInt 0; PInt 0; PInt 0]; PTuple [PInt 20; PInt 0; PInt 0]]
           [PTuple [PInt 0; PInt 1; PInt 0; PInt 0]]).
  simpl. lia.
Defined.


(** * Further properties *)

(** ** export_bricks_to_mesh *)

(** X1: the first brick that does not convert ends [export_bricks_to_mesh]
    with its error, in both merge modes: no mesh of the bricks before it is
    returned. *)
Theorem export_fails_at_first_bad_brick :
  forall (brick2mesh : Brick -> pyval -> result Mesh)
         (bricks : list Brick) (colors : option (list pyval)) (merge : bool)
         (k : nat) (b : Brick) (e : exn),
    nth_error bricks k = Some b ->
    convert_at brick2mesh colors k b = Raise e ->
    (forall k' b', (k' < k)%nat -> nth_error bricks k' = Some b' ->
       is_ok (convert_at brick2mesh colors k' b') = true) ->
    export_bricks_to_mesh brick2mesh bricks colors merge = Raise e.
Proof.
  intros brick2mesh bricks colors merge k b e Hk He Hbefore.
  unfold export_bricks_to_mesh.
  now rewrite (@convert_from_raise brick2mesh colors bricks O [] k b e Hk He Hbefore).
Qed.

Lemma export_fails_witness :
  export_bricks_to_mesh sample_brick2mesh bricks_with_unknown None true
  = Raise (CollaboratorError "UnknownBrickTypeError").
Proof.
  apply (@export_fails_at_first_bad_brick sample_brick2mesh bricks_with_unknown
           None true 1
           (mkBrick (PStr "9999") (PList [PInt 20; PInt 0; PInt 0])
                    identity_quaternion)).
  - reflexivity.
  - reflexivity.
  - intros [|k'] b' Hlt H; [injection H as <-; reflexivity | lia].
Defined.

(** X2: colours beyond the number of bricks are never looked at:
    [export_bricks_to_mesh] returns the same with and without them. *)
Theorem export_ignores_surplus_colors :
  forall (brick2mesh : Brick -> pyval -> result Mesh)
         (bricks : list Brick) (cs surplus : list pyval) (merge : bool),
    (length bricks <= length cs)%nat ->
    export_bricks_to_mesh brick2mesh bricks (Some (cs ++ surplus)) merge
    = export_bricks_to_mesh brick2mesh bricks (Some cs) merge.
Proof.
  intros brick2mesh bricks cs surplus merge Hlen.
  unfold export_bricks_to_mesh.
  rewrite (@convert_from_ext brick2mesh (Some (cs ++ surplus)) (Some cs)
             bricks O []); [reflexivity |].
  intros k Hk. simpl. rewrite length_app.
  replace (Nat.ltb k (length cs + length surplus)) with true
    by (symmetry; apply Nat.ltb_lt; lia).
  replace (Nat.ltb k (length cs)) with true
    by (symmetry; apply Nat.ltb_lt; lia).
  replace (Nat.eqb (length cs + length surplus) 0) with false
    by (symmetry; apply Nat.eqb_neq; lia).
  replace (Nat.eqb (length cs) 0) with false
    by (symmetry; apply Nat.eqb_neq; lia).
  simpl. now rewrite nth_error_app1 by lia.
Qed.

Lemma export_surplus_witness :
  export_bricks_to_mesh sample_brick2mesh sample_bricks
    (Some ([red; PNone; red] ++ [red; red])) false
  = export_bricks_to_mesh sample_brick2mesh sample_bricks
      (Some [red; PNone; red]) false.
Proof.
  apply (@export_ignores_surplus_colors sample_brick2mesh sample_bricks
           [red; PNone; red] [red; red] false).
  simpl. lia.
Defined.

(** ** export_from_json: the two lists it collects *)

Lemma repeat_app_None (a b : nat) :
  repeat PNone a ++ repeat PNone b = repeat PNone (a + b).
Proof. symmetry. apply repeat_app. Qed.

Lemma append_sub_bricks_appends (with_colors : bool) (entry : pyval)
    (subs : list Brick) :
  forall st st',
    append_sub_bricks with_colors entry subs st = Ok st' ->
    exists cs,
      st' = (fst st ++ subs, snd st ++ cs)
      /\ length subs = length cs
      /\ (with_colors = false -> cs = repeat PNone (length subs)).
Proof.
  induction subs as [|b subs IH]; intros [bs0 cs0] st' H; simpl in H.
  - injection H as <-. exists []. simpl. rewrite !app_nil_r. auto.
  - destruct (entry_color with_colors entry) as [col |] eqn:Ecol;
      [| discriminate].
    simpl in H. destruct (IH _ _ H) as (cs & -> & Hlen & Hnone). simpl.
    exists (col :: cs). rewrite <- !app_assoc. simpl.
    repeat split; [now rewrite Hlen |].
    intros ->. simpl in Ecol. injection Ecol as <-. now rewrite Hnone.
Qed.

Section CollectedLists.

Variable dict_to_cbrick : pyval -> bool -> result (list Brick).

(** Every loop of [export_from_json] appends as many colours as bricks,
    and only [None] when [with_colors] is off. *)
Lemma process_item_appends (with_colors : bool) (entry : pyval)
    (st st' : collected) :
  process_item dict_to_cbrick with_colors entry st = Ok st' ->
  exists bs cs,
    st' = (fst st ++ bs, snd st ++ cs)
    /\ length bs = length cs
    /\ (with_colors = false -> cs = repeat PNone (length bs)).
Proof.
  unfold process_item.
  destruct (subscript entry "brick_transform") as [t |]; [| discriminate].
  simpl. destruct (subscript t "rotation") as [r |]; [| discriminate].
  simpl. destruct (subscript t "position") as [p |]; [| discriminate].
  simpl. destruct (py_in "brick_type" entry) as [[|] |]; [| | discriminate];
    simpl.
  - destruct (subscript entry "brick_type") as [ty |]; [| discriminate].
    simpl. destruct (entry_color with_colors entry) as [col |] eqn:Ecol;
      [| discriminate].
    simpl. intros H. injection H as <-.
    exists [mkBrick ty p r], [col]. repeat split.
    intros ->. simpl in Ecol. now injection Ecol as <-.
  - destruct (dict_to_cbrick entry false) as [subs |]; [| discriminate].
    simpl. intros H.
    destruct (append_sub_bricks_appends _ _ _ _ H) as (cs & -> & Hlen & Hnone).
    now exists subs, cs.
Qed.

Lemma step_loop_appends (with_colors : bool) (b_step : pyval) (js : list nat) :
  forall st st',
    step_loop dict_to_cbrick with_colors b_step js st = Ok st' ->
    exists bs cs,
      st' = (fst st ++ bs, snd st ++ cs)
      /\ length bs = length cs
      /\ (with_colors = false -> cs = repeat PNone (length bs)).
Proof.
  induction js as [|j js IH]; intros st st' H; simpl in H.
  - injection H as <-. exists [], []. rewrite !app_nil_r.
    destruct st. auto.
  - unfold process_entry in H.
    destruct (subscript_int b_step j) as [entry |]; [| discriminate].
    simpl in H.
    destruct (process_item dict_to_cbrick with_colors entry st)
      as [st1 |] eqn:E1; [| discriminate].
    simpl in H.
    destruct (process_item_appends _ _ _ E1) as (bs1 & cs1 & -> & L1 & N1).
    destruct (IH _ _ H) as (bs2 & cs2 & -> & L2 & N2). simpl.
    exists (bs1 ++ bs2), (cs1 ++ cs2). rewrite <- !app_assoc.
    repeat split; [now rewrite !length_app, L1, L2 |].
    intros Hwc. rewrite (N1 Hwc), (N2 Hwc), length_app.
    apply repeat_app_None.
Qed.

Lemma process_step_appends (with_colors : bool) (op : pyval)
    (st st' : collected) :
  process_step dict_to_cbrick with_colors op st = Ok st' ->
  exists bs cs,
    st' = (fst st ++ bs, snd st ++ cs)
    /\ length bs = length cs
    /\ (with_colors = false -> cs = repeat PNone (length bs)).
Proof.
  unfold process_step.
  destruct (subscript op "bricks") as [b_step |]; [| discriminate]. simpl.
  destruct (py_len b_step) as [n |]; [| discriminate]. simpl.
  apply step_loop_appends.
Qed.

Lemma operations_loop_appends (only_final with_colors : bool) (n : Z)
    (items : list (string * pyval)) :
  forall st st',
    operations_loop dict_to_cbrick only_final with_colors n items st = Ok st' ->
    exists bs cs,
      st' = (fst st ++ bs, snd st ++ cs)
      /\ length bs = length cs
      /\ (with_colors = false -> cs = repeat PNone (length bs)).
Proof.
  induction items as [|[k op] items IH]; intros st st' H; simpl in H.
  - injection H as <-. exists [], []. rewrite !app_nil_r. destruct st. auto.
  - destruct (skips only_final n k) as [[|] |]; [| | discriminate];
      simpl in H; [now apply IH |].
    destruct (process_step dict_to_cbrick with_colors op st)
      as [st1 |] eqn:E1; [| discriminate].
    simpl in H.
    destruct (process_step_appends _ _ _ E1) as (bs1 & cs1 & -> & L1 & N1).
    destruct (IH _ _ H) as (bs2 & cs2 & -> & L2 & N2). simpl.
    exists (bs1 ++ bs2), (cs1 ++ cs2). rewrite <- !app_assoc.
    repeat split; [now rewrite !length_app, L1, L2 |].
    intros Hwc. rewrite (N1 Hwc), (N2 Hwc), length_app.
    apply repeat_app_None.
Qed.

Lemma collect_bricks_appends (data : pyval) (only_final with_colors : bool)
    (st : collected) :
  collect_bricks dict_to_cbrick data only_final with_colors = Ok st ->
  length (fst st) = length (snd st)
  /\ (with_colors = false -> snd st = repeat PNone (length (fst st))).
Proof.
  unfold collect_bricks.
  destruct (subscript data "operations") as [ops |]; [| discriminate]. simpl.
  destruct (py_items ops) as [items |]; [| discriminate]. simpl.
  intros H.
  destruct (operations_loop_appends _ _ _ _ _ H) as (bs & cs & -> & L & N).
  simpl. auto.
Qed.

End CollectedLists.

(** X3: whenever [export_from_json] gets through its loops, the lists
    [bricks] and [colors] it has built have the same length: every brick has
    its own entry in [colors]. *)
Theorem collected_lists_same_length :
  forall (dict_to_cbrick : pyval -> bool -> result (list Brick))
         (data : pyval) (only_final with_colors : bool) (st : collected),
    collect_bricks dict_to_cbrick data only_final with_colors = Ok st ->
    length (fst st) = length (snd st).
Proof.
  intros dict_to_cbrick data only_final with_colors st H.
  now destruct (collect_bricks_appends _ _ _ _ H).
Qed.

Lemma collected_lists_witness :
  collect_bricks sample_expander
    (data_of [("0", step_of [red_around_blue; primitive_at "3002" 0 0 8])])
    false true
  = Ok ([mkBrick (PStr "3001") (PList [PInt 10; PInt 0; PInt 0])
                 (PList [PInt 1; PInt 0; PInt 0; PInt 0]);
         mkBrick (PStr "3002") (PList [PInt 0; PInt 0; PInt 8])
                 (PList [PInt 1; PInt 0; PInt 0; PInt 0])],
        [red; PNone])
  /\ length [mkBrick (PStr "3001") (PList [PInt 10; PInt 0; PInt 0])
                     (PList [PInt 1; PInt 0; PInt 0; PInt 0]);
             mkBrick (PStr "3002") (PList [PInt 0; PInt 0; PInt 8])
                     (PList [PInt 1; PInt 0; PInt 0; PInt 0])]
     = length [red; PNone].
Proof.
  split; [reflexivity |].
  apply (@collected_lists_same_length sample_expander
           (data_of [("0", step_of [red_around_blue; primitive_at "3002" 0 0 8])])
           false true
           ([mkBrick (PStr "3001") (PList [PInt 10; PInt 0; PInt 0])
                     (PList [PInt 1; PInt 0; PInt 0; PInt 0]);
             mkBrick (PStr "3002") (PList [PInt 0; PInt 0; PInt 8])
                     (PList [PInt 1; PInt 0; PInt 0; PInt 0])],
            [red; PNone])).
  reflexivity.
Defined.

(** X4: with [with_colors] off, [export_from_json] collects [None] for
    every brick, whatever [color] the entries carry. *)
Theorem colors_off_collects_none :
  forall (dict_to_cbrick : pyval -> bool -> result (list Brick))
         (data : pyval) (only_final : bool) (st : collected),
    collect_bricks dict_to_cbrick data only_final false = Ok st ->
    snd st = repeat PNone (length (fst st)).
Proof.
  intros dict_to_cbrick data only_final st H.
  destruct (collect_bricks_appends _ _ _ _ H) as [_ N]. now apply N.
Qed.

Lemma colors_off_witness :
  collect_bricks sample_expander
    (data_of [("0", step_of [red_around_blue])]) false false
  = Ok ([mkBrick (PStr "3001") (PList [PInt 10; PInt 0; PInt 0])
                 (PList [PInt 1; PInt 0; PInt 0; PInt 0])],
        [PNone])
  /\ [PNone] = repeat PNone 1.
Proof.
  split; [reflexivity |].
  apply (@colors_off_collects_none sample_expander
           (data_of [("0", step_of [red_around_blue])]) false
           ([mkBrick (PStr "3001") (PList [PInt 10; PInt 0; PInt 0])
                     (PList [PInt 1; PInt 0; PInt 0; PInt 0])],
            [PNone])).
  reflexivity.
Defined.

(** ** export_from_json: which steps, in which order *)

Section AllSteps.

Variable dict_to_cbrick : pyval -> bool -> result (list Brick).

Lemma step_loop_shift (with_colors : bool) (b_step : pyval) (js : list nat) :
  forall bs cs bs0 cs0,
    step_loop dict_to_cbrick with_colors b_step js (bs ++ bs0, cs ++ cs0)
    = (r <- step_loop dict_to_cbrick with_colors b_step js (bs0, cs0);;
       Ok (bs ++ fst r, cs ++ snd r)).
Proof.
  induction js as [|j js IH]; intros bs cs bs0 cs0; simpl; [reflexivity |].
  unfold process_entry.
  destruct (subscript_int b_step j) as [entry | e]; simpl; [| reflexivity].
  rewrite process_item_shift.
  destruct (process_item dict_to_cbrick with_colors entry (bs0, cs0))
    as [[b1 c1] | e]; simpl; [apply IH | reflexivity].
Qed.

(** What a step appends does not depend on what was collected before. *)
Lemma process_step_shift (with_colors : bool) (op : pyval)
    (bs : list Brick) (cs : list pyval) :
  process_step dict_to_cbrick with_colors op (bs, cs)
  = (r <- process_step dict_to_cbrick with_colors op ([], []);;
     Ok (bs ++ fst r, cs ++ snd r)).
Proof.
  unfold process_step.
  destruct (subscript op "bricks") as [b_step | e]; simpl; [| reflexivity].
  destruct (py_len b_step) as [n | e]; simpl; [| reflexivity].
  pose proof (step_loop_shift with_colors b_step (seq 0 n) bs cs [] []) as E.
  now rewrite !app_nil_r in E.
Qed.

Lemma operations_loop_concat (with_colors : bool) (n : Z)
    (items : list (string * pyval)) (per_step : list collected) :
  Forall2 (fun kv r =>
             process_step dict_to_cbrick with_colors (snd kv) ([], []) = Ok r)
          items per_step ->
  forall bs cs,
    operations_loop dict_to_cbrick false with_colors n items (bs, cs)
    = Ok (bs ++ concat (map fst per_step), cs ++ concat (map snd per_step)).
Proof.
  induction 1 as [|[k op] r items per_step Hr _ IH]; intros bs cs; simpl.
  - now rewrite !app_nil_r.
  - rewrite process_step_shift. simpl in Hr. rewrite Hr. simpl.
    rewrite IH. now rewrite <- !app_assoc.
Qed.

End AllSteps.

(** X5: without [only_final], [export_from_json] collects the bricks of
    every step, one step after the other in the order of the mapping: what it
    collects is the concatenation of what each step gives on its own. *)
Theorem all_steps_are_concatenated :
  forall (dict_to_cbrick : pyval -> bool -> result (list Brick))
         (with_colors : bool) (data : pyval) (items : list (string * pyval))
         (per_step : list collected),
    subscript data "operations" = Ok (PDict items) ->
    Forall2 (fun kv r =>
               process_step dict_to_cbrick with_colors (snd kv) ([], []) = Ok r)
            items per_step ->
    collect_bricks dict_to_cbrick data false with_colors
    = Ok (concat (map fst per_step), concat (map snd per_step)).
Proof.
  intros dict_to_cbrick with_colors data items per_step Hdata Hsteps.
  unfold collect_bricks. rewrite Hdata. simpl.
  now rewrite (@operations_loop_concat dict_to_cbrick with_colors _ items
                 per_step Hsteps [] []).
Qed.

Lemma all_steps_witness :
  collect_bricks sample_expander (data_of gap_steps) false true
  = Ok (concat (map fst
                  [([mkBrick (PStr "3001") (PList [PInt 0; PInt 0; PInt 0])
                             (PList [PInt 1; PInt 0; PInt 0; PInt 0])],
                    [PNone]);
                   ([mkBrick (PStr "3002") (PList [PInt 0; PInt 0; PInt 8])
                             (PList [PInt 1; PInt 0; PInt 0; PInt 0])],
                    [PNone])]),
        concat (map snd
                  [([mkBrick (PStr "3001") (PList [PInt 0; PInt 0; PInt 0])
                             (PList [PInt 1; PInt 0; PInt 0; PInt 0])],
                    [PNone]);
                   ([mkBrick (PStr "3002") (PList [PInt 0; PInt 0; PInt 8])
                             (PList [PInt 1; PInt 0; PInt 0; PInt 0])],
                    [PNone])])).
Proof.
  apply (@all_steps_are_concatenated sample_expander true (data_of gap_steps)
           gap_steps).
  - reflexivity.
  - repeat constructor.
Defined.

(** X6: with [only_final] and step keys that are all integers,
    [export_from_json] collects what it collects without [only_final] from
    the steps whose key is, as an integer, the number of steps minus one; when
    no key has that value it collects nothing, and raises nothing. *)
Theorem only_final_is_a_filter :
  forall (dict_to_cbrick : pyval -> bool -> result (list Brick))
         (with_colors : bool) (data : pyval) (items : list (string * pyval)),
    subscript data "operations" = Ok (PDict items) ->
    Forall (fun kv => py_int (fst kv) <> None) items ->
    collect_bricks dict_to_cbrick data true with_colors
    = collect_bricks dict_to_cbrick
        (data_of (filter (is_last_index (Z.of_nat (length items))) items))
        false with_colors
    /\ (~ In (Some (Z.of_nat (length items) - 1)) (key_values items) ->
        collect_bricks dict_to_cbrick data true with_colors = Ok ([], [])).
Proof.
  intros dict_to_cbrick with_colors data items Hdata Hkeys.
  assert (E : collect_bricks dict_to_cbrick data true with_colors
              = operations_loop dict_to_cbrick false with_colors
                  (Z.of_nat (length items))
                  (filter (is_last_index (Z.of_nat (length items))) items)
                  ([], [])).
  { unfold collect_bricks. rewrite Hdata. simpl.
    now apply operations_loop_final. }
  split.
  - rewrite E. unfold collect_bricks. simpl.
    now apply operations_loop_keys_unused.
  - intros Hnone. rewrite E, filter_none by exact Hnone. reflexivity.
Qed.

Lemma only_final_filter_witness :
  collect_bricks sample_expander (data_of gap_steps) true true
  = collect_bricks sample_expander
      (data_of (filter (is_last_index (Z.of_nat (length gap_steps))) gap_steps))
      false true
  /\ (~ In (Some (Z.of_nat (length gap_steps) - 1)) (key_values gap_steps) ->
      collect_bricks sample_expander (data_of gap_steps) true true
      = Ok ([], [])).
Proof.
  apply (@only_final_is_a_filter sample_expander true (data_of gap_steps)
           gap_steps).
  - reflexivity.
  - repeat constructor; discriminate.
Defined.

(** X7: an entry that is a dict without [brick_transform], primitive or
    composite, makes [export_from_json] fail with [KeyError] once the steps
    and the entries before it have been processed, when its step is one that
    the loop processes: any step without [only_final], and with [only_final]
    the step whose key is the number of steps minus one.  Nothing is exported
    then.  In a step that [only_final] skips the entry is never read: the
    export is what it is for any other content of that step. *)
Theorem entry_without_transform_aborts :
  forall (brick2mesh : Brick -> pyval -> result Mesh)
         (dict_to_cbrick : pyval -> bool -> result (list Brick))
         (makedirs : string -> result unit)
         (mesh_export : Mesh -> string -> option string -> result unit)
         (json_path output_path : string) (only_final with_colors : bool)
         (data : pyval)
         (before after : list (string * pyval)) (k : string) (op : pyval)
         (pre post : list pyval) (d : list (string * pyval))
         (st st' : collected),
    subscript data "operations" = Ok (PDict (before ++ (k, op) :: after)) ->
    operations_loop dict_to_cbrick only_final with_colors
      (Z.of_nat (length (before ++ (k, op) :: after))) before ([], [])
    = Ok st ->
    subscript op "bricks" = Ok (PList (pre ++ PDict d :: post)) ->
    items_loop dict_to_cbrick with_colors pre st = Ok st' ->
    dict_get d "brick_transform" = None ->
    (skips only_final (Z.of_nat (length (before ++ (k, op) :: after))) k
     = Ok false ->
     export_from_json brick2mesh dict_to_cbrick makedirs mesh_export json_path
       data output_path only_final with_colors = Raise KeyError)
    /\ (only_final = false ->
        export_from_json brick2mesh dict_to_cbrick makedirs mesh_export
          json_path data output_path only_final with_colors = Raise KeyError)
    /\ (only_final = true ->
        py_int k = Some (Z.of_nat (length (before ++ (k, op) :: after)) - 1) ->
        export_from_json brick2mesh dict_to_cbrick makedirs mesh_export
          json_path data output_path only_final with_colors = Raise KeyError)
    /\ (skips only_final (Z.of_nat (length (before ++ (k, op) :: after))) k
        = Ok true ->
        forall data' op',
          subscript data' "operations"
          = Ok (PDict (before ++ (k, op') :: after)) ->
          export_from_json brick2mesh dict_to_cbrick makedirs mesh_export
            json_path data' output_path only_final with_colors
          = export_from_json brick2mesh dict_to_cbrick makedirs mesh_export
              json_path data output_path only_final with_colors).
Proof.
  intros brick2mesh dict_to_cbrick makedirs mesh_export json_path output_path
         only_final with_colors data before after k op pre post d st st'
         Hdata Hbefore Hop Hpre Hd.
  assert (Hraise :
    skips only_final (Z.of_nat (length (before ++ (k, op) :: after))) k
    = Ok false ->
    export_from_json brick2mesh dict_to_cbrick makedirs mesh_export json_path
      data output_path only_final with_colors = Raise KeyError).
  { intros Hskip. unfold export_from_json, collect_bricks.
    rewrite Hdata. cbn [bind py_items].
    rewrite operations_loop_app, Hbefore. cbn [bind operations_loop].
    rewrite Hskip. cbn [bind].
    rewrite (process_step_list _ _ _ _ Hop), items_loop_app, Hpre.
    cbn [bind items_loop]. unfold process_item. simpl. now rewrite Hd. }
  split; [exact Hraise | split; [| split]].
  - intros ->. now apply Hraise.
  - intros -> Hk. apply Hraise. unfold skips. rewrite Hk.
    now rewrite Z.eqb_refl.
  - intros Hskip data' op' Hdata'.
    unfold export_from_json, collect_bricks.
    rewrite Hdata, Hdata'. cbn [bind py_items].
    replace (length (before ++ (k, op') :: after))
      with (length (before ++ (k, op) :: after))
      by (rewrite !length_app; reflexivity).
    rewrite !operations_loop_app, Hbefore. cbn [bind operations_loop].
    now rewrite Hskip.
Qed.

Lemma entry_without_transform_witness :
  (skips true
     (Z.of_nat (length ([("0", step_of [primitive_at "3001" 0 0 0])]
                        ++ ("1", step_without_transform) :: [])))
     "1" = Ok false ->
   export_from_json sample_brick2mesh sample_expander sample_makedirs
     sample_mesh_export "in.json"
     (data_of [("0", step_of [primitive_at "3001" 0 0 0]);
               ("1", step_without_transform)])
     "out.obj" true true
   = Raise KeyError)
  /\ (true = false ->
      export_from_json sample_brick2mesh sample_expander sample_makedirs
        sample_mesh_export "in.json"
        (data_of [("0", step_of [primitive_at "3001" 0 0 0]);
                  ("1", step_without_transform)])
        "out.obj" true true
      = Raise KeyError)
  /\ (true = true ->
      py_int "1"
      = Some (Z.of_nat (length ([("0", step_of [primitive_at "3001" 0 0 0])]
                                ++ ("1", step_without_transform) :: []))
              - 1) ->
      export_from_json sample_brick2mesh sample_expander sample_makedirs
        sample_mesh_export "in.json"
        (data_of [("0", step_of [primitive_at "3001" 0 0 0]);
                  ("1", step_without_transform)])
        "out.obj" true true
      = Raise KeyError)
  /\ (skips true
        (Z.of_nat (length ([("0", step_of [primitive_at "3001" 0 0 0])]
                           ++ ("1", step_without_transform) :: [])))
        "1" = Ok true ->
      forall data' op',
        subscript data' "operations"
        = Ok (PDict ([("0", step_of [primitive_at "3001" 0 0 0])]
                     ++ ("1", op') :: [])) ->
        export_from_json sample_brick2mesh sample_expander sample_makedirs
          sample_mesh_export "in.json" data' "out.obj" true true
        = export_from_json sample_brick2mesh sample_expander sample_makedirs
            sample_mesh_export "in.json"
            (data_of [("0", step_of [primitive_at "3001" 0 0 0]);
                      ("1", step_without_transform)])
            "out.obj" true true).
Proof.
  apply (@entry_without_transform_aborts sample_brick2mesh sample_expander
           sample_makedirs sample_mesh_export "in.json" "out.obj" true true
           (data_of [("0", step_of [primitive_at "3001" 0 0 0]);
                     ("1", step_without_transform)])
           [("0", step_of [primitive_at "3001" 0 0 0])] [] "1"
           step_without_transform
           [primitive_at "3001" 0 0 0] [primitive_at "3002" 0 0 8]
           [("brick_type", PStr "3002")]
           ([], [])
           ([mkBrick (PStr "3001") (PList [PInt 0; PInt 0; PInt 0])
                     (PList [PInt 1; PInt 0; PInt 0; PInt 0])], [PNone]));
    reflexivity.
Defined.

Example entry_without_transform_runs :
  export_from_json sample_brick2mesh sample_expander sample_makedirs
    sample_mesh_export "in.json"
    (data_of [("0", step_of [primitive_at "3001" 0 0 0]);
              ("1", step_without_transform)])
    "out.obj" false true
  = Raise KeyError
  /\ export_from_json sample_brick2mesh sample_expander sample_makedirs
       sample_mesh_export "in.json"
       (data_of [("0", step_of [primitive_at "3001" 0 0 0]);
                 ("1", step_without_transform)])
       "out.obj" true true
     = Raise KeyError
  /\ is_ok (export_from_json sample_brick2mesh sample_expander sample_makedirs
              sample_mesh_export "in.json"
              (data_of [("0", step_without_transform);
                        ("1", step_of [primitive_at "3001" 0 0 0])])
              "out.obj" true true)
     = true.
Proof. repeat split; reflexivity. Qed.

(** ** Paths: the last separator and the extension *)

Lemma rfind_from_app (c : ascii) (a b : list ascii) :
  forall i last,
    rfind_from c (a ++ b) i last
    = rfind_from c b (i + Z.of_nat (length a)) (rfind_from c a i last).
Proof.
  induction a as [|x a IH]; intros i last; simpl.
  - now rewrite Z.add_0_r.
  - rewrite IH. f_equal. lia.
Qed.

Lemma rfind_from_absent (c : ascii) (b : list ascii) :
  ~ In c b -> forall i last, rfind_from c b i last = last.
Proof.
  induction b as [|x b IH]; intros H i last; simpl; [reflexivity |].
  simpl in H. rewrite IH by tauto.
  destruct (Ascii.eqb_spec x c); [tauto | reflexivity].
Qed.

Lemma rfind_from_present (c : ascii) (b : list ascii) :
  In c b -> forall i last, i <= rfind_from c b i last.
Proof.
  induction b as [|x b IH]; intros H i last; [contradiction |]. simpl.
  destruct (rfind_from_spec c b (i + 1) (if Ascii.eqb x c then i else last))
    as [E | [Hle _]]; [| lia].
  rewrite E. destruct (Ascii.eqb_spec x c) as [_ | Hne]; [lia |].
  destruct H as [H | H]; [contradiction |].
  specialize (IH H (i + 1) last). rewrite E in IH.
  destruct (Ascii.eqb_spec x c); [contradiction | lia].
Qed.

Lemma rfind_at (c : ascii) (q t : list ascii) :
  ~ In c t -> rfind c (q ++ c :: t) = Z.of_nat (length q).
Proof.
  intros H. unfold rfind. rewrite rfind_from_app. simpl.
  rewrite Ascii.eqb_refl. now rewrite rfind_from_absent.
Qed.

Lemma rfind_absent_tail (c : ascii) (q t : list ascii) :
  ~ In c t -> rfind c (q ++ t) = rfind c q.
Proof.
  intros H. unfold rfind. rewrite rfind_from_app. now apply rfind_from_absent.
Qed.

Lemma rfind_lt_length (c : ascii) (s : list ascii) :
  rfind c s < Z.of_nat (length s).
Proof.
  destruct (rfind_spec c s) as [-> | [H0 Hn]]; [lia |].
  assert (Hlt : (Z.to_nat (rfind c s) < length s)%nat).
  { apply nth_error_Some. congruence. }
  lia.
Qed.

Lemma last_occurrence (c : ascii) (s : list ascii) :
  In c s -> exists q t, s = q ++ c :: t /\ ~ In c t.
Proof.
  induction s as [|x s IH]; intros H; [contradiction |].
  destruct (in_dec ascii_dec c s) as [Hin | Hnot].
  - destruct (IH Hin) as (q & t & -> & Ht). now exists (x :: q), t.
  - destruct H as [-> | H]; [| contradiction]. now exists [], s.
Qed.

Lemma rfind_absent (c : ascii) (s : list ascii) :
  ~ In c s -> rfind c s = -1.
Proof. intros H. unfold rfind. now apply rfind_from_absent. Qed.

Lemma skipn_length_app {A : Type} (q t : list A) :
  skipn (length q) (q ++ t) = t.
Proof. induction q; simpl; auto. Qed.

Lemma firstn_length_app {A : Type} (q t : list A) :
  firstn (length q) (q ++ t) = q.
Proof. induction q; simpl; [reflexivity | now f_equal]. Qed.

(** The extension that [splitext] cuts off is empty, or a dot followed by
    characters among which there is neither a dot nor a slash. *)
Lemma splitext_ext_cases (path : string) :
  snd (splitext path) = ""
  \/ exists q t,
       list_ascii_of_string path = q ++ "."%char :: t
       /\ snd (splitext path) = string_of_list_ascii ("."%char :: t)
       /\ ~ In "."%char t /\ ~ In "/"%char t.
Proof.
  unfold splitext.
  set (p := list_ascii_of_string path).
  destruct (_ && _)%bool eqn:E; simpl; [| now left].
  right. apply andb_true_iff in E. destruct E as [Hgt _].
  apply Z.gtb_lt in Hgt.
  pose proof (rfind_lower_bound "/" p) as Hsep.
  destruct (in_dec ascii_dec "."%char p) as [Hin | Hnot];
    [| rewrite (@rfind_absent _ _ Hnot) in Hgt; lia].
  destruct (@last_occurrence _ _ Hin) as (q & t & Hp & Ht).
  exists q, t. rewrite Hp in *. rewrite (@rfind_at _ q _ Ht) in *.
  rewrite Nat2Z.id, skipn_length_app.
  repeat split; [exact Ht |].
  intros Hslash. unfold rfind in Hgt. rewrite rfind_from_app in Hgt.
  pose proof (@rfind_from_present "/" ("."%char :: t) (or_intror Hslash)
                (0 + Z.of_nat (length q)) (rfind_from "/" q 0 (-1))).
  lia.
Qed.

Lemma lower_char_not_upper (c : ascii) :
  in_range 65 90 (lower_char c) = false.
Proof.
  destruct c as [[|] [|] [|] [|] [|] [|] [|] [|]]; reflexivity.
Qed.

Lemma lower_char_dot (c : ascii) : lower_char c = "."%char -> c = "."%char.
Proof.
  destruct c as [[|] [|] [|] [|] [|] [|] [|] [|]]; vm_compute; congruence.
Qed.

Lemma lower_char_slash (c : ascii) : lower_char c = "/"%char -> c = "/"%char.
Proof.
  destruct c as [[|] [|] [|] [|] [|] [|] [|] [|]]; vm_compute; congruence.
Qed.

Lemma lower_char_idem (c : ascii) : lower_char (lower_char c) = lower_char c.
Proof.
  destruct c as [[|] [|] [|] [|] [|] [|] [|] [|]]; reflexivity.
Qed.

Lemma lower_idem (s : string) : lower (lower s) = lower s.
Proof.
  unfold lower. rewrite list_ascii_of_string_of_list_ascii, map_map.
  f_equal. apply map_ext. intros c. apply lower_char_idem.
Qed.

Lemma lower_chars (s : string) :
  list_ascii_of_string (lower s) = map lower_char (list_ascii_of_string s).
Proof. unfold lower. apply list_ascii_of_string_of_list_ascii. Qed.

(** ** export_to_file: the format it infers *)

Lemma inferred_format_chars (output_path : string) :
  Forall (fun c => c <> "."%char /\ c <> "/"%char /\ in_range 65 90 c = false)
         (list_ascii_of_string (resolve_format output_path None)).
Proof.
  unfold resolve_format. rewrite lower_chars.
  apply Forall_forall. intros c Hc. apply in_map_iff in Hc.
  destruct Hc as (x & <- & Hx).
  assert (Hplain : x <> "."%char /\ x <> "/"%char).
  { destruct (splitext_ext_cases output_path) as [E | (q & t & _ & E & Hd & Hs)];
      rewrite E in Hx; simpl in Hx; [contradiction |].
    rewrite list_ascii_of_string_of_list_ascii in Hx.
    split; intros ->; contradiction. }
  destruct Hplain as [Hd Hs].
  repeat split.
  - intros E. now apply lower_char_dot in E.
  - intros E. now apply lower_char_slash in E.
  - apply lower_char_not_upper.
Qed.

(** X8: the format that [export_to_file] infers from the output path when
    none is given holds no dot, no slash and no upper-case letter: it is what
    follows the last dot of the file name, in lower case. *)
Theorem inferred_format_is_plain :
  forall (output_path : string),
    Forall (fun c => c <> "."%char /\ c <> "/"%char /\ in_range 65 90 c = false)
           (list_ascii_of_string (resolve_format output_path None)).
Proof. exact inferred_format_chars. Qed.

(** ** main: the output path and its format *)

Lemma list_ascii_of_string_app (a b : string) :
  list_ascii_of_string (a ++ b)%string
  = list_ascii_of_string a ++ list_ascii_of_string b.
Proof. induction a as [|c a IH]; simpl; [reflexivity | now rewrite IH]. Qed.

Lemma string_length_list (s : string) :
  String.length s = length (list_ascii_of_string s).
Proof. induction s as [|c s IH]; simpl; [reflexivity | now rewrite IH]. Qed.

Lemma endswith_app (a suffix : string) :
  endswith (a ++ suffix)%string suffix = true.
Proof.
  unfold endswith.
  rewrite list_ascii_of_string_app, length_app, string_length_list.
  replace (length (list_ascii_of_string a) + length (list_ascii_of_string suffix)
           - length (list_ascii_of_string suffix))%nat
    with (length (list_ascii_of_string a)) by lia.
  rewrite skipn_length_app, string_of_list_ascii_of_string, String.eqb_refl.
  rewrite andb_true_r. apply Nat.leb_le. lia.
Qed.

Lemma endswith_true (s suffix : string) :
  endswith s suffix = true ->
  exists q, list_ascii_of_string s = q ++ list_ascii_of_string suffix.
Proof.
  unfold endswith. intros H. apply andb_true_iff in H. destruct H as [_ H].
  apply String.eqb_eq in H.
  exists (firstn (length (list_ascii_of_string s) - String.length suffix)
                 (list_ascii_of_string s)).
  rewrite <- H at 2. rewrite list_ascii_of_string_of_list_ascii.
  symmetry. apply firstn_skipn.
Qed.

Lemma py_or_nonempty (a : option string) (b : string) :
  b <> "" -> py_or a b <> "".
Proof.
  intros Hb. destruct a as [s |]; simpl; [| exact Hb].
  destruct (String.eqb_spec s ""); assumption.
Qed.

Lemma endswith_iff (s suffix : string) :
  endswith s suffix = true <-> exists q, s = (q ++ suffix)%string.
Proof.
  split.
  - intros H. destruct (endswith_true _ _ H) as [q Hq].
    exists (string_of_list_ascii q).
    apply (f_equal string_of_list_ascii) in Hq.
    rewrite string_of_list_ascii_of_string in Hq. rewrite Hq.
    now rewrite string_of_list_ascii_app, string_of_list_ascii_of_string.
  - intros [q ->]. apply endswith_app.
Qed.

(** X9: whatever the arguments, [main] goes on with a format that is not
    empty and with an output path that ends with a dot and that format: the
    path given, when it ends so already, and otherwise the path given with
    the dot and the format appended.  The format is [--format] when it is
    given, else the lower-cased extension of [--output] when there is one,
    else obj. *)
Theorem main_output_ends_with_format :
  forall (format : option string) (output : string),
    output_format format output <> ""
    /\ (exists q,
          normalized_output format output
          = (q ++ "." ++ output_format format output)%string)
    /\ endswith (normalized_output format output)
                ("." ++ output_format format output)%string = true
    /\ ((exists q, output = (q ++ "." ++ output_format format output)%string) ->
        normalized_output format output = output)
    /\ (~ (exists q, output = (q ++ "." ++ output_format format output)%string) ->
        normalized_output format output
        = (output ++ "." ++ output_format format output)%string)
    /\ (forall f, format = Some f -> f <> "" -> output_format format output = f)
    /\ (given format = None -> output <> "" ->
        lower (drop_first (snd (splitext output))) <> "" ->
        output_format format output
        = lower (drop_first (snd (splitext output))))
    /\ (given format = None ->
        output = "" \/ lower (drop_first (snd (splitext output))) = "" ->
        output_format format output = "obj").
Proof.
  intros format output.
  assert (Hends : endswith (normalized_output format output)
                    ("." ++ output_format format output)%string = true).
  { unfold normalized_output.
    destruct (endswith output ("." ++ output_format format output)) eqn:E;
      [exact E |].
    apply (endswith_app output ("." ++ output_format format output)). }
  assert (Hgiven : given format = None -> py_or format
                     (py_or (format_ext output) "obj")
                   = py_or (format_ext output) "obj").
  { destruct format as [f |]; simpl; [| reflexivity].
    now destruct (String.eqb f ""). }
  split; [| split; [| split; [| split; [| split; [| split; [| split]]]]]].
  - unfold output_format. apply py_or_nonempty, py_or_nonempty. discriminate.
  - now apply endswith_iff.
  - exact Hends.
  - intros H. apply endswith_iff in H. unfold normalized_output.
    now rewrite H.
  - intros H. unfold normalized_output.
    destruct (endswith output ("." ++ output_format format output)) eqn:E;
      [| reflexivity].
    apply endswith_iff in E. contradiction.
  - intros f -> Hf. unfold output_format. simpl.
    now destruct (String.eqb_spec f "").
  - intros Hg Hout Hext. unfold output_format. rewrite (Hgiven Hg).
    unfold format_ext.
    destruct (String.eqb_spec output ""); [contradiction |]. simpl.
    now destruct (String.eqb_spec (lower (drop_first (snd (splitext output)))) "").
  - intros Hg H. unfold output_format. rewrite (Hgiven Hg).
    unfold format_ext.
    destruct (String.eqb_spec output ""); [reflexivity |]. simpl.
    destruct H as [H | H]; [contradiction |]. now rewrite H.
Qed.

Example main_output_runs :
  normalized_output None "brick.obj" = "brick.obj"
  /\ normalized_output None "brick" = "brick.obj"
  /\ normalized_output (Some "stl") "brick.obj" = "brick.obj.stl"
  /\ normalized_output None "out/model.OBJ" = "out/model.OBJ.obj"
  /\ normalized_output (Some "ply") "scene.ply" = "scene.ply".
Proof. repeat split; reflexivity. Qed.

Lemma skipn_cons_nth_error {A : Type} (l : list A) :
  forall n c r, skipn n l = c :: r -> nth_error l n = Some c.
Proof.
  induction l as [|x l IH]; intros [|n] c r H; simpl in *; try discriminate.
  - now injection H as -> _.
  - now apply (IH n c r).
Qed.

(** [splitext] of a path that ends with a dot and a plain token, when the
    file name starts with a character that is no dot. *)
Lemma splitext_dotted (q f : list ascii) (c : ascii) :
  ~ In "."%char f -> ~ In "/"%char f ->
  nth_error q (Z.to_nat (rfind "/" q + 1)) = Some c -> c <> "."%char ->
  splitext (string_of_list_ascii (q ++ "."%char :: f))
  = (string_of_list_ascii q, string_of_list_ascii ("."%char :: f)).
Proof.
  intros Hdot Hslash Hc Hne. unfold splitext.
  rewrite list_ascii_of_string_of_list_ascii.
  rewrite (@rfind_at "." q f Hdot).
  assert (Hs : ~ In "/"%char ("."%char :: f)).
  { intros [E | E]; [discriminate | contradiction]. }
  rewrite (@rfind_absent_tail "/" q _ Hs).
  pose proof (rfind_lower_bound "/" q) as Hlo.
  assert (Hn : (Z.to_nat (rfind "/" q + 1) < length q)%nat).
  { apply nth_error_Some. congruence. }
  replace (Z.of_nat (length q) >? rfind "/" q) with true
    by (symmetry; apply Z.gtb_lt; lia).
  destruct (Z.to_nat (Z.of_nat (length q) - (rfind "/" q + 1))) as [|m] eqn:Em;
    [lia |].
  simpl has_name_char.
  rewrite nth_error_app1, Hc by exact Hn.
  destruct (Ascii.eqb_spec c "."); [contradiction |].
  simpl. now rewrite Nat2Z.id, firstn_length_app, skipn_length_app.
Qed.

(** The format [main] settles on, when [--format] is one of the choices. *)
Lemma output_format_plain (format : option string) (output : string) :
  format_choice format = true ->
  ~ In "."%char (list_ascii_of_string (output_format format output))
  /\ ~ In "/"%char (list_ascii_of_string (output_format format output))
  /\ lower (output_format format output) = output_format format output.
Proof.
  assert (Hobj : ~ In "."%char (list_ascii_of_string "obj")
                 /\ ~ In "/"%char (list_ascii_of_string "obj")
                 /\ lower "obj" = "obj").
  { repeat split; try reflexivity;
      simpl; intros [E | [E | [E | []]]]; discriminate. }
  intros Hf. unfold output_format.
  destruct format as [s |]; simpl in Hf.
  - rewrite !orb_false_r in Hf.
    repeat (apply orb_true_iff in Hf; destruct Hf as [Hf | Hf]);
      apply String.eqb_eq in Hf; subst s; simpl;
      (repeat split; try reflexivity;
       simpl; intros [E | [E | [E | []]]]; discriminate).
  - simpl. unfold format_ext.
    destruct (String.eqb output ""); simpl; [exact Hobj |].
    destruct (String.eqb_spec (lower (drop_first (snd (splitext output)))) "");
      [exact Hobj |].
    pose proof (inferred_format_chars output) as Hall.
    unfold resolve_format in Hall. rewrite Forall_forall in Hall.
    repeat split.
    + intros Hin. now destruct (Hall _ Hin) as [H _].
    + intros Hin. now destruct (Hall _ Hin) as (_ & H & _).
    + apply lower_idem.
Qed.

(** X10: when [--format] is absent or one of its choices and the file name
    of [--output] starts with a character that is no dot, the format that
    [export_to_file] infers from the path [main] hands to [export_from_json]
    is the format [main] settled on: the JSON route writes what the other
    routes, which pass the format along, write. *)
Theorem json_route_infers_chosen_format :
  forall (format : option string) (output : string),
    format_choice format = true ->
    plain_name output = true ->
    resolve_format (normalized_output format output) None
    = output_format format output
    /\ forall makedirs mesh_export mesh,
         export_to_file makedirs mesh_export mesh
           (normalized_output format output) None
         = export_to_file makedirs mesh_export mesh
             (normalized_output format output)
             (Some (output_format format output)).
Proof.
  intros format output Hchoice Hname.
  destruct (output_format_plain format output Hchoice) as (Hdot & Hslash & Hlow).
  set (f := output_format format output) in *.
  assert (Hsplit : exists q,
             normalized_output format output
             = string_of_list_ascii (q ++ "."%char :: list_ascii_of_string f)
             /\ exists c, nth_error q (Z.to_nat (rfind "/" q + 1)) = Some c
                          /\ c <> "."%char).
  { unfold plain_name, file_name in Hname.
    set (p := list_ascii_of_string output) in *.
    destruct (skipn (Z.to_nat (rfind "/" p + 1)) p) as [|c r] eqn:Eskip;
      [discriminate |].
    assert (Hc : c <> "."%char).
    { intros ->. discriminate. }
    unfold normalized_output. fold f.
    destruct (endswith output ("." ++ f)) eqn:E.
    - destruct (endswith_true _ _ E) as [q Hq]. fold p in Hq.
      simpl in Hq. exists q. split.
      + rewrite <- Hq. unfold p. symmetry.
        apply string_of_list_ascii_of_string.
      + exists c. split; [| exact Hc].
        assert (Hs : ~ In "/"%char ("."%char :: list_ascii_of_string f)).
        { intros [H | H]; [discriminate | contradiction]. }
        rewrite Hq, (@rfind_absent_tail "/" q _ Hs) in Eskip.
        pose proof (rfind_lt_length "/" q) as Hlt.
        pose proof (rfind_lower_bound "/" q) as Hlo.
        apply skipn_cons_nth_error in Eskip.
        destruct (Nat.eq_dec (Z.to_nat (rfind "/" q + 1)) (length q)) as [En | Hn].
        * rewrite En, nth_error_app2, Nat.sub_diag in Eskip by lia.
          simpl in Eskip. congruence.
        * now rewrite nth_error_app1 in Eskip by lia.
    - exists p. split.
      + rewrite string_of_list_ascii_app. unfold p.
        rewrite string_of_list_ascii_of_string. simpl.
        now rewrite string_of_list_ascii_of_string.
      + exists c. split; [| exact Hc].
        now apply skipn_cons_nth_error in Eskip. }
  destruct Hsplit as (q & Hq & c & Hc & Hne).
  assert (E : resolve_format (normalized_output format output) None = f).
  { unfold resolve_format.
    rewrite Hq, (@splitext_dotted q _ c Hdot Hslash Hc Hne). simpl.
    now rewrite string_of_list_ascii_of_string. }
  split; [exact E |].
  intros makedirs mesh_export mesh. unfold export_to_file. now rewrite E.
Qed.

Lemma json_route_format_witness :
  resolve_format (normalized_output None "out/model.OBJ") None
  = output_format None "out/model.OBJ"
  /\ forall makedirs mesh_export mesh,
       export_to_file makedirs mesh_export mesh
         (normalized_output None "out/model.OBJ") None
       = export_to_file makedirs mesh_export mesh
           (normalized_output None "out/model.OBJ")
           (Some (output_format None "out/model.OBJ")).
Proof.
  apply (@json_route_infers_chosen_format None "out/model.OBJ"); reflexivity.
Defined.

(** ** main: one file per mesh *)

Lemma of_uint_zeros (k : nat) (d : Decimal.uint) :
  Nat.of_uint (Nat.iter k Decimal.D0 d) = Nat.of_uint d.
Proof.
  induction k as [|k IH]; [reflexivity |].
  simpl Nat.iter. rewrite <- IH. reflexivity.
Qed.

Lemma string_of_uint_inj (d d' : Decimal.uint) :
  NilEmpty.string_of_uint d = NilEmpty.string_of_uint d' -> d = d'.
Proof.
  intros H. apply (f_equal NilEmpty.uint_of_string) in H.
  rewrite !NilEmpty.usu in H. now injection H.
Qed.

(** Two indices are never formatted alike. *)
Lemma format_03d_inj (i j : nat) : format_03d i = format_03d j -> i = j.
Proof.
  unfold format_03d. intros H. apply string_of_uint_inj in H.
  apply (f_equal Nat.of_uint) in H.
  now rewrite !of_uint_zeros, !DecimalNat.Unsigned.of_to in H.
Qed.

Lemma string_app_inv_head (s a b : string) :
  (s ++ a)%string = (s ++ b)%string -> a = b.
Proof.
  induction s as [|c s IH]; simpl; intros H; [exact H |].
  injection H as H. now apply IH.
Qed.

Lemma string_app_inv_tail (a b e : string) :
  (a ++ e)%string = (b ++ e)%string -> a = b.
Proof.
  intros H. apply (f_equal list_ascii_of_string) in H.
  rewrite !list_ascii_of_string_app in H. apply app_inv_tail in H.
  apply (f_equal string_of_list_ascii) in H.
  now rewrite !string_of_list_ascii_of_string in H.
Qed.

Lemma separate_file_inj (base_name ext : string) (i j : nat) :
  separate_file base_name ext i = separate_file base_name ext j -> i = j.
Proof.
  unfold separate_file. intros H.
  apply string_app_inv_head, string_app_inv_head, string_app_inv_tail in H.
  now apply format_03d_inj.
Qed.

Lemma exported_paths_app (a b : list main_event) :
  exported_paths (a ++ b) = exported_paths a ++ exported_paths b.
Proof. unfold exported_paths. apply flat_map_app. Qed.

Lemma exported_files_app (a b : list main_event) :
  exported_files (a ++ b) = exported_files a ++ exported_files b.
Proof. unfold exported_files. apply flat_map_app. Qed.

Lemma separate_paths_NoDup (base_name ext : string) (n : nat) :
  NoDup (map (separate_file base_name ext) (seq 0 n)).
Proof.
  apply NoDup_map_injective; [| apply seq_NoDup].
  intros i j. apply separate_file_inj.
Qed.

(** *** The index in the file name *)

Lemma string_of_uint_digits (d : Decimal.uint) :
  Forall (fun c => is_digit c = true)
         (list_ascii_of_string (NilEmpty.string_of_uint d)).
Proof. induction d; simpl; constructor; auto. Qed.

Lemma string_of_uint_length (d : Decimal.uint) :
  String.length (NilEmpty.string_of_uint d) = Decimal.nb_digits d.
Proof. induction d; simpl; auto. Qed.

Lemma scan_digits_of_uint (d : Decimal.uint) :
  forall acc : nat,
    scan_digits true (Z.of_nat acc)
      (list_ascii_of_string (NilEmpty.string_of_uint d))
    = Some (Z.of_nat (Nat.of_uint_acc d acc)).
Proof.
  induction d; intros acc; cbn [NilEmpty.string_of_uint list_ascii_of_string];
    [reflexivity | ..];
    cbn [scan_digits];
    match goal with
    | |- context [is_digit ?c] => change (is_digit c) with true
    end;
    cbn [Nat.of_uint_acc]; rewrite <- IHd; f_equal;
    match goal with
    | |- context [digit_value ?c] =>
        let v := eval vm_compute in (digit_value c) in
        change (digit_value c) with v
    end;
    rewrite Nat.tail_mul_spec; lia.
Qed.

Lemma lstrip_digits (s : list ascii) :
  Forall (fun c => is_digit c = true) s -> lstrip s = s.
Proof.
  destruct 1 as [|c s Hc _]; [reflexivity |]. simpl.
  replace (is_space c) with false; [reflexivity |].
  revert Hc. destruct c as [[] [] [] [] [] [] [] []]; vm_compute;
    congruence.
Qed.

Lemma strip_digits (s : list ascii) :
  Forall (fun c => is_digit c = true) s -> strip s = s.
Proof.
  intros H. unfold strip. rewrite (lstrip_digits H).
  rewrite lstrip_digits; [apply rev_involutive |].
  apply Forall_rev, H.
Qed.

(** [int] reads a string of digits as the number they write. *)
Lemma py_int_of_uint (d : Decimal.uint) :
  d <> Decimal.Nil ->
  py_int (NilEmpty.string_of_uint d) = Some (Z.of_nat (Nat.of_uint d)).
Proof.
  intros Hd. unfold py_int.
  rewrite (strip_digits (string_of_uint_digits d)).
  pose proof (scan_digits_of_uint d 0) as H. fold (Nat.of_uint d) in H.
  destruct d; try contradiction; exact H.
Qed.

Lemma iter_D0_not_Nil (k : nat) (d : Decimal.uint) :
  d <> Decimal.Nil -> Nat.iter k Decimal.D0 d <> Decimal.Nil.
Proof. destruct k; simpl; [auto | discriminate]. Qed.

Lemma to_uint_not_Nil (i : nat) : Nat.to_uint i <> Decimal.Nil.
Proof.
  destruct i as [|i]; [discriminate |].
  intros E. apply (f_equal Nat.of_uint) in E.
  rewrite DecimalNat.Unsigned.of_to in E. discriminate.
Qed.

(** The decimal writing of a number starts with no zero, unless it is the
    one digit 0. *)
Lemma to_uint_head (i : nat) (d : Decimal.uint) :
  Nat.to_uint i = Decimal.D0 d -> d = Decimal.Nil.
Proof.
  intros E.
  pose proof (DecimalNat.Unsigned.to_of (Nat.to_uint i)) as H.
  rewrite DecimalNat.Unsigned.of_to in H. rewrite E in H.
  unfold Decimal.unorm in H. simpl Decimal.nzhead in H.
  pose proof (DecimalFacts.nb_digits_nzhead d) as Hle.
  destruct (Decimal.nzhead d) as [|u|u|u|u|u|u|u|u|u|u];
    try discriminate; injection H as H.
  - exact H.
  - subst u. simpl in Hle. lia.
Qed.

(** What [f"{i:03d}"] is: digits only, three at least, that write [i], with
    no zero in front beyond the third digit from the right. *)
Lemma format_03d_spec (i : nat) :
  Forall (fun c => is_digit c = true) (list_ascii_of_string (format_03d i))
  /\ (3 <= String.length (format_03d i))%nat
  /\ py_int (format_03d i) = Some (Z.of_nat i)
  /\ ((3 < String.length (format_03d i))%nat ->
      exists c r, format_03d i = String c r /\ c <> "0"%char).
Proof.
  unfold format_03d.
  split; [apply string_of_uint_digits |].
  rewrite string_of_uint_length, DecimalFacts.nb_digits_iter_D0.
  split; [lia |].
  split.
  - rewrite py_int_of_uint by apply iter_D0_not_Nil, to_uint_not_Nil.
    now rewrite of_uint_zeros, DecimalNat.Unsigned.of_to.
  - intros Hlong.
    replace (3 - Decimal.nb_digits (Nat.to_uint i))%nat with 0%nat by lia.
    simpl Nat.iter.
    pose proof (@to_uint_head i) as Hhead.
    destruct (Nat.to_uint i) as [|d|d|d|d|d|d|d|d|d|d] eqn:E;
      simpl in Hlong; try lia;
      try (simpl; eexists _, _; split; [reflexivity | discriminate]).
    specialize (Hhead d eq_refl). subst d. simpl in Hlong. lia.
Qed.

Lemma format_03d_short (i : nat) :
  (i < 1000)%nat -> String.length (format_03d i) = 3%nat.
Proof.
  intros Hi.
  assert (H : forallb (fun i => Nat.eqb (String.length (format_03d i)) 3)
                      (seq 0 1000) = true) by (vm_compute; reflexivity).
  rewrite forallb_forall in H. apply Nat.eqb_eq, H, in_seq. lia.
Qed.

(** *** The loop *)

Section SeparateFiles.

Variable makedirs : string -> result unit.
Variable mesh_export : Mesh -> string -> option string -> result unit.

Lemma export_to_file_paths (mesh : Mesh) (path format : string)
    (evs : list event) :
  export_to_file makedirs mesh_export mesh path (Some format) = Ok evs ->
  exported_files (map Exported evs) = [(path, mesh, export_file_type format)]
  /\ exported_paths (map Exported evs) = [path].
Proof.
  intros H. apply export_to_file_events in H.
  destruct H as (_ & _ & ->). split; reflexivity.
Qed.

(** A run of the loop that ends without error has written every mesh, in
    order, each to the file of its index. *)
Lemma export_separate_from_ok (base_name ext format : string)
    (meshes : list Mesh) :
  forall i evs,
    export_separate_from makedirs mesh_export base_name ext format i meshes
    = Ok evs ->
    exported_files evs
    = map (fun im => (separate_file base_name ext (fst im), snd im,
                      export_file_type format))
          (combine (seq i (length meshes)) meshes)
    /\ exported_paths evs
       = map (separate_file base_name ext) (seq i (length meshes))
    /\ forall k m,
         nth_error meshes k = Some m ->
         is_ok (export_to_file makedirs mesh_export m
                  (separate_file base_name ext (i + k)) (Some format)) = true.
Proof.
  induction meshes as [|m meshes IH]; intros i evs H;
    cbn [export_separate_from] in H.
  - injection H as <-. repeat split. intros [|k] m' E; discriminate.
  - destruct (export_to_file makedirs mesh_export m
                (separate_file base_name ext i) (Some format))
      as [evs1 |] eqn:E1; [| discriminate].
    cbn [bind] in H.
    destruct (export_separate_from makedirs mesh_export base_name ext format
                (S i) meshes) as [evs2 |] eqn:E2; [| discriminate].
    cbn [bind] in H. injection H as <-.
    destruct (IH _ _ E2) as (Hf & Hp & Hok).
    destruct (export_to_file_paths _ _ _ E1) as [Hf1 Hp1].
    rewrite exported_files_app, exported_paths_app, Hf, Hp, Hf1, Hp1.
    cbn [length seq combine map fst snd app].
    repeat split. intros [|k] m' Em; simpl in Em.
    + injection Em as <-. now rewrite Nat.add_0_r, E1.
    + rewrite Nat.add_succ_r. now apply Hok.
Qed.

(** The first file that can not be written ends the loop with its error. *)
Lemma export_separate_from_raise (base_name ext format : string)
    (meshes : list Mesh) :
  forall i k m e,
    nth_error meshes k = Some m ->
    (forall j m', (j < k)%nat -> nth_error meshes j = Some m' ->
       is_ok (export_to_file makedirs mesh_export m'
                (separate_file base_name ext (i + j)) (Some format)) = true) ->
    export_to_file makedirs mesh_export m
      (separate_file base_name ext (i + k)) (Some format) = Raise e ->
    export_separate_from makedirs mesh_export base_name ext format i meshes
    = Raise e.
Proof.
  induction meshes as [|m0 meshes IH]; intros i [|k] m e Hm Hbefore He;
    simpl in Hm; try discriminate; cbn [export_separate_from].
  - injection Hm as ->. rewrite Nat.add_0_r in He. now rewrite He.
  - pose proof (Hbefore 0%nat m0 ltac:(lia) eq_refl) as H0.
    rewrite Nat.add_0_r in H0.
    destruct (export_to_file makedirs mesh_export m0
                (separate_file base_name ext i) (Some format))
      as [evs1 |]; [| discriminate].
    cbn [bind].
    rewrite (IH (S i) k m e Hm).
    + reflexivity.
    + intros j m' Hj Hm'. rewrite Nat.add_succ_l, <- Nat.add_succ_r.
      apply Hbefore; [lia | exact Hm'].
    + now rewrite Nat.add_succ_l, <- Nat.add_succ_r.
Qed.

(** When every file can be written the loop ends without error. *)
Lemma export_separate_from_total (base_name ext format : string)
    (meshes : list Mesh) :
  forall i,
    (forall k m, nth_error meshes k = Some m ->
       is_ok (export_to_file makedirs mesh_export m
                (separate_file base_name ext (i + k)) (Some format)) = true) ->
    exists evs,
      export_separate_from makedirs mesh_export base_name ext format i meshes
      = Ok evs.
Proof.
  induction meshes as [|m meshes IH]; intros i Hall; cbn [export_separate_from].
  - now exists [].
  - pose proof (Hall 0%nat m eq_refl) as H0. rewrite Nat.add_0_r in H0.
    destruct (export_to_file makedirs mesh_export m
                (separate_file base_name ext i) (Some format))
      as [evs1 |]; [| discriminate].
    cbn [bind].
    destruct (IH (S i)) as [evs2 ->].
    + intros k m' Hm'. rewrite Nat.add_succ_l, <- Nat.add_succ_r.
      now apply Hall.
    + cbn [bind]. eauto.
Qed.

Lemma export_separate_ok (output format : string) (meshes : list Mesh)
    (evs : list main_event) :
  export_separate makedirs mesh_export output format meshes = Ok evs ->
  exported_files evs
  = map (fun im => (separate_file (fst (splitext output))
                      (snd (splitext output)) (fst im),
                    snd im, export_file_type format))
        (combine (seq 0 (length meshes)) meshes)
  /\ exported_paths evs
     = map (separate_file (fst (splitext output)) (snd (splitext output)))
           (seq 0 (length meshes))
  /\ forall k m,
       nth_error meshes k = Some m ->
       is_ok (export_to_file makedirs mesh_export m
                (separate_file (fst (splitext output))
                   (snd (splitext output)) k) (Some format)) = true.
Proof.
  unfold export_separate.
  destruct (export_separate_from makedirs mesh_export _ _ format 0 meshes)
    as [evs0 |] eqn:E; [| discriminate].
  cbn [bind]. intros H. injection H as <-.
  destruct (export_separate_from_ok _ _ _ _ _ E) as (Hf & Hp & Hok).
  rewrite exported_files_app, exported_paths_app, Hf, Hp.
  cbn [exported_files exported_paths flat_map].
  rewrite !app_nil_r. repeat split. exact Hok.
Qed.

End SeparateFiles.

Lemma nth_error_enumerate {A B : Type} (f : nat * A -> B) (l : list A) :
  forall start i x,
    nth_error l i = Some x ->
    nth_error (map f (combine (seq start (length l)) l)) i
    = Some (f ((start + i)%nat, x)).
Proof.
  induction l as [|y l IH]; intros start [|i] x H; simpl in H;
    try discriminate; cbn [length seq combine map nth_error].
  - injection H as ->. now rewrite Nat.add_0_r.
  - rewrite (IH (S start) i x H). now rewrite Nat.add_succ_r.
Qed.

(** X11: the loop that ends [main] in separate mode writes, when it ends
    without error, one file per mesh and nothing else: the mesh of index [i]
    goes, with the format [main] settled on, to [base_name_i.ext], where [i]
    is written in decimal digits, three at least, padded with zeros on the
    left and not beyond three digits; no two meshes go to the same path.  The
    loop ends without error when every file can be written, and with the
    error of the first file that can not be written otherwise. *)
Theorem separate_files_are_distinct :
  forall (makedirs : string -> result unit)
         (mesh_export : Mesh -> string -> option string -> result unit)
         (output format : string) (meshes : list Mesh),
    (forall evs,
       export_separate makedirs mesh_export output format meshes = Ok evs ->
       (forall i m,
          nth_error meshes i = Some m ->
          nth_error (exported_files evs) i
          = Some ((fst (splitext output) ++ "_" ++ format_03d i
                   ++ snd (splitext output))%string,
                  m, export_file_type format)
          /\ is_ok (export_to_file makedirs mesh_export m
                      (fst (splitext output) ++ "_" ++ format_03d i
                       ++ snd (splitext output))%string
                      (Some format)) = true)
       /\ length (exported_files evs) = length meshes
       /\ exported_paths evs = map (fun f => fst (fst f)) (exported_files evs)
       /\ NoDup (exported_paths evs))
    /\ (forall i m e,
          nth_error meshes i = Some m ->
          (forall j m', (j < i)%nat -> nth_error meshes j = Some m' ->
             is_ok (export_to_file makedirs mesh_export m'
                      (fst (splitext output) ++ "_" ++ format_03d j
                       ++ snd (splitext output))%string
                      (Some format)) = true) ->
          export_to_file makedirs mesh_export m
            (fst (splitext output) ++ "_" ++ format_03d i
             ++ snd (splitext output))%string
            (Some format) = Raise e ->
          export_separate makedirs mesh_export output format meshes = Raise e)
    /\ ((forall i m,
           nth_error meshes i = Some m ->
           is_ok (export_to_file makedirs mesh_export m
                    (fst (splitext output) ++ "_" ++ format_03d i
                     ++ snd (splitext output))%string
                    (Some format)) = true) ->
        exists evs,
          export_separate makedirs mesh_export output format meshes = Ok evs)
    /\ (forall i,
          Forall (fun c => is_digit c = true)
                 (list_ascii_of_string (format_03d i))
          /\ (3 <= String.length (format_03d i))%nat
          /\ py_int (format_03d i) = Some (Z.of_nat i)
          /\ ((3 < String.length (format_03d i))%nat ->
              exists c r, format_03d i = String c r /\ c <> "0"%char)
          /\ ((i < 1000)%nat -> String.length (format_03d i) = 3%nat)).
Proof.
  intros makedirs mesh_export output format meshes.
  split; [| split; [| split]].
  - intros evs H.
    destruct (export_separate_ok _ _ _ _ _ H) as (Hf & Hp & Hok).
    split; [| split; [| split]].
    + intros i m Hm. split; [| exact (Hok i m Hm)].
      rewrite Hf. now rewrite (nth_error_enumerate _ _ 0 _ Hm).
    + now rewrite Hf, length_map, length_combine, length_seq, Nat.min_id.
    + rewrite Hf, Hp, map_map. cbn [fst].
      generalize 0%nat. clear.
      induction meshes as [|m meshes IH]; intros start; [reflexivity |].
      cbn [length seq combine map fst]. now rewrite IH.
    + rewrite Hp. apply separate_paths_NoDup.
  - intros i m e Hm Hbefore He. unfold export_separate.
    now rewrite (@export_separate_from_raise makedirs mesh_export _ _ format
                   meshes 0%nat i m e Hm Hbefore He).
  - intros Hall. unfold export_separate.
    destruct (@export_separate_from_total makedirs mesh_export
                (fst (splitext output)) (snd (splitext output)) format meshes
                0%nat Hall) as [evs ->].
    cbn [bind]. eauto.
  - intros i. destruct (format_03d_spec i) as (H1 & H2 & H3 & H4).
    repeat split; try assumption. apply format_03d_short.
Qed.

Lemma separate_files_witness :
  exists evs,
    export_separate sample_makedirs sample_mesh_export "out/model.tar.obj"
      "obj" [mkMesh [] []; mkMesh [(0, 0, 0)%float] []] = Ok evs
    /\ exported_files evs
       = [("out/model.tar_000.obj", mkMesh [] [], Some "obj");
          ("out/model.tar_001.obj", mkMesh [(0, 0, 0)%float] [], Some "obj")]
    /\ nth_error (exported_files evs) 1
       = Some ((fst (splitext "out/model.tar.obj") ++ "_" ++ format_03d 1
                ++ snd (splitext "out/model.tar.obj"))%string,
               mkMesh [(0, 0, 0)%float] [], export_file_type "obj")
    /\ export_separate sample_makedirs sample_mesh_export "out/model.tar.foo"
         "foo" [mkMesh [] []; mkMesh [(0, 0, 0)%float] []] = Raise ValueError.
Proof.
  eexists. split; [reflexivity |]. split; [reflexivity |].
  split.
  - exact (proj1 (proj1 (proj1 (@separate_files_are_distinct sample_makedirs
                                  sample_mesh_export "out/model.tar.obj" "obj"
                                  [mkMesh [] []; mkMesh [(0, 0, 0)%float] []])
                           _ eq_refl)
                    1%nat (mkMesh [(0, 0, 0)%float] []) eq_refl)).
  - reflexivity.
Defined.

(** ** main: the bricks of --brick_types *)

Section CustomBricks.

Variable float_tuple : string -> result pyval.
Variable random_color : nat -> pyval.

Lemma custom_bricks_from_spec (positions : list string)
    (rotations : option (list string)) (with_colors : bool)
    (brick_types : list string) :
  forall i st st',
    custom_bricks_from float_tuple random_color i brick_types positions
      rotations with_colors st = Ok st' ->
    exists bs,
      fst st' = fst st ++ bs
      /\ length bs = Nat.min (length brick_types) (length positions - i)
      /\ snd st' = snd st ++ (if with_colors
                              then map random_color (seq i (length bs))
                              else [])
      /\ forall k b, nth_error bs k = Some b ->
           exists t pos_str,
             nth_error brick_types k = Some t
             /\ nth_error positions (i + k) = Some pos_str
             /\ brick_type b = PStr t
             /\ float_tuple pos_str = Ok (position b)
             /\ custom_rotation float_tuple rotations (i + k) = Ok (rotation b).
Proof.
  induction brick_types as [|t rest IH]; intros i st st' H; simpl in H.
  - injection H as <-. exists []. simpl.
    repeat split; [now rewrite app_nil_r
                  | destruct with_colors; simpl; now rewrite app_nil_r |].
    intros [|k] b E; discriminate.
  - destruct (Nat.leb_spec (length positions) i) as [Hle | Hgt].
    + injection H as <-. exists [].
      split; [now rewrite app_nil_r |].
      split; [cbn [length]; lia |].
      split; [destruct with_colors; simpl; now rewrite app_nil_r |].
      intros [|k] b E; discriminate.
    + destruct (nth_error positions i) as [pos_str |] eqn:Epos; [| discriminate].
      destruct (float_tuple pos_str) as [pos |] eqn:Ef; [| discriminate].
      simpl in H.
      destruct (custom_rotation float_tuple rotations i) as [rot |] eqn:Er;
        [| discriminate].
      simpl in H.
      destruct (IH _ _ _ H) as (bs & Hb & Hlen & Hc & Hnth). simpl in Hb, Hc.
      exists (mkBrick (PStr t) pos rot :: bs).
      split; [now rewrite Hb, <- app_assoc |].
      split; [cbn [length]; rewrite Hlen; lia |].
      split.
      { rewrite Hc. destruct with_colors; simpl.
        - now rewrite <- app_assoc.
        - now rewrite app_nil_r. }
      intros [|k] b E; simpl in E.
      * injection E as <-. exists t, pos_str. rewrite Nat.add_0_r. simpl. auto.
      * destruct (Hnth k b E) as (t' & ps' & H1 & H2 & H3 & H4 & H5).
        exists t', ps'. rewrite Nat.add_succ_r. simpl. auto.
Qed.

End CustomBricks.

(** X12: when the loop of [main] over [--brick_types] ends without error, it
    has built as many bricks as there are types or positions, whichever are
    fewer, and with [--with_colors] exactly one colour for each of them,
    none otherwise. *)
Theorem custom_route_counts :
  forall (float_tuple : string -> result pyval) (random_color : nat -> pyval)
         (brick_types positions : list string)
         (rotations : option (list string)) (with_colors : bool)
         (st : collected),
    custom_bricks_from float_tuple random_color 0 brick_types positions
      rotations with_colors ([], []) = Ok st ->
    length (fst st) = Nat.min (length brick_types) (length positions)
    /\ snd st = (if with_colors
                 then map random_color (seq 0 (length (fst st)))
                 else [])
    /\ length (snd st) = (if with_colors then length (fst st) else 0%nat).
Proof.
  intros float_tuple random_color brick_types positions rotations with_colors
         st H.
  destruct (custom_bricks_from_spec _ _ _ _ _ _ _ _ H)
    as (bs & Hb & Hlen & Hc & _).
  simpl in Hb, Hc. rewrite Hb, Hc, Hlen, Nat.sub_0_r.
  repeat split. destruct with_colors; [| reflexivity].
  now rewrite length_map, length_seq.
Qed.

(** X13: the brick that the loop of [main] builds at index [k] has the type
    of index [k], the position parsed from the position of index [k], and for
    its rotation the one parsed from the rotation of index [k] when there is
    one, the identity quaternion when [--rotations] is absent or too short:
    a short list of rotations is used as far as it goes. *)
Theorem custom_route_bricks :
  forall (float_tuple : string -> result pyval) (random_color : nat -> pyval)
         (brick_types positions : list string)
         (rotations : option (list string)) (with_colors : bool)
         (st : collected) (k : nat) (b : Brick),
    custom_bricks_from float_tuple random_color 0 brick_types positions
      rotations with_colors ([], []) = Ok st ->
    nth_error (fst st) k = Some b ->
    (exists t pos_str,
       nth_error brick_types k = Some t
       /\ nth_error positions k = Some pos_str
       /\ brick_type b = PStr t
       /\ float_tuple pos_str = Ok (position b))
    /\ (forall rs rot_str,
          rotations = Some rs -> nth_error rs k = Some rot_str ->
          float_tuple rot_str = Ok (rotation b))
    /\ (match rotations with
        | Some rs => (length rs <= k)%nat
        | None => True
        end -> rotation b = identity_quaternion).
Proof.
  intros float_tuple random_color brick_types positions rotations with_colors
         st k b H Hk.
  destruct (custom_bricks_from_spec _ _ _ _ _ _ _ _ H)
    as (bs & Hb & _ & _ & Hnth).
  simpl in Hb. rewrite Hb in Hk.
  destruct (Hnth k b Hk) as (t & pos_str & H1 & H2 & H3 & H4 & H5).
  simpl in H2, H5.
  split; [now exists t, pos_str | split].
  - intros rs rot_str -> Hrs. simpl in H5.
    assert (Hlt : (k < length rs)%nat) by (apply nth_error_Some; congruence).
    replace (Nat.eqb (length rs) 0) with false in H5
      by (symmetry; apply Nat.eqb_neq; lia).
    replace (Nat.ltb k (length rs)) with true in H5
      by (symmetry; apply Nat.ltb_lt; lia).
    simpl in H5. now rewrite Hrs in H5.
  - destruct rotations as [rs |]; simpl in H5.
    + intros Hle.
      replace (Nat.ltb k (length rs)) with false in H5
        by (symmetry; apply Nat.ltb_ge; lia).
      rewrite andb_false_r in H5. now injection H5.
    + intros _. now injection H5.
Qed.

Lemma custom_route_counts_witness :
  custom_bricks_from sample_float_tuple sample_random_color 0
    ["3001"; "3002"; "3001"] ["0,0,0"; "20,0,0"] (Some ["0,1,0,0"]) true ([], [])
  = Ok ([mkBrick (PStr "3001") (PTuple [PFloat 0; PFloat 0; PFloat 0])
                 (PTuple [PFloat 0; PFloat 1; PFloat 0; PFloat 0]);
         mkBrick (PStr "3002") (PTuple [PFloat 20; PFloat 0; PFloat 0])
                 identity_quaternion],
        [sample_random_color 0; sample_random_color 1])
  /\ (length [mkBrick (PStr "3001") (PTuple [PFloat 0; PFloat 0; PFloat 0])
                      (PTuple [PFloat 0; PFloat 1; PFloat 0; PFloat 0]);
              mkBrick (PStr "3002") (PTuple [PFloat 20; PFloat 0; PFloat 0])
                      identity_quaternion]
      = Nat.min 3 2
      /\ [sample_random_color 0; sample_random_color 1]
         = map sample_random_color (seq 0 2)
      /\ length [sample_random_color 0; sample_random_color 1] = 2%nat).
Proof.
  split; [reflexivity |].
  apply (@custom_route_counts sample_float_tuple sample_random_color
           ["3001"; "3002"; "3001"] ["0,0,0"; "20,0,0"] (Some ["0,1,0,0"]) true
           ([mkBrick (PStr "3001") (PTuple [PFloat 0; PFloat 0; PFloat 0])
                     (PTuple [PFloat 0; PFloat 1; PFloat 0; PFloat 0]);
             mkBrick (PStr "3002") (PTuple [PFloat 20; PFloat 0; PFloat 0])
                     identity_quaternion],
            [sample_random_color 0; sample_random_color 1])).
  reflexivity.
Defined.

Lemma custom_route_bricks_witness :
  (exists t pos_str,
     nth_error ["3001"; "3002"; "3001"] 1 = Some t
     /\ nth_error ["0,0,0"; "20,0,0"] 1 = Some pos_str
     /\ PStr "3002" = PStr t
     /\ sample_float_tuple pos_str
        = Ok (PTuple [PFloat 20; PFloat 0; PFloat 0]))
  /\ (forall rs rot_str,
        Some ["0,1,0,0"] = Some rs -> nth_error rs 1 = Some rot_str ->
        sample_float_tuple rot_str = Ok identity_quaternion)
  /\ ((1 <= 1)%nat -> identity_quaternion = identity_quaternion).
Proof.
  apply (@custom_route_bricks sample_float_tuple sample_random_color
           ["3001"; "3002"; "3001"] ["0,0,0"; "20,0,0"] (Some ["0,1,0,0"]) true
           ([mkBrick (PStr "3001") (PTuple [PFloat 0; PFloat 0; PFloat 0])
                     (PTuple [PFloat 0; PFloat 1; PFloat 0; PFloat 0]);
             mkBrick (PStr "3002") (PTuple [PFloat 20; PFloat 0; PFloat 0])
                     identity_quaternion],
            [sample_random_color 0; sample_random_color 1])
           1
           (mkBrick (PStr "3002") (PTuple [PFloat 20; PFloat 0; PFloat 0])
                    identity_quaternion));
    reflexivity.
Defined.

(** ** main: its routes *)

Lemma convert_from_length (brick2mesh : Brick -> pyval -> result Mesh)
    (colors : option (list pyval)) (bricks : list Brick) :
  forall i acc ms,
    convert_from brick2mesh colors i bricks acc = Ok ms ->
    length ms = (length acc + length bricks)%nat.
Proof.
  induction bricks as [|b bricks IH]; intros i acc ms H; simpl in H.
  - injection H as <-. simpl. lia.
  - destruct (convert_at brick2mesh colors i b) as [m |]; [| discriminate].
    simpl in H. apply IH in H. rewrite H, length_app. simpl. lia.
Qed.

Section Routes.

Variable brick2mesh : Brick -> pyval -> result Mesh.
Variable dict_to_cbrick : pyval -> bool -> result (list Brick).
Variable makedirs : string -> result unit.
Variable mesh_export : Mesh -> string -> option string -> result unit.
Variable load_json : string -> result pyval.
Variable BricksPC : Type.
Variable load_bricks_pc : string -> result BricksPC.
Variable get_elements : BricksPC -> result (list Brick).
Variable float_tuple : string -> result pyval.
Variable random_color : nat -> pyval.

Lemma exported_paths_script (flag : bool) (script_path mesh_path : string) :
  exported_paths (if flag then [WriteScript script_path mesh_path] else []) = [].
Proof. now destruct flag. Qed.

(** In separate mode over [--brick_types], [main] writes the files of
    [export_separate] for as many meshes as types or positions. *)
Lemma main_separate_paths (args : export_args) (t : string)
    (ts positions : list string) (evs : list main_event) :
  given (arg_brick_type args) = None ->
  arg_brick_types args = Some (t :: ts) ->
  arg_positions args = Some positions ->
  arg_separate args = true ->
  main brick2mesh dict_to_cbrick makedirs mesh_export load_json load_bricks_pc get_elements
       float_tuple random_color args = Ok evs ->
  exported_paths evs
  = map (separate_file
           (fst (splitext (normalized_output (arg_format args) (arg_output args))))
           (snd (splitext (normalized_output (arg_format args) (arg_output args)))))
        (seq 0 (Nat.min (length (t :: ts)) (length positions))).
Proof.
  intros Hbt Hts Hpos Hsep. unfold main, main_route.
  rewrite Hbt, Hts, Hpos, Hsep.
  destruct positions as [|p ps]; [discriminate |].
  destruct (custom_bricks_from float_tuple random_color 0 (t :: ts) (p :: ps)
              (arg_rotations args) (arg_with_colors args) ([], []))
    as [st |] eqn:Est; [| discriminate].
  cbn [bind negb]. unfold export_bricks_to_mesh.
  destruct (convert_from brick2mesh
              (if arg_with_colors args then Some (snd st) else None) 0
              (fst st) []) as [ms |] eqn:Ems; [| discriminate].
  cbn [bind fst snd map app].
  destruct (export_separate makedirs mesh_export _ _ ms) as [written |] eqn:Ew;
    [| discriminate].
  cbn [bind]. intros H. injection H as <-.
  rewrite exported_paths_app, exported_paths_script, app_nil_r.
  destruct (export_separate_ok _ _ _ _ _ Ew) as (_ & -> & _).
  apply convert_from_length in Ems.
  destruct (custom_bricks_from_spec _ _ _ _ _ _ _ _ Est) as (bs & Hb & Hlen & _).
  simpl in Hb. rewrite Nat.sub_0_r in Hlen.
  now rewrite Ems, Hb, Hlen.
Qed.

End Routes.

(** X14: with [--brick_types], [--positions] and [--separate], and no
    [--brick_type], a run of [main] that ends without error has written
    exactly as many mesh files as there are types or positions, whichever are
    fewer, to pairwise distinct paths. *)
Theorem main_separate_one_file_per_brick :
  forall (brick2mesh : Brick -> pyval -> result Mesh)
         (dict_to_cbrick : pyval -> bool -> result (list Brick))
         (makedirs : string -> result unit)
         (mesh_export : Mesh -> string -> option string -> result unit)
         (load_json : string -> result pyval) (BricksPC : Type)
         (load_bricks_pc : string -> result BricksPC)
         (get_elements : BricksPC -> result (list Brick))
         (float_tuple : string -> result pyval) (random_color : nat -> pyval)
         (args : export_args) (t : string) (ts positions : list string)
         (evs : list main_event),
    given (arg_brick_type args) = None ->
    arg_brick_types args = Some (t :: ts) ->
    arg_positions args = Some positions ->
    arg_separate args = true ->
    main brick2mesh dict_to_cbrick makedirs mesh_export load_json load_bricks_pc get_elements
         float_tuple random_color args = Ok evs ->
    length (exported_paths evs)
    = Nat.min (length (t :: ts)) (length positions)
    /\ NoDup (exported_paths evs).
Proof.
  intros brick2mesh dict_to_cbrick makedirs mesh_export load_json BricksPC load_bricks_pc
         get_elements float_tuple random_color args t ts positions evs
         Hbt Hts Hpos Hsep Hmain.
  rewrite (@main_separate_paths _ _ _ _ _ _ _ _ _ _ args t ts positions evs Hbt Hts Hpos Hsep Hmain).
  split; [now rewrite length_map, length_seq | apply separate_paths_NoDup].
Qed.

Lemma main_separate_witness :
  main sample_brick2mesh sample_expander sample_makedirs sample_mesh_export
       sample_load_json
       sample_load_bricks_pc sample_get_elements sample_float_tuple
       sample_random_color custom_args
  = Ok custom_args_events
  /\ (length (exported_paths custom_args_events)
      = Nat.min (length ["3001"; "3002"; "3001"]) (length ["0,0,0"; "20,0,0"])
      /\ NoDup (exported_paths custom_args_events)).
Proof.
  split; [reflexivity |].
  apply (@main_separate_one_file_per_brick sample_brick2mesh sample_expander sample_makedirs
           sample_mesh_export
           sample_load_json (list Brick) sample_load_bricks_pc
           sample_get_elements sample_float_tuple sample_random_color
           custom_args "3001" ["3002"; "3001"] ["0,0,0"; "20,0,0"]
           custom_args_events);
    reflexivity.
Defined.

(** X15: with [--brick_type], [main] depends on nothing but that type,
    [--output], [--format], [--with_colors] and [--create_blender_script]:
    [--separate] and the other inputs are ignored, and a run that ends
    without error has written one mesh file, at the output path [main]
    settled on. *)
Theorem single_brick_route_ignores_the_rest :
  forall (brick2mesh : Brick -> pyval -> result Mesh)
         (dict_to_cbrick : pyval -> bool -> result (list Brick))
         (makedirs : string -> result unit)
         (mesh_export : Mesh -> string -> option string -> result unit)
         (load_json : string -> result pyval) (BricksPC : Type)
         (load_bricks_pc : string -> result BricksPC)
         (get_elements : BricksPC -> result (list Brick))
         (float_tuple : string -> result pyval) (random_color : nat -> pyval)
         (args args' : export_args) (bt : string),
    given (arg_brick_type args) = Some bt ->
    arg_brick_type args' = arg_brick_type args ->
    arg_output args' = arg_output args ->
    arg_format args' = arg_format args ->
    arg_with_colors args' = arg_with_colors args ->
    arg_create_blender_script args' = arg_create_blender_script args ->
    main brick2mesh dict_to_cbrick makedirs mesh_export load_json load_bricks_pc get_elements
         float_tuple random_color args'
    = main brick2mesh dict_to_cbrick makedirs mesh_export load_json load_bricks_pc get_elements
           float_tuple random_color args
    /\ forall evs,
         main brick2mesh dict_to_cbrick makedirs mesh_export load_json load_bricks_pc get_elements
              float_tuple random_color args = Ok evs ->
         exported_paths evs
         = [normalized_output (arg_format args) (arg_output args)].
Proof.
  intros brick2mesh dict_to_cbrick makedirs mesh_export load_json BricksPC load_bricks_pc
         get_elements float_tuple random_color args args' bt
         Hbt E1 E2 E3 E4 E5.
  unfold main, main_route. rewrite E1, E2, E3, E4, E5, Hbt.
  split; [reflexivity |].
  intros evs.
  destruct (export_brick_to_mesh brick2mesh _ _) as [mesh |]; [| discriminate].
  cbn [bind fst snd map app].
  destruct (export_to_file makedirs mesh_export mesh _ _) as [written |] eqn:Ew;
    [| discriminate].
  cbn [bind]. intros H. injection H as <-.
  destruct (export_to_file_paths _ _ _ _ _ Ew) as [_ Hp].
  rewrite exported_paths_app, Hp.
  now destruct (arg_create_blender_script args).
Qed.

Lemma single_brick_route_witness :
  main sample_brick2mesh sample_expander sample_makedirs sample_mesh_export
       sample_load_json
       sample_load_bricks_pc sample_get_elements sample_float_tuple
       sample_random_color single_args_bare
  = main sample_brick2mesh sample_expander sample_makedirs sample_mesh_export
       sample_load_json
         sample_load_bricks_pc sample_get_elements sample_float_tuple
         sample_random_color single_args
  /\ forall evs,
       main sample_brick2mesh sample_expander sample_makedirs sample_mesh_export
       sample_load_json
            sample_load_bricks_pc sample_get_elements sample_float_tuple
            sample_random_color single_args = Ok evs ->
       exported_paths evs
       = [normalized_output (arg_format single_args) (arg_output single_args)].
Proof.
  apply (@single_brick_route_ignores_the_rest sample_brick2mesh sample_expander sample_makedirs
           sample_mesh_export
           sample_load_json (list Brick) sample_load_bricks_pc
           sample_get_elements sample_float_tuple sample_random_color
           single_args single_args_bare "3001");
    reflexivity.
Defined.

(** ** The bricks of create_custom_assembly and of render_custom_bricks *)

Lemma zip3_length {A B C : Type} (a : list A) :
  forall (b : list B) (c : list C),
    length (zip3 a b c)
    = Nat.min (Nat.min (length a) (length b)) (length c).
Proof.
  induction a as [|x a IH]; intros [|y b] [|z c]; cbn [zip3 length];
    try reflexivity; try lia.
  rewrite IH. lia.
Qed.

Lemma custom_bricks_nth_error (brick_types : list pyval) :
  forall positions rotations i b,
    nth_error (custom_bricks brick_types positions rotations) i = Some b ->
    nth_error brick_types i = Some (brick_type b)
    /\ nth_error positions i = Some (position b)
    /\ nth_error rotations i = Some (rotation b).
Proof.
  unfold custom_bricks.
  induction brick_types as [|t ts IH]; intros [|p ps] [|r rs] [|i] b H;
    simpl in H; try discriminate.
  - injection H as <-. simpl. auto.
  - simpl. now apply IH.
Qed.

(** X16: whatever [rotations] is, [create_custom_assembly] builds as many
    bricks as there are types or positions, whichever are fewer: positions
    missing for the last types drop those bricks without an error. *)
Theorem assembly_brick_count :
  forall (brick_types positions : list pyval) (rotations : option (list pyval)),
    length (assembly_bricks brick_types positions rotations)
    = Nat.min (length brick_types) (length positions).
Proof.
  intros brick_types positions rotations.
  unfold assembly_bricks. rewrite length_map, zip3_length.
  assert (H : length (assembly_rotations brick_types rotations)
              = length brick_types).
  { unfold assembly_rotations.
    destruct rotations as [rs |].
    - destruct (Nat.eqb_spec (length rs) (length brick_types)) as [E | _];
        simpl; [exact E | apply repeat_length].
    - rewrite repeat_length, Nat.eqb_refl. simpl. apply repeat_length. }
  rewrite H. lia.
Qed.

(** X17: when [rotations] has the length of [brick_types],
    [create_custom_assembly] builds the bricks that [render_custom_bricks]
    builds from the same lists: the brick of index [i] has the rotation of
    index [i], as supplied. *)
Theorem matching_rotations_are_used :
  forall (brick_types positions rotations : list pyval),
    length rotations = length brick_types ->
    assembly_bricks brick_types positions (Some rotations)
    = custom_bricks brick_types positions rotations
    /\ (forall i b,
          nth_error (assembly_bricks brick_types positions (Some rotations)) i
          = Some b ->
          nth_error rotations i = Some (rotation b))
    /\ (forall (Image : Type)
               (visualize_bricks : list Brick -> bool -> bool -> result Image)
               (highlight : bool),
          create_custom_assembly visualize_bricks brick_types positions
            (Some rotations) highlight
          = visualize_bricks (custom_bricks brick_types positions rotations)
              highlight true).
Proof.
  intros brick_types positions rotations Hlen.
  assert (E : assembly_bricks brick_types positions (Some rotations)
              = custom_bricks brick_types positions rotations).
  { unfold assembly_bricks, assembly_rotations, custom_bricks.
    now rewrite Hlen, Nat.eqb_refl. }
  split; [exact E | split].
  - intros i b H. rewrite E in H.
    now destruct (custom_bricks_nth_error _ _ _ _ H) as (_ & _ & Hr).
  - intros Image visualize_bricks highlight.
    unfold create_custom_assembly. now rewrite E.
Qed.

Lemma matching_rotations_witness :
  assembly_bricks [PStr "3001"; PStr "3002"] [PNone; PNone]
    (Some [PInt 7; identity_quaternion])
  = custom_bricks [PStr "3001"; PStr "3002"] [PNone; PNone]
      [PInt 7; identity_quaternion]
  /\ (forall i b,
        nth_error (assembly_bricks [PStr "3001"; PStr "3002"] [PNone; PNone]
                     (Some [PInt 7; identity_quaternion])) i
        = Some b ->
        nth_error [PInt 7; identity_quaternion] i = Some (rotation b))
  /\ (forall (Image : Type)
             (visualize_bricks : list Brick -> bool -> bool -> result Image)
             (highlight : bool),
        create_custom_assembly visualize_bricks [PStr "3001"; PStr "3002"]
          [PNone; PNone] (Some [PInt 7; identity_quaternion]) highlight
        = visualize_bricks
            (custom_bricks [PStr "3001"; PStr "3002"] [PNone; PNone]
               [PInt 7; identity_quaternion])
            highlight true).
Proof.
  apply (@matching_rotations_are_used [PStr "3001"; PStr "3002"] [PNone; PNone]
           [PInt 7; identity_quaternion]).
  reflexivity.
Defined.

(** X18: [render_custom_bricks] checks no length: it builds as many bricks
    as the shortest of its three lists has elements, the brick of index [i]
    from the type, the position and the rotation of index [i], and what is
    left of the longer lists is dropped without an error. *)
Theorem render_custom_bricks_truncates :
  forall (brick_types positions rotations : list pyval),
    length (custom_bricks brick_types positions rotations)
    = Nat.min (Nat.min (length brick_types) (length positions))
              (length rotations)
    /\ forall i b,
         nth_error (custom_bricks brick_types positions rotations) i = Some b ->
         nth_error brick_types i = Some (brick_type b)
         /\ nth_error positions i = Some (position b)
         /\ nth_error rotations i = Some (rotation b).
Proof.
  intros brick_types positions rotations. split.
  - unfold custom_bricks. now rewrite length_map, zip3_length.
  - apply custom_bricks_nth_error.
Qed.

(** ** The menu: the bricks typed at choice 3 *)

Section MenuProperties.

Variable py_float : string -> option float.

Lemma read_bricks_spec (lines : list string) :
  forall ts ps rs ts' ps' rs' rest,
    read_bricks py_float lines (ts, ps, rs) = Ok ((ts', ps', rs'), rest) ->
    exists before done_line new,
      lines = before ++ done_line :: rest
      /\ is_done done_line = true
      /\ Forall (fun raw => is_done raw = false) before
      /\ Forall2 (brick_of_line py_float) (filter has_brick before) new
      /\ ts' = ts ++ map brick_type new
      /\ ps' = ps ++ map position new
      /\ rs' = rs ++ map rotation new.
Proof.
  induction lines as [|raw lines IH]; intros ts ps rs ts' ps' rs' rest H;
    cbn [read_bricks] in H; [discriminate |].
  fold (line_parts raw) in H. fold (is_done raw) in H.
  destruct (is_done raw) eqn:Ed.
  - injection H as <- <- <- <-. exists [], raw, []. simpl.
    rewrite !app_nil_r. repeat split; auto; constructor.
  - destruct (Nat.ltb (length (line_parts raw)) 4) eqn:El.
    + destruct (IH _ _ _ _ _ _ _ H)
        as (before & done_line & new & -> & Hdone & Hnot & Hnew & Et & Ep & Er).
      exists (raw :: before), done_line, new.
      assert (Hb : has_brick raw = false).
      { unfold has_brick. apply Nat.ltb_lt in El. apply Nat.leb_gt. lia. }
      cbn [filter]. rewrite Hb.
      repeat split; auto.
    + assert (Hb : has_brick raw = true).
      { unfold has_brick. apply Nat.ltb_ge in El. now apply Nat.leb_le. }
      destruct (line_parts raw) as [|t parts] eqn:Eparts; [discriminate |].
      destruct (float_parts py_float (firstn 3 (skipn 1 (t :: parts))))
        as [pos |] eqn:Epos; [| discriminate].
      cbn [bind] in H.
      destruct (if Nat.leb 8 (length (t :: parts))
                then fs <- float_parts py_float
                             (firstn 4 (skipn 4 (t :: parts)));;
                     Ok (PTuple fs)
                else Ok identity_quaternion) as [rot |] eqn:Erot;
        [| discriminate].
      cbn [bind] in H.
      destruct (IH _ _ _ _ _ _ _ H)
        as (before & done_line & new & -> & Hdone & Hnot & Hnew & Et & Ep & Er).
      exists (raw :: before), done_line,
             (mkBrick (PStr t) (PTuple pos) rot :: new).
      cbn [filter]. rewrite Hb.
      split; [reflexivity |]. split; [exact Hdone |].
      split; [now constructor |].
      split.
      * constructor; [| exact Hnew].
        unfold brick_of_line. rewrite Eparts. cbn [brick_type position rotation].
        split; [now exists t |]. split; [now exists pos |].
        destruct (Nat.leb 8 (length (t :: parts))).
        -- destruct (float_parts py_float (firstn 4 (skipn 4 (t :: parts))))
             as [fs |]; [| discriminate].
           cbn [bind] in Erot. injection Erot as <-. now exists fs.
        -- now injection Erot as <-.
      * cbn [map brick_type position rotation].
        rewrite Et, Ep, Er, <- !app_assoc. auto.
Qed.

End MenuProperties.

Lemma custom_bricks_of_bricks (bricks : list Brick) :
  custom_bricks (map brick_type bricks) (map position bricks)
    (map rotation bricks) = bricks.
Proof.
  unfold custom_bricks.
  induction bricks as [|[t p r] bricks IH]; simpl; [reflexivity |].
  now rewrite IH.
Qed.

(** X19: when the user types done, choice 3 of the menu has read the lines
    before it, and the three lists it has built hold, in order, one brick for
    each of those lines that has four fields at least: the type, the position
    and the rotation read from that line, the rotation being the identity
    quaternion when the line has fewer than eight fields.  The three lists
    have the same length, so [create_custom_assembly], called on them,
    discards no rotation and drops no brick: it renders those bricks. *)
Theorem menu_lists_stay_aligned :
  forall (py_float : string -> option float) (lines rest : list string)
         (brick_types positions rotations : list pyval),
    read_bricks py_float lines ([], [], [])
    = Ok ((brick_types, positions, rotations), rest) ->
    (exists before done_line,
       lines = before ++ done_line :: rest
       /\ is_done done_line = true
       /\ Forall (fun raw => is_done raw = false) before
       /\ Forall2 (brick_of_line py_float) (filter has_brick before)
                  (custom_bricks brick_types positions rotations))
    /\ length positions = length brick_types
    /\ length rotations = length brick_types
    /\ assembly_bricks brick_types positions (Some rotations)
       = custom_bricks brick_types positions rotations
    /\ length (custom_bricks brick_types positions rotations)
       = length brick_types
    /\ (forall (Image : Type)
               (visualize_bricks : list Brick -> bool -> bool -> result Image),
          menu_custom_assembly py_float visualize_bricks lines
          = match brick_types with
            | [] => Ok None
            | _ =>
                match rest with
                | [] => Raise EOFError
                | answer :: _ =>
                    image <- visualize_bricks
                               (custom_bricks brick_types positions rotations)
                               (String.eqb (lower (str_strip answer)) "y") true;;
                    Ok (Some image)
                end
            end).
Proof.
  intros py_float lines rest brick_types positions rotations H.
  destruct (@read_bricks_spec py_float lines [] [] [] _ _ _ _ H)
    as (before & done_line & new & Hlines & Hdone & Hnot & Hnew & Et & Ep & Er).
  cbn [app] in Et, Ep, Er.
  assert (Hp : length positions = length brick_types)
    by (now rewrite Et, Ep, !length_map).
  assert (Hr : length rotations = length brick_types)
    by (now rewrite Et, Er, !length_map).
  assert (E : assembly_bricks brick_types positions (Some rotations)
              = custom_bricks brick_types positions rotations).
  { unfold assembly_bricks, assembly_rotations, custom_bricks.
    now rewrite Hr, Nat.eqb_refl. }
  split; [| repeat split; try assumption].
  - exists before, done_line. repeat split; try assumption.
    now rewrite Et, Ep, Er, custom_bricks_of_bricks.
  - unfold custom_bricks. rewrite length_map, zip3_length. lia.
  - intros Image visualize_bricks. unfold menu_custom_assembly.
    rewrite H. cbn [bind fst snd].
    destruct brick_types as [|t ts]; [reflexivity |].
    destruct rest as [|answer rest]; [reflexivity |].
    unfold create_custom_assembly. now rewrite E.
Qed.

Lemma menu_lists_witness :
  read_bricks sample_float typed_lines ([], [], [])
  = Ok ((typed_brick_types, typed_positions, typed_rotations), ["y"])
  /\ ((exists before done_line,
         typed_lines = before ++ done_line :: ["y"]
         /\ is_done done_line = true
         /\ Forall (fun raw => is_done raw = false) before
         /\ Forall2 (brick_of_line sample_float) (filter has_brick before)
                    (custom_bricks typed_brick_types typed_positions
                       typed_rotations))
      /\ length typed_positions = length typed_brick_types
      /\ length typed_rotations = length typed_brick_types
      /\ assembly_bricks typed_brick_types typed_positions
           (Some typed_rotations)
         = custom_bricks typed_brick_types typed_positions typed_rotations
      /\ length (custom_bricks typed_brick_types typed_positions
                   typed_rotations)
         = length typed_brick_types
      /\ (forall (Image : Type)
                 (visualize_bricks : list Brick -> bool -> bool -> result Image),
            menu_custom_assembly sample_float visualize_bricks typed_lines
            = (image <- visualize_bricks
                          (custom_bricks typed_brick_types typed_positions
                             typed_rotations)
                          true true;;
               Ok (Some image)))).
Proof.
  split; [reflexivity |].
  apply (@menu_lists_stay_aligned sample_float typed_lines ["y"]
           typed_brick_types typed_positions typed_rotations).
  reflexivity.
Defined.

Example typed_lines_bricks :
  filter has_brick ["3001 0 0 0"; "3002 20"; "  3002 20 0 0 0 1 0 0  "]
  = ["3001 0 0 0"; "  3002 20 0 0 0 1 0 0  "]
  /\ brick_of_line sample_float "3001 0 0 0"
       (mkBrick (PStr "3001") (PTuple [PFloat 0; PFloat 0; PFloat 0])
                identity_quaternion)
  /\ brick_of_line sample_float "  3002 20 0 0 0 1 0 0  "
       (mkBrick (PStr "3002") (PTuple [PFloat 20; PFloat 0; PFloat 0])
                (PTuple [PFloat 0; PFloat 1; PFloat 0; PFloat 0])).
Proof.
  split; [reflexivity |].
  split; (split; [now eexists | split; [now eexists |]]);
    [reflexivity | now eexists].
Qed.

